(** * Configuration micro-service: OS templates and catalogs

    A shallow embedding of the request handlers of
    [app/routes/osTemplate.ts] and [app/routes/catalog.ts], together with
    the parts of the validation layer and of the entity store they call,
    and the properties of the resource contract that were checked on it. *)

From stdpp Require Import gmap strings list.
From Stdlib Require Import ZArith Ascii String.

Local Open Scope string_scope.
Local Open Scope Z_scope.

(** ** JavaScript values *)

(** A parsed JSON value, as it arrives in [req.body], in [req.query] and in
    the [X-API-Fields] / [X-API-Sort] headers.  Numbers are restricted to
    integers; [JOther] stands for an array or a nested object, which no
    rule of the schemas below accepts. *)
Inductive jvalue : Type :=
| JNull
| JBool (b : bool)
| JNum (n : Z)
| JStr (s : string)
| JOther.

(** A JavaScript number that a handler computes with: the result of
    [parseInt], of [page * limit] and of [Math.ceil (count / limit)].  Finite
    values are integers, [Fin 0] is the zero with the positive sign and
    [NegZero] the one with the negative sign; the model is exact as long as
    the values stay within the safe-integer range of a double. *)
Inductive jsnum : Type :=
| Fin (z : Z)
| NegZero
| NaN
| PosInf
| NegInf.

Definition is_finite (x : jsnum) : bool :=
  match x with Fin _ | NegZero => true | _ => false end.

(** The integer a finite number denotes; both zeros denote 0. *)
Definition js_int (x : jsnum) : Z :=
  match x with Fin z => z | _ => 0 end.

(** The sign bit. *)
Definition negative (x : jsnum) : bool :=
  match x with
  | Fin z => z <? 0
  | NegZero | NegInf => true
  | NaN | PosInf => false
  end.

(** [if (x)] on a number: the zeros and NaN are falsy. *)
Definition falsy (x : jsnum) : bool :=
  match x with
  | Fin z => z =? 0
  | NegZero | NaN => true
  | PosInf | NegInf => false
  end.

(** The finite number of magnitude [|z|] and the given sign. *)
Definition signed (neg : bool) (z : Z) : jsnum :=
  if z =? 0 then (if neg then NegZero else Fin 0)
  else Fin (if neg then - Z.abs z else Z.abs z).

(** [a * b]: the sign of a product is the exclusive or of the signs, also
    when the product is zero. *)
Definition js_mul (a b : jsnum) : jsnum :=
  match a, b with
  | NaN, _ | _, NaN => NaN
  | (PosInf | NegInf), (Fin _ | NegZero) =>
      if js_int b =? 0 then NaN
      else if xorb (negative a) (negative b) then NegInf else PosInf
  | (Fin _ | NegZero), (PosInf | NegInf) =>
      if js_int a =? 0 then NaN
      else if xorb (negative a) (negative b) then NegInf else PosInf
  | (PosInf | NegInf), (PosInf | NegInf) =>
      if xorb (negative a) (negative b) then NegInf else PosInf
  | (Fin _ | NegZero), (Fin _ | NegZero) =>
      signed (xorb (negative a) (negative b)) (js_int a * js_int b)
  end.

(** [Math.ceil (count / limit)] for an integer [count].  A division by a
    zero gives an infinity of the sign of the quotient, or NaN for [0 / 0];
    a quotient in the interval from -1 to -0 is rounded to the negative
    zero. *)
Definition js_ceil_div (count : Z) (limit : jsnum) : jsnum :=
  let neg := xorb (count <? 0) (negative limit) in
  match limit with
  | NaN => NaN
  | PosInf | NegInf => signed neg 0
  | Fin l =>
      if l =? 0 then (if count =? 0 then NaN else if neg then NegInf else PosInf)
      else signed neg (- ((- count) `div` l))
  | NegZero => if count =? 0 then NaN else if neg then NegInf else PosInf
  end.

(** *** Decimal numerals and [parseInt] *)

Definition is_digit (c : ascii) : bool :=
  let n := nat_of_ascii c in (48 <=? n)%nat && (n <=? 57)%nat.

Definition digit_value (c : ascii) : Z := Z.of_nat (nat_of_ascii c) - 48.

Definition is_space (c : ascii) : bool :=
  let n := nat_of_ascii c in
  (n =? 32)%nat || ((9 <=? n)%nat && (n <=? 13)%nat).

Fixpoint skip_spaces (s : string) : string :=
  match s with
  | String c s' => if is_space c then skip_spaces s' else s
  | EmptyString => s
  end.

(** Reads the longest prefix of digits; [None] when there is none. *)
Fixpoint read_digits (acc : option Z) (s : string) : option Z :=
  match s with
  | String c s' =>
      if is_digit c
      then read_digits (Some (10 * default 0 acc + digit_value c)) s'
      else acc
  | EmptyString => acc
  end.

(** [parseInt (s, 10)]: leading white space is skipped, a sign is read,
    then the longest run of digits; anything after it is ignored, and no
    digit at all gives [NaN].  A minus sign before zero gives the negative
    zero. *)
Definition parseInt (s : string) : jsnum :=
  match skip_spaces s with
  | String "-" s' => from_option (signed true) NaN (read_digits None s')
  | String "+" s' => from_option Fin NaN (read_digits None s')
  | s' => from_option Fin NaN (read_digits None s')
  end.

Fixpoint all_digits (s : string) : bool :=
  match s with
  | String c s' => is_digit c && all_digits s'
  | EmptyString => true
  end.

(** An optionally signed, non-empty run of digits. *)
Definition is_numeral (s : string) : bool :=
  match s with
  | String "-" s' | String "+" s' => negb (String.eqb s' EmptyString) && all_digits s'
  | _ => negb (String.eqb s EmptyString) && all_digits s
  end.

(** The number a value denotes when it is used as a column value or as a
    primary key in a store query. *)
Definition num_of (v : jvalue) : Z :=
  match v with
  | JNum n => n
  | JStr s => js_int (parseInt s)
  | _ => 0
  end.

Definition str_of (v : jvalue) : string :=
  match v with JStr s => s | _ => EmptyString end.

(** ** Error codes, messages and the response envelope *)

(** Modelled from the spec: the enum of [types/errors/codes], which is not
    part of the sources.  The handlers only name its members, so the codes
    are kept symbolic. *)
Inductive ErrorCodes : Type :=
| E401 | E1001 | E1002 | E1003 | E1004 | E1005 | E1006 | E1007 | E1008.

(** [types/errors/messages]. *)
Definition ErrorMessages (c : ErrorCodes) : string :=
  match c with
  | E401 => "You are not authorized to access this resource"
  | E1001 => "Error fetching data from resource"
  | E1002 => "Error fetching data from resource with provided identifier"
  | E1003 => "Error creating resource"
  | E1004 => "Error updating resource with provided identifier"
  | E1005 => "Error deleting resource with provided identifier"
  | E1006 => "Unable to find the requested resource with provided identifier"
  | E1007 => "Validation failed for the provided input"
  | E1008 => "Error uploading files to resource with provided identifier"
  end.

(** Modelled from the spec: the enum of [types/enums/Status], which is not
    part of the sources; [SUCCESS] and [ERROR] are serialised as the strings
    success and error of the envelope. *)
Inductive Status : Type := SUCCESS | ERROR | ACCESS_DENIED.

(** [HttpStatus.OK]. *)
Definition OK : Z := 200.

(** What [req.user?.id], the clock and the datastore contribute to one
    request.  A repository call that writes, and the paginated read, may
    raise (a lost connection, a constraint of the schema); the flags say
    whether they do during this request. *)
Record Env : Type := {
  user : option string;
  now : Z;
  save_raises : bool;
  softDelete_raises : bool;
  findAndCount_raises : bool;
}.

(** ** Validation layer *)

(** Modelled from the spec: the schema combinators of
    [utils/helpers/joi], which is not part of the sources.  A schema is the
    ordered list of the keys of [Joi.object().keys({...})]; each key has a
    type rule, may be [required()], and carries the message of its
    [error(new Error(...))].  A value is type-checked only when present, a
    key the schema does not list is rejected, and the first failure wins. *)
Module Joi.

Inductive rule : Type :=
| string_ (valid : list string)   (* Joi.string(), Joi.string().valid(...) *)
| number                          (* Joi.number() *)
| boolean (valid : option bool).  (* Joi.boolean(), Joi.boolean().valid(b) *)

Record key : Type := Key {
  name : string;
  type : rule;
  required : bool;
  error : string;
}.

Definition mem (s : string) (l : list string) : bool :=
  existsb (String.eqb s) l.

(** Strings are not empty; numbers may come as decimal numerals, booleans
    as the words true and false (query strings hold nothing else). *)
Definition accepts (r : rule) (v : jvalue) : bool :=
  match r, v with
  | string_ [], JStr s => negb (String.eqb s EmptyString)
  | string_ valid, JStr s => mem s valid
  | number, JNum _ => true
  | number, JStr s => is_numeral s
  | boolean None, JBool _ => true
  | boolean None, JStr s => mem s ["true"; "false"]
  | boolean (Some b), JBool b' => Bool.eqb b b'
  | boolean (Some b), JStr s => String.eqb s (if b then "true" else "false")
  | _, _ => false
  end.

Definition check (k : key) (o : gmap string jvalue) : option string :=
  match o !! name k with
  | None => if required k then Some (error k) else None
  | Some v => if accepts (type k) v then None else Some (error k)
  end.

Fixpoint first_error (ks : list key) (o : gmap string jvalue) : option string :=
  match ks with
  | [] => None
  | k :: ks' =>
      match check k o with
      | Some e => Some e
      | None => first_error ks' o
      end
  end.

Definition unknown (ks : list key) (o : gmap string jvalue) : list string :=
  List.filter (λ k, negb (mem k (List.map name ks))) (List.map fst (map_to_list o)).

Definition dquote : string := String (ascii_of_nat 34) EmptyString.

(** [label: Joi.object().keys(ks)] applied to the object [o]. *)
Definition object (label : string) (ks : list key) (o : gmap string jvalue)
  : option string :=
  match first_error ks o with
  | Some e => Some e
  | None =>
      match unknown ks o with
      | [] => None
      | k :: _ => Some (dquote +:+ label +:+ "." +:+ k +:+ dquote +:+ " is not allowed")
      end
  end.

(** [Joi.number().required().error(new Error(msg))] on the result of
    [parseInt]. *)
Definition number_required (x : jsnum) (msg : string) : option string :=
  if is_finite x then None else Some msg.

(** [schema.validate({...})]: the parts in the order of the schema. *)
Fixpoint validate (parts : list (option string)) : option string :=
  match parts with
  | [] => None
  | Some e :: _ => Some e
  | None :: parts' => validate parts'
  end.

End Joi.

(** ** Entities

    One module per entity class of [app/models].  A relation property
    ([@ManyToOne]) of an entity object holds the related entity when it was
    loaded or assigned and nothing otherwise; the table row holds the key of
    the join column instead. *)

Module OsFamily.
Record t : Type := mk {
  id : Z;
  name : string;
  shortName : string;
  createdBy : option string;
  updatedBy : option string;
  deletedBy : option string;
  createdAt : Z;
  updatedAt : Z;
  deletedAt : option Z;
}.
End OsFamily.

Module Location.
Record t : Type := mk {
  id : Z;
  name : string;
  availableNetworks : list string;
  createdBy : option string;
  updatedBy : option string;
  deletedBy : option string;
  createdAt : Z;
  updatedAt : Z;
  deletedAt : option Z;
}.
End Location.

Module ApprovalPolicy.
(** [IApprovalPolicyPolicies]. *)
Record policy : Type := mkPolicy {
  userGroups : string;
  expiresInDays : Z;
  defaultAction : string;
}.

Record t : Type := mk {
  id : Z;
  name : string;
  policies : list policy;
  createdBy : option string;
  updatedBy : option string;
  deletedBy : option string;
  createdAt : Z;
  updatedAt : Z;
  deletedAt : option Z;
}.
End ApprovalPolicy.

(** The table [os_template]. *)
Module os_template.
Record row : Type := mk {
  id : Z;
  name : string;
  templateId : string;
  osFamilyId : option Z;
  locationId : option Z;
  availableNetwork : string;
  createdBy : option string;
  updatedBy : option string;
  deletedBy : option string;
  createdAt : Z;
  updatedAt : Z;
  deletedAt : option Z;
}.
End os_template.

(** The class [OsTemplate]. *)
Module OsTemplate.
Record t : Type := mk {
  id : option Z;
  name : string;
  templateId : string;
  osFamily : option OsFamily.t;
  location : option Location.t;
  availableNetwork : string;
  createdBy : option string;
  updatedBy : option string;
  deletedBy : option string;
  createdAt : option Z;
  updatedAt : option Z;
  deletedAt : option Z;
}.

(** [new OsTemplate()]. *)
Definition new : t :=
  mk None EmptyString EmptyString None None EmptyString None None None None None None.

Definition set_name (v : string) (e : t) : t :=
  mk (id e) v (templateId e) (osFamily e) (location e) (availableNetwork e)
     (createdBy e) (updatedBy e) (deletedBy e) (createdAt e) (updatedAt e) (deletedAt e).
Definition set_templateId (v : string) (e : t) : t :=
  mk (id e) (name e) v (osFamily e) (location e) (availableNetwork e)
     (createdBy e) (updatedBy e) (deletedBy e) (createdAt e) (updatedAt e) (deletedAt e).
Definition set_osFamily (v : OsFamily.t) (e : t) : t :=
  mk (id e) (name e) (templateId e) (Some v) (location e) (availableNetwork e)
     (createdBy e) (updatedBy e) (deletedBy e) (createdAt e) (updatedAt e) (deletedAt e).
Definition set_location (v : Location.t) (e : t) : t :=
  mk (id e) (name e) (templateId e) (osFamily e) (Some v) (availableNetwork e)
     (createdBy e) (updatedBy e) (deletedBy e) (createdAt e) (updatedAt e) (deletedAt e).
Definition set_availableNetwork (v : string) (e : t) : t :=
  mk (id e) (name e) (templateId e) (osFamily e) (location e) v
     (createdBy e) (updatedBy e) (deletedBy e) (createdAt e) (updatedAt e) (deletedAt e).
Definition set_createdBy (v : option string) (e : t) : t :=
  mk (id e) (name e) (templateId e) (osFamily e) (location e) (availableNetwork e)
     v (updatedBy e) (deletedBy e) (createdAt e) (updatedAt e) (deletedAt e).
Definition set_updatedBy (v : option string) (e : t) : t :=
  mk (id e) (name e) (templateId e) (osFamily e) (location e) (availableNetwork e)
     (createdBy e) v (deletedBy e) (createdAt e) (updatedAt e) (deletedAt e).
Definition set_deletedBy (v : option string) (e : t) : t :=
  mk (id e) (name e) (templateId e) (osFamily e) (location e) (availableNetwork e)
     (createdBy e) (updatedBy e) v (createdAt e) (updatedAt e) (deletedAt e).
End OsTemplate.

(** The table [catalog]. *)
Module catalog.
Record row : Type := mk {
  id : Z;
  name : string;
  icon : option string;
  shortName : string;
  defaultTemplateId : option Z;
  defaultApprovalPolicyId : option Z;
  defaultLeasePeriod : Z;
  permittedMaxLeaseExtensions : Z;
  type : string;
  createdBy : option string;
  updatedBy : option string;
  deletedBy : option string;
  createdAt : Z;
  updatedAt : Z;
  deletedAt : option Z;
}.
End catalog.

(** The class [Catalog].  The two numeric attributes hold the value as it
    was assigned: the number read from the row, or the value of the body,
    which may be a numeral in a string. *)
Module Catalog.
Record t : Type := mk {
  id : option Z;
  name : string;
  icon : option string;
  shortName : string;
  defaultTemplate : option OsTemplate.t;
  defaultApprovalPolicy : option ApprovalPolicy.t;
  defaultLeasePeriod : jvalue;
  permittedMaxLeaseExtensions : jvalue;
  type : string;
  createdBy : option string;
  updatedBy : option string;
  deletedBy : option string;
  createdAt : option Z;
  updatedAt : option Z;
  deletedAt : option Z;
}.

(** [new Catalog()]. *)
Definition new : t :=
  mk None EmptyString None EmptyString None None JNull JNull EmptyString
     None None None None None None.

Definition set_name (v : string) (e : t) : t :=
  mk (id e) v (icon e) (shortName e) (defaultTemplate e) (defaultApprovalPolicy e)
     (defaultLeasePeriod e) (permittedMaxLeaseExtensions e) (type e)
     (createdBy e) (updatedBy e) (deletedBy e) (createdAt e) (updatedAt e) (deletedAt e).
Definition set_shortName (v : string) (e : t) : t :=
  mk (id e) (name e) (icon e) v (defaultTemplate e) (defaultApprovalPolicy e)
     (defaultLeasePeriod e) (permittedMaxLeaseExtensions e) (type e)
     (createdBy e) (updatedBy e) (deletedBy e) (createdAt e) (updatedAt e) (deletedAt e).
Definition set_defaultTemplate (v : OsTemplate.t) (e : t) : t :=
  mk (id e) (name e) (icon e) (shortName e) (Some v) (defaultApprovalPolicy e)
     (defaultLeasePeriod e) (permittedMaxLeaseExtensions e) (type e)
     (createdBy e) (updatedBy e) (deletedBy e) (createdAt e) (updatedAt e) (deletedAt e).
Definition set_defaultApprovalPolicy (v : ApprovalPolicy.t) (e : t) : t :=
  mk (id e) (name e) (icon e) (shortName e) (defaultTemplate e) (Some v)
     (defaultLeasePeriod e) (permittedMaxLeaseExtensions e) (type e)
     (createdBy e) (updatedBy e) (deletedBy e) (createdAt e) (updatedAt e) (deletedAt e).
Definition set_defaultLeasePeriod (v : jvalue) (e : t) : t :=
  mk (id e) (name e) (icon e) (shortName e) (defaultTemplate e) (defaultApprovalPolicy e)
     v (permittedMaxLeaseExtensions e) (type e)
     (createdBy e) (updatedBy e) (deletedBy e) (createdAt e) (updatedAt e) (deletedAt e).
Definition set_permittedMaxLeaseExtensions (v : jvalue) (e : t) : t :=
  mk (id e) (name e) (icon e) (shortName e) (defaultTemplate e) (defaultApprovalPolicy e)
     (defaultLeasePeriod e) v (type e)
     (createdBy e) (updatedBy e) (deletedBy e) (createdAt e) (updatedAt e) (deletedAt e).
Definition set_type (v : string) (e : t) : t :=
  mk (id e) (name e) (icon e) (shortName e) (defaultTemplate e) (defaultApprovalPolicy e)
     (defaultLeasePeriod e) (permittedMaxLeaseExtensions e) v
     (createdBy e) (updatedBy e) (deletedBy e) (createdAt e) (updatedAt e) (deletedAt e).
Definition set_createdBy (v : option string) (e : t) : t :=
  mk (id e) (name e) (icon e) (shortName e) (defaultTemplate e) (defaultApprovalPolicy e)
     (defaultLeasePeriod e) (permittedMaxLeaseExtensions e) (type e)
     v (updatedBy e) (deletedBy e) (createdAt e) (updatedAt e) (deletedAt e).
Definition set_updatedBy (v : option string) (e : t) : t :=
  mk (id e) (name e) (icon e) (shortName e) (defaultTemplate e) (defaultApprovalPolicy e)
     (defaultLeasePeriod e) (permittedMaxLeaseExtensions e) (type e)
     (createdBy e) v (deletedBy e) (createdAt e) (updatedAt e) (deletedAt e).
Definition set_deletedBy (v : option string) (e : t) : t :=
  mk (id e) (name e) (icon e) (shortName e) (defaultTemplate e) (defaultApprovalPolicy e)
     (defaultLeasePeriod e) (permittedMaxLeaseExtensions e) (type e)
     (createdBy e) (updatedBy e) v (createdAt e) (updatedAt e) (deletedAt e).
End Catalog.

(** ** Response envelope *)

Inductive payload : Type :=
| PStatus (s : Status)
| PCode (c : ErrorCodes)
| PText (s : string)
| PNumber (n : jsnum)
| POsTemplate (e : OsTemplate.t)
| POsTemplates (l : list os_template.row)
| PCatalog (e : Catalog.t)
| PCatalogs (l : list catalog.row).

(** What a handler leaves on [res]: [res.status(code).send({ ... })], with
    the HTTP status and the properties of the object sent, in the order they
    are written; or nothing, when an awaited call of the handler is rejected
    outside of every [try] and the request is never answered. *)
Inductive Response : Type :=
| send (status : Z) (body : list (string * payload))
| unanswered.

Definition status (r : Response) : Z :=
  match r with send s _ => s | unanswered => 0 end.

Definition body (r : Response) : list (string * payload) :=
  match r with send _ b => b | unanswered => [] end.

(** The property [k] of a response body. *)
Fixpoint prop (k : string) (o : list (string * payload)) : option payload :=
  match o with
  | [] => None
  | (k', v) :: o' => if String.eqb k k' then Some v else prop k o'
  end.

(** The error envelope [{ status: "error", code, error }]. *)
Definition is_error_envelope (r : Response) (c : ErrorCodes) (msg : string) : Prop :=
  status r = OK ∧
  prop "status" (body r) = Some (PStatus ERROR) ∧
  prop "code" (body r) = Some (PCode c) ∧
  prop "error" (body r) = Some (PText msg).

Definition is_success (r : Response) : Prop :=
  status r = OK ∧ prop "status" (body r) = Some (PStatus SUCCESS).

(** ** Entity store

    The datastore behind [DB.getDataStore()]: one table per entity, keyed by
    the generated primary key, a 32-bit integer column.  The repository
    operations the handlers call are modelled on the store interface: reads
    skip soft-deleted rows and raise for a key that does not fit the key
    column; [save] inserts an entity without id under a new key and
    otherwise updates the columns of the row of that id whose value differs,
    stamping [updatedAt] when there is one; [softDelete] stamps [deletedAt]
    and [updatedAt] and reports the number of rows it touched. *)
Record DataStore : Type := {
  tbl_os_family : gmap Z OsFamily.t;
  tbl_location : gmap Z Location.t;
  tbl_approval_policy : gmap Z ApprovalPolicy.t;
  tbl_os_template : gmap Z os_template.row;
  tbl_catalog : gmap Z catalog.row;
}.

Definition with_os_template (t : gmap Z os_template.row) (ds : DataStore) : DataStore :=
  {| tbl_os_family := tbl_os_family ds; tbl_location := tbl_location ds;
     tbl_approval_policy := tbl_approval_policy ds;
     tbl_os_template := t; tbl_catalog := tbl_catalog ds |}.

Definition with_catalog (t : gmap Z catalog.row) (ds : DataStore) : DataStore :=
  {| tbl_os_family := tbl_os_family ds; tbl_location := tbl_location ds;
     tbl_approval_policy := tbl_approval_policy ds;
     tbl_os_template := tbl_os_template ds; tbl_catalog := t |}.

(** The value of a column, as ORDER BY compares it. *)
Inductive cell : Type :=
| CNull
| CNum (z : Z)
| CStr (s : string).

Definition cell_compare (a b : cell) : comparison :=
  match a, b with
  | CNum x, CNum y => x ?= y
  | CStr x, CStr y => String.compare x y
  | CNull, CNull => Eq
  | CNull, _ => Gt
  | _, CNull => Lt
  | CNum _, CStr _ => Lt
  | CStr _, CNum _ => Gt
  end.

(** The value [save] gives to a column from a property [v] that may hold
    nothing: the column keeps [old]. *)
Definition defined_or {A : Type} (v old : option A) : option A :=
  match v with Some _ => v | None => old end.

Definition cell_of_text (o : option string) : cell := from_option CStr CNull o.
Definition cell_of_num (o : option Z) : cell := from_option CNum CNull o.

Module Repository.

(** [FindManyOptions]. *)
Record FindManyOptions : Type := {
  skip : jsnum;
  take : jsnum;
  select : option (gmap string jvalue);
  order : option (gmap string jvalue);
  relations : bool;
  loadRelationIds : bool;
}.

(** The values of the key column [@PrimaryGeneratedColumn ()]. *)
Definition int4 (id : Z) : bool :=
  (-2147483648 <=? id) && (id <=? 2147483647).

(** The OFFSET or LIMIT clause that the option [skip] or [take] gives: the
    option is left out when it is falsy, a positive integer makes the
    clause, and anything else raises. *)
Definition clause (x : jsnum) : option (option nat) :=
  if falsy x then Some None
  else
    match x with
    | Fin z => if 0 <? z then Some (Some (Z.to_nat z)) else None
    | _ => None
    end.

Definition offset {A : Type} (s : option nat) (l : list A) : list A :=
  match s with Some n => skipn n l | None => l end.

Definition limit {A : Type} (n : option nat) (l : list A) : list A :=
  match n with Some n => firstn n l | None => l end.

Section table.
Context {R : Type}.
Context (deletedAt : R → option Z) (set_deletedAt : Z → R → R).
Context (columns : list string) (cell_at : string → R → cell).

Definition live (r : R) : bool :=
  match deletedAt r with None => true | Some _ => false end.

(** The non-deleted row under the key [id]. *)
Definition live_row (t : gmap Z R) (id : Z) : option R :=
  match t !! id with
  | Some r => if live r then Some r else None
  | None => None
  end.

(** [findOneBy ({ id })] and [findOne ({ where: { id } })]: the row found,
    if any; the query raises when [id] does not fit the key column. *)
Definition find (t : gmap Z R) (id : Z) : option (option R) :=
  if int4 id then Some (live_row t id) else None.

Definition rows (t : gmap Z R) : list R :=
  List.filter live (List.map snd (map_to_list t)).

(** The key a generated primary key column gives to the next row. *)
Definition next_id (t : gmap Z R) : Z :=
  1 + foldr Z.max 0 (List.map fst (map_to_list t)).

(** The direction a value of the [order] option asks for: descending for
    [DESC], [desc] and -1, ascending for every other string, number or
    boolean.  Reading the direction of [null] raises; a nested value is not
    followed, the query is taken to raise. *)
Definition direction (v : jvalue) : option bool :=
  match v with
  | JStr s => Some (negb (Joi.mem s ["DESC"; "desc"]))
  | JNum n => Some (negb (n =? -1))
  | JBool _ => Some true
  | JNull | JOther => None
  end.

(** The ORDER BY clause of an [order] option; none, the query raising,
    when a key is not a column of the table or a direction cannot be
    read. *)
Fixpoint order_keys (o : list (string * jvalue)) : option (list (string * bool)) :=
  match o with
  | [] => Some []
  | (c, v) :: o' =>
      match direction v, order_keys o' with
      | Some d, Some ks => if Joi.mem c columns then Some ((c, d) :: ks) else None
      | _, _ => None
      end
  end.

Fixpoint compare_by (ks : list (string * bool)) (a b : R) : comparison :=
  match ks with
  | [] => Eq
  | (c, asc) :: ks' =>
      match cell_compare (cell_at c a) (cell_at c b) with
      | Eq => compare_by ks' a b
      | cmp => if asc : bool then cmp else CompOpp cmp
      end
  end.

Fixpoint insert_by (ks : list (string * bool)) (x : R) (l : list R) : list R :=
  match l with
  | [] => [x]
  | y :: l' =>
      match compare_by ks x y with
      | Gt => y :: insert_by ks x l'
      | _ => x :: l
      end
  end.

Definition order_by (ks : list (string * bool)) (l : list R) : list R :=
  foldr (insert_by ks) [] l.

(** [findAndCount (query)]: the page of rows and the number of all
    matching rows.  Projection ([select]) and relation loading only change
    which properties of a row are serialised and are not represented. *)
Definition findAndCount (raises : bool) (t : gmap Z R) (query : FindManyOptions)
  : option (list R * Z) :=
  if raises then None else
  match order_keys (from_option map_to_list [] (order query)),
        clause (skip query), clause (take query) with
  | Some ks, Some s, Some n =>
      let all := order_by ks (rows t) in
      Some (limit n (offset s all), Z.of_nat (List.length all))
  | _, _, _ => None
  end.

(** [softDelete (id)]: the table afterwards and [result.affected]. *)
Definition softDelete (raises : bool) (now : Z) (t : gmap Z R) (id : Z)
  : option (gmap Z R * Z) :=
  if raises || negb (int4 id) then None else
  match t !! id with
  | Some r => Some (<[id := set_deletedAt now r]> t, 1)
  | None => Some (t, 0)
  end.
End table.

End Repository.

Module OsFamilyRepository.
Definition findOneBy (ds : DataStore) (id : Z) : option (option OsFamily.t) :=
  Repository.find OsFamily.deletedAt (tbl_os_family ds) id.
End OsFamilyRepository.

Module LocationRepository.
Definition findOneBy (ds : DataStore) (id : Z) : option (option Location.t) :=
  Repository.find Location.deletedAt (tbl_location ds) id.
End LocationRepository.

Module ApprovalPolicyRepository.
Definition findOneBy (ds : DataStore) (id : Z) : option (option ApprovalPolicy.t) :=
  Repository.find ApprovalPolicy.deletedAt (tbl_approval_policy ds) id.
End ApprovalPolicyRepository.

Module OsTemplateRepository.
Import os_template.

(** The properties that are columns; [osFamily] and [location] are
    relations, and an [order] on a relation with a direction for value
    raises. *)
Definition columns : list string :=
  ["id"; "name"; "templateId"; "availableNetwork";
   "createdBy"; "updatedBy"; "deletedBy"; "createdAt"; "updatedAt"; "deletedAt"].

Definition cell_at (c : string) (r : row) : cell :=
  if String.eqb c "id" then CNum (id r)
  else if String.eqb c "name" then CStr (name r)
  else if String.eqb c "templateId" then CStr (templateId r)
  else if String.eqb c "availableNetwork" then CStr (availableNetwork r)
  else if String.eqb c "createdBy" then cell_of_text (createdBy r)
  else if String.eqb c "updatedBy" then cell_of_text (updatedBy r)
  else if String.eqb c "deletedBy" then cell_of_text (deletedBy r)
  else if String.eqb c "createdAt" then CNum (createdAt r)
  else if String.eqb c "updatedAt" then CNum (updatedAt r)
  else cell_of_num (deletedAt r).

(** The UPDATE of a soft delete: [deletedAt] and [updatedAt] are set to the
    time of the statement. *)
Definition set_deletedAt (now : Z) (r : row) : row :=
  mk (id r) (name r) (templateId r) (osFamilyId r) (locationId r) (availableNetwork r)
     (createdBy r) (updatedBy r) (deletedBy r) (createdAt r) now (Some now).

(** The entity object of the row [r] found under the primary key [k]; the
    [location] relation is joined when asked for, [osFamily] is never
    loaded by the handlers. *)
Definition load (ds : DataStore) (withLocation : bool) (k : Z) (r : row) : OsTemplate.t :=
  OsTemplate.mk (Some k) (name r) (templateId r) None
    (if withLocation
     then locationId r ≫= Repository.live_row Location.deletedAt (tbl_location ds)
     else None)
    (availableNetwork r) (createdBy r) (updatedBy r) (deletedBy r)
    (Some (createdAt r)) (Some (updatedAt r)) (deletedAt r).

(** [findOneBy ({ id })]. *)
Definition findOneBy (ds : DataStore) (id : Z) : option (option OsTemplate.t) :=
  (λ found : option row, load ds false id <$> found)
    <$> Repository.find deletedAt (tbl_os_template ds) id.

(** [findOne ({ where: { id }, relations: { location: true } })]. *)
Definition findOne (ds : DataStore) (id : Z) : option (option OsTemplate.t) :=
  (λ found : option row, load ds true id <$> found)
    <$> Repository.find deletedAt (tbl_os_template ds) id.

(** The row [save] writes for the entity [e] under the key [k], given the
    row [old] that key had.  A property of [e] that holds nothing is
    skipped: its column keeps the value it had, or is NULL in a new row. *)
Definition to_row (now : Z) (k : Z) (old : option row) (e : OsTemplate.t) : row :=
  mk k (OsTemplate.name e) (OsTemplate.templateId e)
     (match OsTemplate.osFamily e with
      | Some f => Some (OsFamily.id f)
      | None => old ≫= osFamilyId
      end)
     (match OsTemplate.location e with
      | Some l => Some (Location.id l)
      | None => old ≫= locationId
      end)
     (OsTemplate.availableNetwork e)
     (defined_or (OsTemplate.createdBy e) (old ≫= createdBy))
     (defined_or (OsTemplate.updatedBy e) (old ≫= updatedBy))
     (defined_or (OsTemplate.deletedBy e) (old ≫= deletedBy))
     (from_option createdAt now old) now (old ≫= deletedAt).

(** No column of the row [old] differs from what [save] would write for
    [e]. *)
Definition unchanged (old : row) (e : OsTemplate.t) : bool :=
  let r := to_row (updatedAt old) (id old) (Some old) e in
  bool_decide (name r = name old) && bool_decide (templateId r = templateId old) &&
  bool_decide (osFamilyId r = osFamilyId old) &&
  bool_decide (locationId r = locationId old) &&
  bool_decide (availableNetwork r = availableNetwork old) &&
  bool_decide (createdBy r = createdBy old) && bool_decide (updatedBy r = updatedBy old) &&
  bool_decide (deletedBy r = deletedBy old).

(** The entity object after [save] wrote the row [r] under the key [k]: it
    is completed with the generated columns. *)
Definition saved (k : Z) (r : row) (e : OsTemplate.t) : OsTemplate.t :=
  OsTemplate.mk (Some k) (OsTemplate.name e) (OsTemplate.templateId e)
    (OsTemplate.osFamily e) (OsTemplate.location e) (OsTemplate.availableNetwork e)
    (OsTemplate.createdBy e) (OsTemplate.updatedBy e) (OsTemplate.deletedBy e)
    (Some (createdAt r)) (Some (updatedAt r)) (deletedAt r).

(** [save (ostemplate)].  An entity without id, or whose id has no row, is
    inserted.  Otherwise the columns that differ are updated and [updatedAt]
    is stamped; when no column differs no statement is issued and the row is
    left as it is. *)
Definition save (env : Env) (ds : DataStore) (e : OsTemplate.t)
  : option (DataStore * OsTemplate.t) :=
  if save_raises env then None else
  let t := tbl_os_template ds in
  let k := default (Repository.next_id t) (OsTemplate.id e) in
  let r := to_row (now env) k (t !! k) e in
  match t !! k with
  | Some old =>
      if unchanged old e then Some (ds, e)
      else Some (with_os_template (<[k := r]> t) ds, saved k r e)
  | None => Some (with_os_template (<[k := r]> t) ds, saved k r e)
  end.

Definition softDelete (env : Env) (ds : DataStore) (id : Z) : option (DataStore * Z) :=
  prod_map (λ t, with_os_template t ds) (λ n, n)
    <$> Repository.softDelete set_deletedAt (softDelete_raises env) (now env)
          (tbl_os_template ds) id.

Definition findAndCount (env : Env) (ds : DataStore) (query : Repository.FindManyOptions)
  : option (list row * Z) :=
  Repository.findAndCount deletedAt columns cell_at (findAndCount_raises env)
    (tbl_os_template ds) query.
End OsTemplateRepository.

Module CatalogRepository.
Import catalog.

(** The properties that are columns; [defaultTemplate] and
    [defaultApprovalPolicy] are relations. *)
Definition columns : list string :=
  ["id"; "name"; "icon"; "shortName";
   "defaultLeasePeriod"; "permittedMaxLeaseExtensions"; "type";
   "createdBy"; "updatedBy"; "deletedBy"; "createdAt"; "updatedAt"; "deletedAt"].

Definition cell_at (c : string) (r : row) : cell :=
  if String.eqb c "id" then CNum (id r)
  else if String.eqb c "name" then CStr (name r)
  else if String.eqb c "icon" then cell_of_text (icon r)
  else if String.eqb c "shortName" then CStr (shortName r)
  else if String.eqb c "defaultLeasePeriod" then CNum (defaultLeasePeriod r)
  else if String.eqb c "permittedMaxLeaseExtensions" then CNum (permittedMaxLeaseExtensions r)
  else if String.eqb c "type" then CStr (type r)
  else if String.eqb c "createdBy" then cell_of_text (createdBy r)
  else if String.eqb c "updatedBy" then cell_of_text (updatedBy r)
  else if String.eqb c "deletedBy" then cell_of_text (deletedBy r)
  else if String.eqb c "createdAt" then CNum (createdAt r)
  else if String.eqb c "updatedAt" then CNum (updatedAt r)
  else cell_of_num (deletedAt r).

(** The UPDATE of a soft delete: [deletedAt] and [updatedAt] are set to the
    time of the statement. *)
Definition set_deletedAt (now : Z) (r : row) : row :=
  mk (id r) (name r) (icon r) (shortName r) (defaultTemplateId r)
     (defaultApprovalPolicyId r) (defaultLeasePeriod r) (permittedMaxLeaseExtensions r)
     (type r) (createdBy r) (updatedBy r) (deletedBy r) (createdAt r) now
     (Some now).

(** The entity object of the row [r] found under the primary key [k],
    without its relations. *)
Definition load (k : Z) (r : row) : Catalog.t :=
  Catalog.mk (Some k) (name r) (icon r) (shortName r) None None
    (JNum (defaultLeasePeriod r)) (JNum (permittedMaxLeaseExtensions r)) (type r)
    (createdBy r) (updatedBy r) (deletedBy r)
    (Some (createdAt r)) (Some (updatedAt r)) (deletedAt r).

(** [findOneBy ({ id })]. *)
Definition findOneBy (ds : DataStore) (id : Z) : option (option Catalog.t) :=
  (λ found : option row, load id <$> found)
    <$> Repository.find deletedAt (tbl_catalog ds) id.

(** The row [save] writes for the entity [e] under the key [k], given the
    row [old] that key had; a property that holds nothing is skipped, and
    the numeric columns take the number their property denotes. *)
Definition to_row (now : Z) (k : Z) (old : option row) (e : Catalog.t) : row :=
  mk k (Catalog.name e) (defined_or (Catalog.icon e) (old ≫= icon)) (Catalog.shortName e)
     (match Catalog.defaultTemplate e with
      | Some t => OsTemplate.id t
      | None => old ≫= defaultTemplateId
      end)
     (match Catalog.defaultApprovalPolicy e with
      | Some p => Some (ApprovalPolicy.id p)
      | None => old ≫= defaultApprovalPolicyId
      end)
     (num_of (Catalog.defaultLeasePeriod e)) (num_of (Catalog.permittedMaxLeaseExtensions e))
     (Catalog.type e)
     (defined_or (Catalog.createdBy e) (old ≫= createdBy))
     (defined_or (Catalog.updatedBy e) (old ≫= updatedBy))
     (defined_or (Catalog.deletedBy e) (old ≫= deletedBy))
     (from_option createdAt now old) now (old ≫= deletedAt).

(** The value of a numeric property is the number [n] of its column; a
    numeral in a string is not. *)
Definition same_number (v : jvalue) (n : Z) : bool :=
  match v with JNum m => m =? n | _ => false end.

(** No column of the row [old] differs from what [save] would write for
    [e]. *)
Definition unchanged (old : row) (e : Catalog.t) : bool :=
  let r := to_row (updatedAt old) (id old) (Some old) e in
  bool_decide (name r = name old) && bool_decide (icon r = icon old) &&
  bool_decide (shortName r = shortName old) &&
  bool_decide (defaultTemplateId r = defaultTemplateId old) &&
  bool_decide (defaultApprovalPolicyId r = defaultApprovalPolicyId old) &&
  same_number (Catalog.defaultLeasePeriod e) (defaultLeasePeriod old) &&
  same_number (Catalog.permittedMaxLeaseExtensions e) (permittedMaxLeaseExtensions old) &&
  bool_decide (type r = type old) &&
  bool_decide (createdBy r = createdBy old) && bool_decide (updatedBy r = updatedBy old) &&
  bool_decide (deletedBy r = deletedBy old).

(** The entity object after [save] wrote the row [r] under the key [k]. *)
Definition saved (k : Z) (r : row) (e : Catalog.t) : Catalog.t :=
  Catalog.mk (Some k) (Catalog.name e) (Catalog.icon e) (Catalog.shortName e)
    (Catalog.defaultTemplate e) (Catalog.defaultApprovalPolicy e)
    (Catalog.defaultLeasePeriod e) (Catalog.permittedMaxLeaseExtensions e)
    (Catalog.type e)
    (Catalog.createdBy e) (Catalog.updatedBy e) (Catalog.deletedBy e)
    (Some (createdAt r)) (Some (updatedAt r)) (deletedAt r).

(** [save (catalog)], as for OS templates. *)
Definition save (env : Env) (ds : DataStore) (e : Catalog.t)
  : option (DataStore * Catalog.t) :=
  if save_raises env then None else
  let t := tbl_catalog ds in
  let k := default (Repository.next_id t) (Catalog.id e) in
  let r := to_row (now env) k (t !! k) e in
  match t !! k with
  | Some old =>
      if unchanged old e then Some (ds, e)
      else Some (with_catalog (<[k := r]> t) ds, saved k r e)
  | None => Some (with_catalog (<[k := r]> t) ds, saved k r e)
  end.

Definition softDelete (env : Env) (ds : DataStore) (id : Z) : option (DataStore * Z) :=
  prod_map (λ t, with_catalog t ds) (λ n, n)
    <$> Repository.softDelete set_deletedAt (softDelete_raises env) (now env)
          (tbl_catalog ds) id.

Definition findAndCount (env : Env) (ds : DataStore) (query : Repository.FindManyOptions)
  : option (list row * Z) :=
  Repository.findAndCount deletedAt columns cell_at (findAndCount_raises env)
    (tbl_catalog ds) query.
End CatalogRepository.

(** ** Handlers *)

(** A handler either answers early ([return res.status(...).send(...)]) or
    goes on with a value. *)
Inductive step (A : Type) : Type :=
| Reply (r : Response)
| Next (a : A).
Arguments Reply {A} r.
Arguments Next {A} a.

#[global] Instance step_ret : MRet step := λ A a, Next a.
#[global] Instance step_bind : MBind step := λ A B k m,
  match m with
  | Reply r => Reply r
  | Next a => k a
  end.

(** [{ status: Status.ERROR, code: c, error: message }] with HTTP status 200. *)
Definition failure (c : ErrorCodes) (message : string) : Response :=
  send OK [("status", PStatus ERROR); ("code", PCode c); ("error", PText message)].

(** [if (validation.error) return ...E1007...]. *)
Definition validated (validation : option string) : step unit :=
  match validation with
  | Some message => Reply (failure E1007 message)
  | None => Next ()
  end.

(** [const x = await repository.findOneBy (...); if (!x) return otherwise],
    where [caught] is what becomes of the request when the query raises: the
    answer of the [catch] around it, or no answer when the call stands
    outside of every [try]. *)
Definition found {A : Type} (x : option (option A)) (otherwise caught : Response)
  : step A :=
  match x with
  | Some (Some a) => Next a
  | Some None => Reply otherwise
  | None => Reply caught
  end.

(** The value of a property that validation has shown to be present. *)
Definition get (b : gmap string jvalue) (k : string) : jvalue :=
  default JNull (b !! k).

(** [lodash.isEmpty] on a parsed header object. *)
Definition isEmpty (o : gmap string jvalue) : bool := Nat.eqb (size o) 0.

(** The pagination of every list handler: [page], [limit] and the find
    options built from them and from the headers. *)
Definition page_of (q : gmap string jvalue) : jsnum :=
  match q !! "page" with Some (JStr s) => parseInt s | _ => Fin 0 end.

Definition limit_of (q : gmap string jvalue) : jsnum :=
  match q !! "limit" with Some (JStr s) => parseInt s | _ => Fin 50 end.

Definition wants_relations (q : gmap string jvalue) : bool :=
  match q !! "relations" with Some (JStr s) => String.eqb s "true" | _ => false end.

Definition list_query (q fields sort : gmap string jvalue) : Repository.FindManyOptions :=
  {| Repository.skip := js_mul (page_of q) (limit_of q);
     Repository.take := limit_of q;
     Repository.select := if isEmpty fields then None else Some fields;
     Repository.order := if isEmpty sort then None else Some sort;
     Repository.relations := wants_relations q;
     Repository.loadRelationIds := negb (wants_relations q) |}.

Definition field_options (names : list string) : list Joi.key :=
  List.map (λ n, Joi.Key n (Joi.boolean (Some true)) false
                   ("Please provide a valid field option for " +:+ n)) names.

Definition sort_options (names : list string) : list Joi.key :=
  List.map (λ n, Joi.Key n (Joi.string_ ["asc"; "desc"]) false
                   ("Please provide a valid sort option for " +:+ n)) names.

Definition query_schema : list Joi.key :=
  [Joi.Key "page" Joi.number false "Please provide a valid page";
   Joi.Key "limit" Joi.number false "Please provide a valid limit";
   Joi.Key "relations" (Joi.boolean None) false "Please provide a valid relations"].

(** *** [routes/osTemplate.ts] *)
Module OsTemplateRoutes.

Definition attributes : list string :=
  ["id"; "name"; "templateId"; "osFamily"; "location"; "availableNetwork";
   "createdBy"; "updatedBy"; "createdAt"; "updatedAt"].

Definition fields_schema : list Joi.key := field_options attributes.
Definition sort_schema : list Joi.key := sort_options attributes.

(** The validation of the list handler: the schema declares [q], [fields]
    and [sort], and [schema.validate ({ q, fields })] is what is called. *)
Definition fetchAll_validation (q fields sort : gmap string jvalue) : option string :=
  Joi.validate [Joi.object "q" query_schema q; Joi.object "fields" fields_schema fields].

(** [router.get ('/')], fetchAllOsTemplates. *)
Definition fetchAllOsTemplates (env : Env) (ds : DataStore)
    (q fields sort : gmap string jvalue) : Response :=
  match fetchAll_validation q fields sort with
  | Some message => failure E1007 message
  | None =>
      let limit := limit_of q in
      match OsTemplateRepository.findAndCount env ds (list_query q fields sort) with
      | Some (result, count) =>
          send OK [("status", PStatus SUCCESS); ("ostemplates", POsTemplates result);
                   ("count", PNumber (Fin count));
                   ("pages", PNumber (js_ceil_div count limit))]
      | None => failure E1001 (ErrorMessages E1001)
      end
  end.

Definition post_schema : list Joi.key :=
  [Joi.Key "name" (Joi.string_ []) true "Please provide a valid name";
   Joi.Key "templateId" (Joi.string_ []) true "Please provide a valid templateId";
   Joi.Key "osFamily" Joi.number true "Please provide a valid number for osFamily";
   Joi.Key "location" Joi.number true "Please provide a valid number for location";
   Joi.Key "availableNetwork" (Joi.string_ []) true
     "Please provide a valid availableNetwork"].

Definition create_validation (b : gmap string jvalue) : option string :=
  Joi.validate [Joi.object "b" post_schema b].

(** [router.post ('/')], createOsTemplate. *)
Definition createOsTemplate (env : Env) (ds : DataStore) (b : gmap string jvalue)
  : Response * DataStore :=
  let caught := failure E1003 (ErrorMessages E1003) in
  let outcome :=
    _ ← validated (create_validation b);
    osFamily ← found (OsFamilyRepository.findOneBy ds (num_of (get b "osFamily")))
                 (failure E1007 "Provided osFamily doesn't exist") caught;
    location ← found (LocationRepository.findOneBy ds (num_of (get b "location")))
                 (failure E1007 "Provided location doesn't exist") caught;
    if negb (Joi.mem (str_of (get b "availableNetwork")) (Location.availableNetworks location))
    then Reply (failure E1007 "Provided availableNetwork is not part of location")
    else
      let ostemplate := OsTemplate.new in
      let ostemplate := OsTemplate.set_name (str_of (get b "name")) ostemplate in
      let ostemplate := OsTemplate.set_templateId (str_of (get b "templateId")) ostemplate in
      let ostemplate := OsTemplate.set_osFamily osFamily ostemplate in
      let ostemplate := OsTemplate.set_location location ostemplate in
      let ostemplate :=
        OsTemplate.set_availableNetwork (str_of (get b "availableNetwork")) ostemplate in
      let ostemplate := OsTemplate.set_createdBy (user env) ostemplate in
      let ostemplate := OsTemplate.set_updatedBy (user env) ostemplate in
      Next
        match OsTemplateRepository.save env ds ostemplate with
        | Some (ds', ostemplate) =>
            (send OK [("status", PStatus SUCCESS); ("ostemplate", POsTemplate ostemplate)],
             ds')
        | None => (caught, ds)
        end
  in
  match outcome with
  | Reply r => (r, ds)
  | Next x => x
  end.

Definition put_schema : list Joi.key :=
  [Joi.Key "name" (Joi.string_ []) false "Please provide a valid name";
   Joi.Key "templateId" (Joi.string_ []) false "Please provide a valid templateId";
   Joi.Key "osFamily" Joi.number true "Please provide a valid number for osFamily";
   Joi.Key "location" Joi.number true "Please provide a valid number for location";
   Joi.Key "availableNetwork" (Joi.string_ []) false
     "Please provide a valid availableNetwork"].

Definition update_validation (id : jsnum) (b : gmap string jvalue) : option string :=
  Joi.validate
    [Joi.number_required id "Please provide a valid number for ostemplateId";
     Joi.object "b" put_schema b].

(** [router.put ('/:ostemplateId')], updateOsTemplate.  The lookups stand
    before the [try], which holds the save only. *)
Definition updateOsTemplate (env : Env) (ds : DataStore)
    (ostemplateId : string) (b : gmap string jvalue) : Response * DataStore :=
  let id := parseInt ostemplateId in
  let outcome :=
    _ ← validated (update_validation id b);
    ostemplate ← found (OsTemplateRepository.findOne ds (js_int id))
                   (failure E1006 (ErrorMessages E1006)) unanswered;
    let ostemplate :=
      match b !! "name" with
      | Some v => OsTemplate.set_name (str_of v) ostemplate
      | None => ostemplate
      end in
    let ostemplate :=
      match b !! "templateId" with
      | Some v => OsTemplate.set_templateId (str_of v) ostemplate
      | None => ostemplate
      end in
    ostemplate ←
      match b !! "osFamily" with
      | Some v =>
          osFamily ← found (OsFamilyRepository.findOneBy ds (num_of v))
                       (failure E1007 "Provided osFamily doesn't exist") unanswered;
          Next (OsTemplate.set_osFamily osFamily ostemplate)
      | None => Next ostemplate
      end;
    ostemplate ←
      match b !! "location" with
      | Some v =>
          location ← found (LocationRepository.findOneBy ds (num_of v))
                       (failure E1007 "Provided location doesn't exist") unanswered;
          Next (OsTemplate.set_location location ostemplate)
      | None => Next ostemplate
      end;
    ostemplate ←
      match b !! "availableNetwork" with
      | Some v =>
          if negb (from_option
                     (λ l, Joi.mem (str_of v) (Location.availableNetworks l)) false
                     (OsTemplate.location ostemplate))
          then Reply (failure E1007 "Provided availableNetwork is not part of location")
          else Next (OsTemplate.set_availableNetwork (str_of v) ostemplate)
      | None => Next ostemplate
      end;
    let ostemplate := OsTemplate.set_updatedBy (user env) ostemplate in
    Next
      match OsTemplateRepository.save env ds ostemplate with
      | Some (ds', ostemplate) =>
          (send OK [("status", PStatus SUCCESS); ("ostemplate", POsTemplate ostemplate)],
           ds')
      | None =>
          (send OK [("status", PStatus ERROR); ("codes", PCode E1004);
                    ("error", PText (ErrorMessages E1004))], ds)
      end
  in
  match outcome with
  | Reply r => (r, ds)
  | Next x => x
  end.

Definition delete_validation (id : jsnum) : option string :=
  Joi.validate [Joi.number_required id "Please provide a valid number for ostemplateId"].

(** [router.delete ('/:ostemplateId')], deleteOsTemplate. *)
Definition deleteOsTemplate (env : Env) (ds : DataStore) (ostemplateId : string)
  : Response * DataStore :=
  let id := parseInt ostemplateId in
  let caught := failure E1005 (ErrorMessages E1005) in
  let outcome :=
    _ ← validated (delete_validation id);
    ostemplate ← found (OsTemplateRepository.findOneBy ds (js_int id))
                   (failure E1006 (ErrorMessages E1006)) caught;
    let ostemplate := OsTemplate.set_deletedBy (user env) ostemplate in
    Next
      match OsTemplateRepository.save env ds ostemplate with
      | Some (ds', _) =>
          match OsTemplateRepository.softDelete env ds' (js_int id) with
          | Some (ds'', affected) =>
              if 0 <? affected
              then (send OK [("status", PStatus SUCCESS)], ds'')
              else (failure E1006 (ErrorMessages E1006), ds'')
          | None => (caught, ds')
          end
      | None => (caught, ds)
      end
  in
  match outcome with
  | Reply r => (r, ds)
  | Next x => x
  end.

End OsTemplateRoutes.

(** *** [routes/catalog.ts] *)
Module CatalogRoutes.

Definition attributes : list string :=
  ["name"; "icon"; "shortName"; "defaultTemplate"; "defaultApprovalPolicy";
   "defaultLeasePeriod"; "permittedMaxLeaseExtensions"; "type";
   "createdBy"; "updatedBy"; "createdAt"; "updatedAt"].

Definition fields_schema : list Joi.key := field_options attributes.
Definition sort_schema : list Joi.key := sort_options attributes.

(** As for OS templates, [schema.validate ({ q, fields })]. *)
Definition fetchAll_validation (q fields sort : gmap string jvalue) : option string :=
  Joi.validate [Joi.object "q" query_schema q; Joi.object "fields" fields_schema fields].

(** [router.get ('/')], fetchAllCatalogs. *)
Definition fetchAllCatalogs (env : Env) (ds : DataStore)
    (q fields sort : gmap string jvalue) : Response :=
  match fetchAll_validation q fields sort with
  | Some message => failure E1007 message
  | None =>
      let limit := limit_of q in
      match CatalogRepository.findAndCount env ds (list_query q fields sort) with
      | Some (result, count) =>
          send OK [("status", PStatus SUCCESS); ("catalogs", PCatalogs result);
                   ("count", PNumber (Fin count));
                   ("pages", PNumber (js_ceil_div count limit))]
      | None => failure E1001 (ErrorMessages E1001)
      end
  end.

Definition body_schema (required : bool) : list Joi.key :=
  [Joi.Key "name" (Joi.string_ []) required "Please provide a valid name";
   Joi.Key "shortName" (Joi.string_ []) required "Please provide a valid shortName";
   Joi.Key "defaultTemplate" Joi.number required
     "Please provide a valid number for defaultTemplate";
   Joi.Key "defaultApprovalPolicy" Joi.number required
     "Please provide a valid number for defaultApprovalPolicy";
   Joi.Key "defaultLeasePeriod" Joi.number required
     "Please provide a valid number for defaultLeasePeriod";
   Joi.Key "permittedMaxLeaseExtensions" Joi.number required
     "Please provide a valid number for permittedMaxLeaseExtensions";
   Joi.Key "type" (Joi.string_ ["Standard"; "Custom"]) required
     "Please provide a valid string for type"].

(** The schema of POST: every attribute [required()]. *)
Definition post_schema : list Joi.key := body_schema true.

(** The schema of PUT: the same rules, none of them [required()]. *)
Definition put_schema : list Joi.key := body_schema false.

Definition create_validation (b : gmap string jvalue) : option string :=
  Joi.validate [Joi.object "b" post_schema b].

(** [router.post ('/')], createCatalog. *)
Definition createCatalog (env : Env) (ds : DataStore) (b : gmap string jvalue)
  : Response * DataStore :=
  let caught := failure E1003 (ErrorMessages E1003) in
  let outcome :=
    _ ← validated (create_validation b);
    osTemplate ← found (OsTemplateRepository.findOneBy ds (num_of (get b "defaultTemplate")))
                   (failure E1007 "Provided defaultTemplate doesn't exist") caught;
    approvalPolicy ←
      found (ApprovalPolicyRepository.findOneBy ds (num_of (get b "defaultApprovalPolicy")))
        (failure E1007 "Provided defaultApprovalPolicy doesn't exist") caught;
    let catalog := Catalog.new in
    let catalog := Catalog.set_name (str_of (get b "name")) catalog in
    let catalog := Catalog.set_shortName (str_of (get b "shortName")) catalog in
    let catalog := Catalog.set_defaultTemplate osTemplate catalog in
    let catalog := Catalog.set_defaultApprovalPolicy approvalPolicy catalog in
    let catalog := Catalog.set_defaultLeasePeriod (get b "defaultLeasePeriod") catalog in
    let catalog :=
      Catalog.set_permittedMaxLeaseExtensions
        (get b "permittedMaxLeaseExtensions") catalog in
    let catalog := Catalog.set_type (str_of (get b "type")) catalog in
    let catalog := Catalog.set_createdBy (user env) catalog in
    let catalog := Catalog.set_updatedBy (user env) catalog in
    Next
      match CatalogRepository.save env ds catalog with
      | Some (ds', catalog) =>
          (send OK [("status", PStatus SUCCESS); ("catalog", PCatalog catalog)], ds')
      | None => (caught, ds)
      end
  in
  match outcome with
  | Reply r => (r, ds)
  | Next x => x
  end.

Definition update_validation (id : jsnum) (b : gmap string jvalue) : option string :=
  Joi.validate
    [Joi.number_required id "Please provide a valid number for catalogId";
     Joi.object "b" put_schema b].

(** The assignments of the PUT handler that need no lookup:
    [if (typeof b.x !== 'undefined') catalog.x = b.x]. *)
Definition assign {A : Type} (b : gmap string jvalue) (k : string)
    (of_value : jvalue → A) (set : A → Catalog.t → Catalog.t) (catalog : Catalog.t)
  : Catalog.t :=
  match b !! k with
  | Some v => set (of_value v) catalog
  | None => catalog
  end.

(** [router.put ('/:catalogId')], updateCatalog.  As for OS templates, the
    lookups stand before the [try]. *)
Definition updateCatalog (env : Env) (ds : DataStore)
    (catalogId : string) (b : gmap string jvalue) : Response * DataStore :=
  let id := parseInt catalogId in
  let outcome :=
    _ ← validated (update_validation id b);
    catalog ← found (CatalogRepository.findOneBy ds (js_int id))
                (failure E1006 (ErrorMessages E1006)) unanswered;
    let catalog := assign b "name" str_of Catalog.set_name catalog in
    let catalog := assign b "shortName" str_of Catalog.set_shortName catalog in
    catalog ←
      match b !! "defaultTemplate" with
      | Some v =>
          osTemplate ← found (OsTemplateRepository.findOneBy ds (num_of v))
                         (failure E1007 "Provided defaultTemplate doesn't exist")
                         unanswered;
          Next (Catalog.set_defaultTemplate osTemplate catalog)
      | None => Next catalog
      end;
    catalog ←
      match b !! "defaultApprovalPolicy" with
      | Some v =>
          approvalPolicy ← found (ApprovalPolicyRepository.findOneBy ds (num_of v))
                             (failure E1007 "Provided defaultApprovalPolicy doesn't exist")
                             unanswered;
          Next (Catalog.set_defaultApprovalPolicy approvalPolicy catalog)
      | None => Next catalog
      end;
    let catalog :=
      assign b "defaultLeasePeriod" (λ v, v) Catalog.set_defaultLeasePeriod catalog in
    let catalog :=
      assign b "permittedMaxLeaseExtensions" (λ v, v)
        Catalog.set_permittedMaxLeaseExtensions catalog in
    let catalog := assign b "type" str_of Catalog.set_type catalog in
    let catalog := Catalog.set_updatedBy (user env) catalog in
    Next
      match CatalogRepository.save env ds catalog with
      | Some (ds', catalog) =>
          (send OK [("status", PStatus SUCCESS); ("catalog", PCatalog catalog)], ds')
      | None =>
          (send OK [("status", PStatus ERROR); ("codes", PCode E1004);
                    ("error", PText (ErrorMessages E1004))], ds)
      end
  in
  match outcome with
  | Reply r => (r, ds)
  | Next x => x
  end.

Definition delete_validation (id : jsnum) : option string :=
  Joi.validate [Joi.number_required id "Please provide a valid number for catalogId"].

(** [router.delete ('/:catalogId')], deleteCatalog. *)
Definition deleteCatalog (env : Env) (ds : DataStore) (catalogId : string)
  : Response * DataStore :=
  let id := parseInt catalogId in
  let caught := failure E1005 (ErrorMessages E1005) in
  let outcome :=
    _ ← validated (delete_validation id);
    catalog ← found (CatalogRepository.findOneBy ds (js_int id))
                (failure E1006 (ErrorMessages E1006)) caught;
    let catalog := Catalog.set_deletedBy (user env) catalog in
    Next
      match CatalogRepository.save env ds catalog with
      | Some (ds', _) =>
          match CatalogRepository.softDelete env ds' (js_int id) with
          | Some (ds'', affected) =>
              if 0 <? affected
              then (send OK [("status", PStatus SUCCESS)], ds'')
              else (failure E1006 (ErrorMessages E1006), ds'')
          | None => (caught, ds')
          end
      | None => (caught, ds)
      end
  in
  match outcome with
  | Reply r => (r, ds)
  | Next x => x
  end.

End CatalogRoutes.

(** ** A small datastore and some requests, used to run the handlers *)
Module Sample.

Definition linux : OsFamily.t :=
  OsFamily.mk 1 "Linux" "LNX" None None None 10 10 None.

Definition dc0 : Location.t :=
  Location.mk 1 "DC0" ["/DC0/net/a"] None None None 10 10 None.

Definition dc1 : Location.t :=
  Location.mk 2 "DC1" ["/DC1/net/b"] None None None 10 10 None.

Definition two_step : ApprovalPolicy.t :=
  ApprovalPolicy.mk 1 "Two step" [ApprovalPolicy.mkPolicy "ops" 5 "deny"]
    None None None 10 10 None.

Definition ubuntu : os_template.row :=
  os_template.mk 1 "Ubuntu 20.08" "/DC0/vm/template" (Some 1) (Some 1) "/DC0/net/a"
    (Some "alice") (Some "alice") None 20 20 None.

Definition standard : catalog.row :=
  catalog.mk 1 "Standard VM" None "STD" (Some 1) (Some 1) 5 10 "Standard"
    (Some "alice") (Some "alice") None 30 30 None.

Definition store : DataStore :=
  {| tbl_os_family := {[ 1 := linux ]};
     tbl_location := {[ 1 := dc0; 2 := dc1 ]};
     tbl_approval_policy := {[ 1 := two_step ]};
     tbl_os_template := {[ 1 := ubuntu ]};
     tbl_catalog := {[ 1 := standard ]} |}.

(** A request by bob at time 100 during which the datastore works. *)
Definition env : Env :=
  {| user := Some "bob"; now := 100; save_raises := false;
     softDelete_raises := false; findAndCount_raises := false |}.

(** The same request when [save] raises. *)
Definition env_save_raises : Env :=
  {| user := Some "bob"; now := 100; save_raises := true;
     softDelete_raises := false; findAndCount_raises := false |}.

(** [{ osFamily: 1, location: 2 }]: moves a template to another location. *)
Definition move_to_dc1 : gmap string jvalue :=
  {[ "osFamily" := JNum 1; "location" := JNum 2 ]}.

(** [{ name: "Debian 12" }]. *)
Definition rename : gmap string jvalue := {[ "name" := JStr "Debian 12" ]}.

(** A complete body for POST /ostemplate. *)
Definition new_template (network : string) : gmap string jvalue :=
  {[ "name" := JStr "Debian 12"; "templateId" := JStr "/DC0/vm/debian";
     "osFamily" := JNum 1; "location" := JNum 1;
     "availableNetwork" := JStr network ]}.

(** [X-API-Sort: { "colour": "sideways" }]. *)
Definition bad_sort : gmap string jvalue := {[ "colour" := JStr "sideways" ]}.

(** [?page=1&limit=5]. *)
Definition second_page : gmap string jvalue :=
  {[ "page" := JStr "1"; "limit" := JStr "5" ]}.

(** [X-API-Sort: { "name": "desc" }]. *)
Definition by_name : gmap string jvalue := {[ "name" := JStr "desc" ]}.

(** [{ defaultTemplate: 42 }]: no OS template has this key. *)
Definition retarget : gmap string jvalue := {[ "defaultTemplate" := JNum 42 ]}.

(** [{ name: "Large VM", defaultLeasePeriod: 7 }]. *)
Definition resize : gmap string jvalue :=
  {[ "name" := JStr "Large VM"; "defaultLeasePeriod" := JNum 7 ]}.

End Sample.

(** ** What the claims speak of *)

(** I2 for one row of [os_template]: its network is one of the networks of
    the location the row references. *)
Definition I2 (ds : DataStore) (r : os_template.row) : Prop :=
  ∃ l, os_template.locationId r ≫= (λ k, tbl_location ds !! k) = Some l ∧
       os_template.availableNetwork r ∈ Location.availableNetworks l.

(** The store accepts the [order] option of a query: every key is a column
    and every direction can be read. *)
Definition orderable (columns : list string) (query : Repository.FindManyOptions) : Prop :=
  is_Some (Repository.order_keys columns
             (from_option map_to_list [] (Repository.order query))).

(** A body supplies, under the key [k], a reference to a key under which
    the table [t] has no non-deleted row. *)
Definition dangling {R : Type} (deletedAt : R → option Z) (b : gmap string jvalue)
    (k : string) (t : gmap Z R) : Prop :=
  ∃ v, b !! k = Some v ∧ Repository.live_row deletedAt t (num_of v) = None.

(** The message of a referential failure on the key [k]. *)
Definition missing_reference (k : string) : string :=
  "Provided " +:+ k +:+ " doesn't exist".

(** The write requests that carry references, and the handler each is
    routed to. *)
Inductive write : Type :=
| PostOsTemplate (b : gmap string jvalue)
| PutOsTemplate (ostemplateId : string) (b : gmap string jvalue)
| PostCatalog (b : gmap string jvalue)
| PutCatalog (catalogId : string) (b : gmap string jvalue).

Definition route (env : Env) (ds : DataStore) (w : write) : Response * DataStore :=
  match w with
  | PostOsTemplate b => OsTemplateRoutes.createOsTemplate env ds b
  | PutOsTemplate id b => OsTemplateRoutes.updateOsTemplate env ds id b
  | PostCatalog b => CatalogRoutes.createCatalog env ds b
  | PutCatalog id b => CatalogRoutes.updateCatalog env ds id b
  end.

(** The body of [w] supplies under [k] a reference to a row that does not
    exist. *)
Definition dangling_in (ds : DataStore) (w : write) (k : string) : Prop :=
  match w with
  | PostOsTemplate b | PutOsTemplate _ b =>
      (k = "osFamily" ∧ dangling OsFamily.deletedAt b k (tbl_os_family ds)) ∨
      (k = "location" ∧ dangling Location.deletedAt b k (tbl_location ds))
  | PostCatalog b | PutCatalog _ b =>
      (k = "defaultTemplate" ∧ dangling os_template.deletedAt b k (tbl_os_template ds)) ∨
      (k = "defaultApprovalPolicy" ∧
       dangling ApprovalPolicy.deletedAt b k (tbl_approval_policy ds))
  end.

(** The body of a write request and the keys of its references. *)
Definition body_of (w : write) : gmap string jvalue :=
  match w with
  | PostOsTemplate b | PutOsTemplate _ b | PostCatalog b | PutCatalog _ b => b
  end.

Definition references (w : write) : list string :=
  match w with
  | PostOsTemplate _ | PutOsTemplate _ _ => ["osFamily"; "location"]
  | PostCatalog _ | PutCatalog _ _ => ["defaultTemplate"; "defaultApprovalPolicy"]
  end.

(** Every reference that the body of [w] supplies fits the key column. *)
Definition references_fit (w : write) : Prop :=
  ∀ k v, k ∈ references w → body_of w !! k = Some v → Repository.int4 (num_of v) = true.

(** The request gets as far as the referential checks: its input passes the
    schema and, for an update, the row to update exists. *)
Definition reaches_checks (ds : DataStore) (w : write) : Prop :=
  match w with
  | PostOsTemplate b => OsTemplateRoutes.create_validation b = None
  | PutOsTemplate id b =>
      OsTemplateRoutes.update_validation (parseInt id) b = None ∧
      ∃ e, OsTemplateRepository.findOne ds (js_int (parseInt id)) = Some (Some e)
  | PostCatalog b => CatalogRoutes.create_validation b = None
  | PutCatalog id b =>
      CatalogRoutes.update_validation (parseInt id) b = None ∧
      ∃ e, CatalogRepository.findOneBy ds (js_int (parseInt id)) = Some (Some e)
  end.

(** ** Handlers that read one entity, and the upload handler *)

(** The primary key column of every location is the key of its row. *)
Definition well_keyed_locations (ds : DataStore) : Prop :=
  ∀ k l, tbl_location ds !! k = Some l → Location.id l = k.

(** [FindOneOptions] as the get handlers build it. *)
Record FindOneOptions : Type := {
  where_id : Z;
  one_select : option (gmap string jvalue);
  one_relations : bool;
  one_loadRelationIds : bool;
}.

(** What a get handler sends on success,
    [{ status: Status.SUCCESS, <key>: entity }] with HTTP status 200: the
    entity is the row found, serialised under the find options that were
    used (selected columns; relations expanded or as keys). *)
Record Found (R : Type) : Type := sent {
  found_key : string;
  found_row : R;
  found_options : FindOneOptions;
}.
Arguments sent {R} _ _ _.
Arguments found_key {R} _.
Arguments found_row {R} _.
Arguments found_options {R} _.

Definition one_query (id : jsnum) (q fields : gmap string jvalue) : FindOneOptions :=
  {| where_id := js_int id;
     one_select := if isEmpty fields then None else Some fields;
     one_relations := wants_relations q;
     one_loadRelationIds := negb (wants_relations q) |}.

Definition relations_schema : list Joi.key :=
  [Joi.Key "relations" (Joi.boolean None) false "Please provide a valid relations"].

(** *** [routes/osTemplate.ts], [router.get ('/:ostemplateId')] *)
Module OsTemplateGet.

Definition fetch_validation (id : jsnum) (q fields : gmap string jvalue) : option string :=
  Joi.validate
    [Joi.number_required id "Please provide a valid number for ostemplateId";
     Joi.object "q" relations_schema q;
     Joi.object "fields" OsTemplateRoutes.fields_schema fields].

(** [findOne (query)]; [raises] says whether the read raises for a reason
    of the datastore. *)
Definition findOne (raises : bool) (ds : DataStore) (query : FindOneOptions)
  : option (option os_template.row) :=
  if raises then None
  else Repository.find os_template.deletedAt (tbl_os_template ds) (where_id query).

(** fetchOsTemplate. *)
Definition fetchOsTemplate (raises : bool) (ds : DataStore) (ostemplateId : string)
    (q fields : gmap string jvalue) : Response + Found os_template.row :=
  let id := parseInt ostemplateId in
  match fetch_validation id q fields with
  | Some message => inl (failure E1007 message)
  | None =>
      let query := one_query id q fields in
      match findOne raises ds query with
      | Some (Some ostemplate) => inr (sent "ostemplate" ostemplate query)
      | Some None => inl (failure E1006 (ErrorMessages E1006))
      | None => inl (failure E1002 (ErrorMessages E1002))
      end
  end.

End OsTemplateGet.

(** *** [routes/catalog.ts], [router.get ('/:catalogId')] *)
Module CatalogGet.

Definition fetch_validation (id : jsnum) (q fields : gmap string jvalue) : option string :=
  Joi.validate
    [Joi.number_required id "Please provide a valid number for catalogId";
     Joi.object "q" relations_schema q;
     Joi.object "fields" CatalogRoutes.fields_schema fields].

Definition findOne (raises : bool) (ds : DataStore) (query : FindOneOptions)
  : option (option catalog.row) :=
  if raises then None
  else Repository.find catalog.deletedAt (tbl_catalog ds) (where_id query).

(** fetchCatalog. *)
Definition fetchCatalog (raises : bool) (ds : DataStore) (catalogId : string)
    (q fields : gmap string jvalue) : Response + Found catalog.row :=
  let id := parseInt catalogId in
  match fetch_validation id q fields with
  | Some message => inl (failure E1007 message)
  | None =>
      let query := one_query id q fields in
      match findOne raises ds query with
      | Some (Some catalog) => inr (sent "catalog" catalog query)
      | Some None => inl (failure E1006 (ErrorMessages E1006))
      | None => inl (failure E1002 (ErrorMessages E1002))
      end
  end.

End CatalogGet.

(** *** [routes/catalog.ts], the icon upload *)
Module CatalogUpload.

(** [Express.Multer.File], the properties the handler reads. *)
Record File : Type := {
  fieldname : string;
  mimetype : string;
  path : string;
}.

(** [path.basename] of a POSIX path: read from the end, the trailing
    separators are skipped and the characters before the next separator are
    the name. *)
Fixpoint drop_slashes (l : list ascii) : list ascii :=
  match l with
  | c :: l' => if Ascii.eqb c "/" then drop_slashes l' else l
  | [] => []
  end.

Fixpoint until_slash (l : list ascii) : list ascii :=
  match l with
  | c :: l' => if Ascii.eqb c "/" then [] else c :: until_slash l'
  | [] => []
  end.

Definition basename (p : string) : string :=
  string_of_list_ascii
    (rev (until_slash (drop_slashes (rev (list_ascii_of_string p))))).

Definition set_icon (v : option string) (e : Catalog.t) : Catalog.t :=
  Catalog.mk (Catalog.id e) (Catalog.name e) v (Catalog.shortName e)
    (Catalog.defaultTemplate e) (Catalog.defaultApprovalPolicy e)
    (Catalog.defaultLeasePeriod e) (Catalog.permittedMaxLeaseExtensions e)
    (Catalog.type e) (Catalog.createdBy e) (Catalog.updatedBy e) (Catalog.deletedBy e)
    (Catalog.createdAt e) (Catalog.updatedAt e) (Catalog.deletedAt e).

(** The body [{ status: Status.SUCCESS, accepted, rejected: req.fileError }]. *)
Record Uploaded : Type := {
  accepted : gmap string string;
  rejected : option (gmap string string);
}.

(** The outcome of one upload request: the answer, the store afterwards and
    the files handed to [upload.cleanUp]. *)
Record Outcome : Type := {
  answer : Response + Uploaded;
  store : DataStore;
  cleaned : list string;
}.

Definition upload_validation (id : jsnum) : option string :=
  Joi.validate [Joi.number_required id "Please provide a valid number for catalogId"].

(** [if (currentValue)] on the icon column. *)
Definition truthy (icon : option string) : bool :=
  match icon with
  | Some s => negb (String.eqb s EmptyString)
  | None => false
  end.

(** uploadCatalogFiles, on the [req.files] and [req.fileError] that multer
    and [fileFilter] leave.  Reading [multerFiles[0].path] of an empty list
    raises, like [save] and like the lookup of an id that does not fit the
    key column. *)
Definition uploadCatalogFiles (env : Env) (ds : DataStore) (catalogId : string)
    (files : gmap string (list File)) (fileError : option (gmap string string))
  : Outcome :=
  let id := parseInt catalogId in
  match upload_validation id with
  | Some message => Build_Outcome (inl (failure E1007 message)) ds []
  | None =>
      let failed := Build_Outcome (inl (failure E1008 (ErrorMessages E1008))) ds [] in
      match CatalogRepository.findOneBy ds (js_int id) with
      | None => failed
      | Some None => Build_Outcome (inl (failure E1006 (ErrorMessages E1006))) ds []
      | Some (Some catalog) =>
          let save_and_answer catalog accepted toCleanUp :=
            match CatalogRepository.save env ds catalog with
            | Some (ds', _) =>
                Build_Outcome (inr (Build_Uploaded accepted fileError)) ds' toCleanUp
            | None => failed
            end in
          match files !! "icon" with
          | None => save_and_answer catalog ∅ []
          | Some [] => failed
          | Some (file :: _) =>
              let toCleanUp :=
                if truthy (Catalog.icon catalog)
                then [default EmptyString (Catalog.icon catalog)] else [] in
              let icon := "catalogs/" +:+ basename (path file) in
              save_and_answer (set_icon (Some icon) catalog) {[ "icon" := icon ]} toCleanUp
          end
      end
  end.

End CatalogUpload.

(** The answer of a PUT handler whose [save] raised. *)
Definition update_failure : Response :=
  send OK [("status", PStatus ERROR); ("codes", PCode E1004);
           ("error", PText (ErrorMessages E1004))].

Definition is_put (w : write) : Prop :=
  match w with
  | PutOsTemplate _ _ | PutCatalog _ _ => True
  | _ => False
  end.

(** The table a write request is about, after and before. *)
Definition written_table_only (w : write) (ds ds' : DataStore) : Prop :=
  match w with
  | PostOsTemplate _ | PutOsTemplate _ _ =>
      ∃ k r, ds' = with_os_template (<[k := r]> (tbl_os_template ds)) ds
  | PostCatalog _ | PutCatalog _ _ =>
      ∃ k r, ds' = with_catalog (<[k := r]> (tbl_catalog ds)) ds
  end.

(** More requests, used to run the handlers. *)
Module Fixtures.

(** A complete body for POST /catalog. *)
Definition new_catalog : gmap string jvalue :=
  {[ "name" := JStr "Large VM"; "shortName" := JStr "LRG";
     "defaultTemplate" := JNum 1; "defaultApprovalPolicy" := JNum 1;
     "defaultLeasePeriod" := JNum 7; "permittedMaxLeaseExtensions" := JNum 2;
     "type" := JStr "Custom" ]}.

(** [{ type: "Premium" }]. *)
Definition premium : gmap string jvalue := {[ "type" := JStr "Premium" ]}.

(** A PNG received for the field [icon] and stored by multer. *)
Definition png : CatalogUpload.File :=
  {| CatalogUpload.fieldname := "icon"; CatalogUpload.mimetype := "image/png";
     CatalogUpload.path := "/app/uploads/catalogs/82a6c417c55599f5.png" |}.

(** A JPEG received later for the same field. *)
Definition jpeg : CatalogUpload.File :=
  {| CatalogUpload.fieldname := "icon"; CatalogUpload.mimetype := "image/jpeg";
     CatalogUpload.path := "/app/uploads/catalogs/0b1c5e9d3f7a2468.jpg" |}.

(** The sample store after an icon was uploaded for catalog 1. *)
Definition store_with_icon : DataStore :=
  (CatalogUpload.store
     (CatalogUpload.uploadCatalogFiles Sample.env Sample.store "1"
        {[ "icon" := [png] ]} None)).

(** Location 1, soft-deleted, and the sample store holding it. *)
Definition dc0_deleted : Location.t :=
  Location.mk 1 "DC0" ["/DC0/net/a"] None None (Some "alice") 10 10 (Some 50).

Definition store_without_dc0 : DataStore :=
  {| tbl_os_family := tbl_os_family Sample.store;
     tbl_location := <[1 := dc0_deleted]> (tbl_location Sample.store);
     tbl_approval_policy := tbl_approval_policy Sample.store;
     tbl_os_template := tbl_os_template Sample.store;
     tbl_catalog := tbl_catalog Sample.store |}.

(** A request at time 100 without principal: [req.user] is not set. *)
Definition anonymous : Env :=
  {| user := None; now := 100; save_raises := false;
     softDelete_raises := false; findAndCount_raises := false |}.

(** A request by alice, who wrote the rows of the sample store. *)
Definition alice : Env :=
  {| user := Some "alice"; now := 100; save_raises := false;
     softDelete_raises := false; findAndCount_raises := false |}.

(** A complete body for POST /ostemplate whose [osFamily] is 2^31, the
    first number that does not fit the key column. *)
Definition family_out_of_range : gmap string jvalue :=
  <["osFamily" := JNum 2147483648]> (Sample.new_template "/DC0/net/a").

(** [{ defaultTemplate: 2147483648 }]. *)
Definition template_out_of_range : gmap string jvalue :=
  {[ "defaultTemplate" := JNum 2147483648 ]}.

(** [?limit=0] and [?limit=-0]. *)
Definition limit_zero : gmap string jvalue := {[ "limit" := JStr "0" ]}.
Definition limit_minus_zero : gmap string jvalue := {[ "limit" := JStr "-0" ]}.

(** [X-API-Sort: { "name": "sideways" }] and [{ "location": "asc" }]. *)
Definition sideways : gmap string jvalue := {[ "name" := JStr "sideways" ]}.
Definition by_location : gmap string jvalue := {[ "location" := JStr "asc" ]}.

(** [{ defaultLeasePeriod: "5" }]: the lease period of the sample catalog,
    as a numeral in a string. *)
Definition same_period : gmap string jvalue := {[ "defaultLeasePeriod" := JStr "5" ]}.

End Fixtures.

(** * Properties *)

(** ** Validation and arithmetic helpers *)

Lemma mem_elem_of (s : string) (l : list string) : Joi.mem s l = true ↔ s ∈ l.
Proof.
  unfold Joi.mem. rewrite existsb_exists. split.
  - intros (x & Hin & Heq). apply String.eqb_eq in Heq. subst x.
    by apply list_elem_of_In.
  - intros Hin. exists s. split; [by apply list_elem_of_In | apply String.eqb_refl].
Qed.

Lemma mem_not_elem_of (s : string) (l : list string) : Joi.mem s l = false ↔ s ∉ l.
Proof.
  rewrite <- mem_elem_of. destruct (Joi.mem s l); split; congruence.
Qed.

Lemma validate_cons_None (p : option string) (ps : list (option string)) :
  Joi.validate (p :: ps) = None ↔ p = None ∧ Joi.validate ps = None.
Proof.
  destruct p; simpl.
  - split; [discriminate | intros [? _]; discriminate].
  - split; [by split | by intros [_ ?]].
Qed.

Lemma signed_nonneg (z : Z) : 0 ≤ z → signed false z = Fin z.
Proof.
  intros Hz. unfold signed. destruct (Z.eqb_spec z 0) as [->|_]; [done|].
  by rewrite Z.abs_eq.
Qed.

Lemma js_mul_nonneg (p l : Z) : 0 ≤ p → 0 ≤ l → js_mul (Fin p) (Fin l) = Fin (p * l).
Proof.
  intros Hp Hl. simpl.
  rewrite (proj2 (Z.ltb_ge p 0) Hp), (proj2 (Z.ltb_ge l 0) Hl). simpl.
  apply signed_nonneg. lia.
Qed.

(** The product of a finite number and a zero is a zero. *)
Lemma js_mul_zero (a b : jsnum) :
  is_finite a = true → is_finite b = true → js_int b = 0 → falsy (js_mul a b) = true.
Proof.
  intros Ha Hb Hz.
  destruct a as [x| | | |], b as [y| | | |]; try discriminate; simpl in *; subst;
    rewrite ?Z.mul_0_r; unfold signed; simpl; by repeat case_match.
Qed.

Lemma js_ceil_div_pos (count l : Z) :
  0 ≤ count → 0 < l →
  ∃ k, js_ceil_div count (Fin l) = Fin k ∧ (k - 1) * l < count ≤ k * l.
Proof.
  intros Hc Hl. exists (- ((- count) `div` l)).
  pose proof (Z.div_mod (- count) l ltac:(lia)) as Hdm.
  pose proof (Z.mod_pos_bound (- count) l Hl) as Hb.
  split; [|nia].
  unfold js_ceil_div. simpl.
  rewrite (proj2 (Z.ltb_ge count 0) Hc), (proj2 (Z.ltb_ge l 0) ltac:(lia)). simpl.
  destruct (Z.eqb_spec l 0) as [->|_]; [lia|]. apply signed_nonneg. nia.
Qed.

(** A positive count divided by a zero is an infinity, of the sign of the
    zero. *)
Lemma js_ceil_div_zero (count : Z) (limit : jsnum) :
  0 < count → is_finite limit = true → js_int limit = 0 →
  js_ceil_div count limit = (if negative limit then NegInf else PosInf) ∧
  is_finite (js_ceil_div count limit) = false.
Proof.
  intros Hc Hf Hz. unfold js_ceil_div.
  rewrite (proj2 (Z.ltb_ge count 0) ltac:(lia)).
  destruct (Z.eqb_spec count 0) as [->|_]; [lia|].
  destruct limit as [l| | | |]; try discriminate; simpl in *; subst; by simpl.
Qed.

Lemma clause_pos (z : Z) : 0 < z → Repository.clause (Fin z) = Some (Some (Z.to_nat z)).
Proof.
  intros Hz. unfold Repository.clause. simpl.
  destruct (Z.eqb_spec z 0) as [->|_]; [lia|].
  by rewrite (proj2 (Z.ltb_lt 0 z) Hz).
Qed.

Lemma clause_nonneg (z : Z) :
  0 ≤ z →
  ∃ s, Repository.clause (Fin z) = Some s ∧
       ∀ (A : Type) (l : list A), Repository.offset s l = skipn (Z.to_nat z) l.
Proof.
  intros Hz. destruct (Z.eqb_spec z 0) as [->|Hne].
  - exists None. by split.
  - exists (Some (Z.to_nat z)). split; [apply clause_pos; lia | done].
Qed.

Lemma clause_falsy (x : jsnum) : falsy x = true → Repository.clause x = Some None.
Proof. intros H. unfold Repository.clause. by rewrite H. Qed.

(** ** The entity store *)

Section repository.
Context {R : Type}.
Context (deletedAt : R → option Z) (set_deletedAt : Z → R → R).
Context (columns : list string) (cell_at : string → R → cell).

Lemma live_row_Some (t : gmap Z R) (id : Z) (r : R) :
  Repository.live_row deletedAt t id = Some r ↔ t !! id = Some r ∧ deletedAt r = None.
Proof.
  unfold Repository.live_row, Repository.live.
  destruct (t !! id) as [r'|]; [|split; [discriminate | by intros [? _]]].
  destruct (deletedAt r') eqn:Hd.
  - split; [discriminate | intros [[= ->] Hr]; congruence].
  - split; [by intros [= ->] | by intros [[= ->] _]].
Qed.

Lemma live_row_None (t : gmap Z R) (id : Z) :
  Repository.live_row deletedAt t id = None ↔
  ∀ r, t !! id = Some r → is_Some (deletedAt r).
Proof.
  unfold Repository.live_row, Repository.live.
  destruct (t !! id) as [r'|]; [|split; [by intros _ r | done]].
  destruct (deletedAt r') eqn:Hd.
  - split; [|done]. intros _ r [= <-]. by rewrite Hd.
  - split; [discriminate|]. intros H. destruct (H r' eq_refl) as [z Hz]. congruence.
Qed.

(** A lookup answers exactly for the keys that fit the key column. *)
Lemma find_answers (t : gmap Z R) (id : Z) (found : option R) :
  Repository.find deletedAt t id = Some found ↔
  Repository.int4 id = true ∧ Repository.live_row deletedAt t id = found.
Proof.
  unfold Repository.find. destruct (Repository.int4 id).
  - split; [by intros [= <-] | by intros [_ <-]].
  - split; [discriminate | by intros [[=] _]].
Qed.

Lemma find_raises (t : gmap Z R) (id : Z) :
  Repository.find deletedAt t id = None ↔ Repository.int4 id = false.
Proof. unfold Repository.find. by destruct (Repository.int4 id). Qed.

Lemma find_Some (t : gmap Z R) (id : Z) (r : R) :
  Repository.find deletedAt t id = Some (Some r) ↔
  Repository.int4 id = true ∧ t !! id = Some r ∧ deletedAt r = None.
Proof. by rewrite find_answers, live_row_Some. Qed.

Lemma next_id_bound (t : gmap Z R) (k : Z) :
  is_Some (t !! k) → k < Repository.next_id t.
Proof.
  intros [r Hr]. unfold Repository.next_id.
  apply elem_of_map_to_list in Hr.
  assert (Hk : k ∈ List.map fst (map_to_list t)).
  { apply list_elem_of_In, in_map_iff. exists (k, r). split; [done|].
    by apply list_elem_of_In. }
  revert Hk. generalize (List.map fst (map_to_list t)). intros l.
  induction l as [|x l IH]; intros Hk.
  - by apply elem_of_nil in Hk.
  - apply elem_of_cons in Hk as [->|Hk]; simpl; [lia|].
    specialize (IH Hk). lia.
Qed.

Lemma next_id_fresh (t : gmap Z R) : t !! Repository.next_id t = None.
Proof.
  destruct (t !! Repository.next_id t) eqn:H; [|done].
  pose proof (next_id_bound t (Repository.next_id t) ltac:(eauto)). lia.
Qed.

Lemma insert_by_perm (ks : list (string * bool)) (x : R) (l : list R) :
  Repository.insert_by cell_at ks x l ≡ₚ x :: l.
Proof.
  induction l as [|y l IH]; simpl; [done|].
  destruct (Repository.compare_by cell_at ks x y); try done.
  rewrite IH. apply Permutation_swap.
Qed.

Lemma order_by_perm (ks : list (string * bool)) (l : list R) :
  Repository.order_by cell_at ks l ≡ₚ l.
Proof.
  induction l as [|y l IH]; simpl; [done|].
  unfold Repository.order_by in *. simpl. by rewrite insert_by_perm, IH.
Qed.

(** What a paginated read returns when the store answers: the window that
    the clauses of [skip] and [take] cut out of the ordered matching rows,
    and the number of all matching rows. *)
Lemma findAndCount_window (t : gmap Z R) (query : Repository.FindManyOptions)
    (s n : option nat) :
  Repository.clause (Repository.skip query) = Some s →
  Repository.clause (Repository.take query) = Some n →
  orderable columns query →
  ∃ all,
    all ≡ₚ Repository.rows deletedAt t ∧
    Repository.findAndCount deletedAt columns cell_at false t query
    = Some (Repository.limit n (Repository.offset s all), Z.of_nat (List.length all)).
Proof.
  intros Hs Hn [ks Hks]. unfold Repository.findAndCount.
  rewrite Hs, Hn, Hks. simpl.
  eexists. split; [apply order_by_perm | done].
Qed.

Lemma softDelete_affected (now : Z) (t t' : gmap Z R) (id n : Z) :
  Repository.softDelete set_deletedAt false now t id = Some (t', n) →
  Repository.int4 id = true ∧
  (0 < n ↔ is_Some (t !! id)) ∧
  (∀ r, t !! id = Some r → t' = <[id := set_deletedAt now r]> t) ∧
  (t !! id = None → t' = t).
Proof.
  unfold Repository.softDelete. simpl.
  destruct (Repository.int4 id); [|discriminate]. simpl.
  destruct (t !! id) as [r|] eqn:Hr.
  - intros [= <- <-]. split_and!; [done| |by intros r' [= ->]|done].
    split; [eauto | lia].
  - intros [= <- <-]. split_and!; [done| |done|done].
    split; [lia | by intros [? ?]].
Qed.
End repository.

(** ** I2 on the update path *)

(** C1: I2 after every successful create or update of an OS template.  The
    update handler checks the network against the location only when the
    body carries [availableNetwork]; here PUT /ostemplate/1 with
    [{ osFamily: 1, location: 2 }] succeeds on a store that satisfies I2 and
    leaves row 1 referencing location 2 with a network of location 1. *)
Theorem updateOsTemplate_location_only_breaks_I2 :
  I2 Sample.store Sample.ubuntu ∧
  tbl_os_template Sample.store !! 1 = Some Sample.ubuntu ∧
  is_success (OsTemplateRoutes.updateOsTemplate
                Sample.env Sample.store "1" Sample.move_to_dc1).1 ∧
  ∃ r, tbl_os_template
         (OsTemplateRoutes.updateOsTemplate
            Sample.env Sample.store "1" Sample.move_to_dc1).2 !! 1 = Some r ∧
       os_template.locationId r = Some 2 ∧
       os_template.availableNetwork r = "/DC0/net/a" ∧
       ¬ I2 (OsTemplateRoutes.updateOsTemplate
               Sample.env Sample.store "1" Sample.move_to_dc1).2 r.
Proof.
  split_and!.
  - exists Sample.dc0. split; [vm_compute; reflexivity|].
    apply list_elem_of_singleton. reflexivity.
  - vm_compute; reflexivity.
  - split; vm_compute; reflexivity.
  - eexists. split; [vm_compute; reflexivity|].
    split_and!; [vm_compute; reflexivity..|].
    intros (l & Hl & Hin). vm_compute in Hl. injection Hl as <-.
    vm_compute in Hin. apply list_elem_of_singleton in Hin. discriminate Hin.
Qed.

(** ** Optional attributes of PUT *)

(** C4: every writable attribute of a PUT body is optional.  The PUT schema
    of OS templates marks [osFamily] and [location] as required, so the
    partial body [{ name: "Debian 12" }] is refused and nothing is
    written, while the PUT schema of catalogs accepts the same body. *)
Theorem updateOsTemplate_rejects_partial_body :
  OsTemplateRoutes.updateOsTemplate Sample.env Sample.store "1" Sample.rename
  = (failure E1007 "Please provide a valid number for osFamily", Sample.store) ∧
  CatalogRoutes.update_validation (parseInt "1") Sample.rename = None.
Proof. split; vm_compute; reflexivity. Qed.

(** ** Validation of the sort header *)

(** C5: a sort map with an unknown attribute or direction is refused with
    E1007.  The list handlers declare the rule for [sort] but validate only
    [{ q, fields }]: the header [{ "colour": "sideways" }], which the declared
    rule refuses, passes validation and no answer to it carries a validation
    failure. *)
Theorem fetchAll_does_not_validate_sort (env : Env) (message : string) :
  is_Some (Joi.object "sort" OsTemplateRoutes.sort_schema Sample.bad_sort) ∧
  OsTemplateRoutes.fetchAll_validation ∅ ∅ Sample.bad_sort = None ∧
  OsTemplateRoutes.fetchAllOsTemplates env Sample.store ∅ ∅ Sample.bad_sort
  ≠ failure E1007 message ∧
  is_Some (Joi.object "sort" CatalogRoutes.sort_schema Sample.bad_sort) ∧
  CatalogRoutes.fetchAll_validation ∅ ∅ Sample.bad_sort = None ∧
  CatalogRoutes.fetchAllCatalogs env Sample.store ∅ ∅ Sample.bad_sort
  ≠ failure E1007 message.
Proof.
  assert (H1 : OsTemplateRoutes.fetchAll_validation ∅ ∅ Sample.bad_sort = None)
    by (vm_compute; reflexivity).
  assert (H2 : CatalogRoutes.fetchAll_validation ∅ ∅ Sample.bad_sort = None)
    by (vm_compute; reflexivity).
  split_and!; try assumption.
  - vm_compute. eauto.
  - unfold OsTemplateRoutes.fetchAllOsTemplates. rewrite H1.
    destruct (OsTemplateRepository.findAndCount _ _ _) as [[? ?]|]; discriminate.
  - vm_compute. eauto.
  - unfold CatalogRoutes.fetchAllCatalogs. rewrite H2.
    destruct (CatalogRepository.findAndCount _ _ _) as [[? ?]|]; discriminate.
Qed.

(** ** The error envelope *)

(** C6: every error response is [{ status: "error", code, error }].  When
    [save] raises, both PUT handlers send the code under the key [codes]:
    the body has no [code] property and is not an error envelope. *)
Theorem update_failure_is_not_an_envelope (c : ErrorCodes) (message : string) :
  let r1 := (OsTemplateRoutes.updateOsTemplate
               Sample.env_save_raises Sample.store "1" Sample.move_to_dc1).1 in
  let r2 := (CatalogRoutes.updateCatalog
               Sample.env_save_raises Sample.store "1" Sample.rename).1 in
  (prop "status" (body r1) = Some (PStatus ERROR) ∧ prop "code" (body r1) = None ∧
   prop "codes" (body r1) = Some (PCode E1004) ∧ ¬ is_error_envelope r1 c message) ∧
  (prop "status" (body r2) = Some (PStatus ERROR) ∧ prop "code" (body r2) = None ∧
   prop "codes" (body r2) = Some (PCode E1004) ∧ ¬ is_error_envelope r2 c message).
Proof.
  split; (split_and!; [vm_compute; reflexivity..|]);
    intros (_ & _ & Hcode & _); vm_compute in Hcode; discriminate Hcode.
Qed.

(** ** Creating an OS template *)

(** C2: network membership on create.  For a create request that passes the
    body schema and whose [osFamily] and [location] exist: a network that is
    not one of the location's is refused with E1007 and the message below,
    and the store is left as it was; a network of the location is accepted,
    and, the store taking the write, the answer is a success and the new row
    sits under a key that was free. *)
Theorem createOsTemplate_network_membership
    (env : Env) (ds : DataStore) (b : gmap string jvalue)
    (f : OsFamily.t) (l : Location.t) :
  OsTemplateRoutes.create_validation b = None →
  OsFamilyRepository.findOneBy ds (num_of (get b "osFamily")) = Some (Some f) →
  LocationRepository.findOneBy ds (num_of (get b "location")) = Some (Some l) →
  (str_of (get b "availableNetwork") ∉ Location.availableNetworks l →
   OsTemplateRoutes.createOsTemplate env ds b
   = (failure E1007 "Provided availableNetwork is not part of location", ds)) ∧
  (str_of (get b "availableNetwork") ∈ Location.availableNetworks l →
   save_raises env = false →
   ∃ k r e,
     OsTemplateRoutes.createOsTemplate env ds b
     = (send OK [("status", PStatus SUCCESS); ("ostemplate", POsTemplate e)],
        with_os_template (<[k := r]> (tbl_os_template ds)) ds) ∧
     tbl_os_template ds !! k = None ∧
     OsTemplate.id e = Some k ∧
     os_template.name r = str_of (get b "name") ∧
     os_template.templateId r = str_of (get b "templateId") ∧
     os_template.osFamilyId r = Some (OsFamily.id f) ∧
     os_template.locationId r = Some (Location.id l) ∧
     os_template.availableNetwork r = str_of (get b "availableNetwork") ∧
     os_template.deletedAt r = None).
Proof.
  intros Hv Hf Hl. unfold OsTemplateRoutes.createOsTemplate.
  rewrite Hv, Hf, Hl. simpl. split.
  - intros Hnot. apply mem_not_elem_of in Hnot. by rewrite Hnot.
  - intros Hin Hsave. apply mem_elem_of in Hin. rewrite Hin. simpl.
    unfold OsTemplateRepository.save. rewrite Hsave. simpl.
    rewrite (next_id_fresh (tbl_os_template ds)). simpl.
    do 3 eexists. split; [reflexivity|].
    split_and!; try reflexivity. apply next_id_fresh.
Qed.

Lemma createOsTemplate_network_membership_witness :
  OsTemplateRoutes.createOsTemplate Sample.env Sample.store
    (Sample.new_template "/DC0/net/zzz")
  = (failure E1007 "Provided availableNetwork is not part of location", Sample.store).
Proof.
  refine (proj1 (createOsTemplate_network_membership Sample.env Sample.store
                   (Sample.new_template "/DC0/net/zzz") Sample.linux Sample.dc0
                   _ _ _) _).
  - vm_compute; reflexivity.
  - vm_compute; reflexivity.
  - vm_compute; reflexivity.
  - apply mem_not_elem_of. vm_compute; reflexivity.
Defined.

(** ** Referential checks *)

Lemma not_success_failure (c : ErrorCodes) (message : string) :
  ¬ is_success (failure c message).
Proof. intros [_ H]. discriminate H. Qed.

Lemma not_success_unanswered : ¬ is_success unanswered.
Proof. intros [H _]. discriminate H. Qed.

Lemma first_error_None (ks : list Joi.key) (o : gmap string jvalue) (k : Joi.key) :
  Joi.first_error ks o = None → k ∈ ks → Joi.check k o = None.
Proof.
  induction ks as [|k' ks IH]; simpl; [by intros _ ?%elem_of_nil|].
  destruct (Joi.check k' o) eqn:Hc; [discriminate|].
  intros H [->|Hin]%elem_of_cons; [done | by apply IH].
Qed.

Lemma object_None (label : string) (ks : list Joi.key) (o : gmap string jvalue) :
  Joi.object label ks o = None ↔
  Joi.first_error ks o = None ∧ Joi.unknown ks o = [].
Proof.
  unfold Joi.object. destruct (Joi.first_error ks o); [by split; [|intros [? _]]|].
  destruct (Joi.unknown ks o); [done | by split; [|intros [_ ?]]].
Qed.

(** A key that a schema requires is present in every object it accepts. *)
Lemma required_present (label : string) (ks : list Joi.key) (o : gmap string jvalue)
    (k : Joi.key) :
  Joi.object label ks o = None → k ∈ ks → Joi.required k = true →
  ∃ v, o !! Joi.name k = Some v ∧ Joi.accepts (Joi.type k) v = true.
Proof.
  intros [Hfe _]%object_None Hin Hreq.
  pose proof (first_error_None _ _ _ Hfe Hin) as Hc. unfold Joi.check in Hc.
  rewrite Hreq in Hc. destruct (o !! Joi.name k) as [v|]; [|discriminate].
  exists v. split; [done|]. by destruct (Joi.accepts _ v).
Qed.

Lemma get_lookup (b : gmap string jvalue) (k : string) (v : jvalue) :
  b !! k = Some v → get b k = v.
Proof. unfold get. by intros ->. Qed.

(** The three outcomes of the lookup of an OS template or of a catalog, in
    terms of the table. *)
Lemma OsTemplate_findOneBy_cases (ds : DataStore) (id : Z) :
  match OsTemplateRepository.findOneBy ds id with
  | Some (Some e) =>
      Repository.int4 id = true ∧
      ∃ r, tbl_os_template ds !! id = Some r ∧ os_template.deletedAt r = None ∧
           e = OsTemplateRepository.load ds false id r
  | Some None =>
      Repository.int4 id = true ∧
      Repository.live_row os_template.deletedAt (tbl_os_template ds) id = None
  | None => Repository.int4 id = false
  end.
Proof.
  unfold OsTemplateRepository.findOneBy, Repository.find.
  destruct (Repository.int4 id); [|done]. simpl.
  destruct (Repository.live_row _ _ id) as [r|] eqn:Hr; simpl; [|done].
  apply live_row_Some in Hr as [? ?]. split; [done|]. by exists r.
Qed.

Lemma OsTemplate_findOne_cases (ds : DataStore) (id : Z) :
  match OsTemplateRepository.findOne ds id with
  | Some (Some e) =>
      Repository.int4 id = true ∧
      ∃ r, tbl_os_template ds !! id = Some r ∧ os_template.deletedAt r = None ∧
           e = OsTemplateRepository.load ds true id r
  | Some None =>
      Repository.int4 id = true ∧
      Repository.live_row os_template.deletedAt (tbl_os_template ds) id = None
  | None => Repository.int4 id = false
  end.
Proof.
  unfold OsTemplateRepository.findOne, Repository.find.
  destruct (Repository.int4 id); [|done]. simpl.
  destruct (Repository.live_row _ _ id) as [r|] eqn:Hr; simpl; [|done].
  apply live_row_Some in Hr as [? ?]. split; [done|]. by exists r.
Qed.

Lemma Catalog_findOneBy_cases (ds : DataStore) (id : Z) :
  match CatalogRepository.findOneBy ds id with
  | Some (Some e) =>
      Repository.int4 id = true ∧
      ∃ r, tbl_catalog ds !! id = Some r ∧ catalog.deletedAt r = None ∧
           e = CatalogRepository.load id r
  | Some None =>
      Repository.int4 id = true ∧
      Repository.live_row catalog.deletedAt (tbl_catalog ds) id = None
  | None => Repository.int4 id = false
  end.
Proof.
  unfold CatalogRepository.findOneBy, Repository.find.
  destruct (Repository.int4 id); [|done]. simpl.
  destruct (Repository.live_row _ _ id) as [r|] eqn:Hr; simpl; [|done].
  apply live_row_Some in Hr as [? ?]. split; [done|]. by exists r.
Qed.

(** The lookup of a reference, as the referential checks see it: the row
    exists, or the reference dangles and fits the key column, or it does not
    fit and the query raises. *)
Lemma reference_cases {R A : Type} (deletedAt : R → option Z) (t : gmap Z R)
    (lookup : Z → option (option A)) (b : gmap string jvalue) (k : string) (v : jvalue) :
  (∀ id, match lookup id with
         | Some (Some _) => is_Some (Repository.live_row deletedAt t id)
         | Some None =>
             Repository.int4 id = true ∧ Repository.live_row deletedAt t id = None
         | None => Repository.int4 id = false
         end) →
  b !! k = Some v →
  match lookup (num_of v) with
  | Some (Some _) => ¬ dangling deletedAt b k t
  | Some None => dangling deletedAt b k t ∧ Repository.int4 (num_of v) = true
  | None => Repository.int4 (num_of v) = false
  end.
Proof.
  intros Hl Hb. specialize (Hl (num_of v)).
  destruct (lookup (num_of v)) as [[a|]|].
  - intros (v' & Hv' & Hnone). rewrite Hb in Hv'. injection Hv' as <-.
    rewrite Hnone in Hl. by destruct Hl.
  - destruct Hl as [Hfit Hnone]. split; [by exists v | done].
  - done.
Qed.

Lemma OsFamily_reference (ds : DataStore) (b : gmap string jvalue) (v : jvalue) :
  b !! "osFamily" = Some v →
  match OsFamilyRepository.findOneBy ds (num_of v) with
  | Some (Some _) => ¬ dangling OsFamily.deletedAt b "osFamily" (tbl_os_family ds)
  | Some None =>
      dangling OsFamily.deletedAt b "osFamily" (tbl_os_family ds) ∧
      Repository.int4 (num_of v) = true
  | None => Repository.int4 (num_of v) = false
  end.
Proof.
  apply (reference_cases OsFamily.deletedAt (tbl_os_family ds)
           (OsFamilyRepository.findOneBy ds)).
  intros id. unfold OsFamilyRepository.findOneBy, Repository.find.
  destruct (Repository.int4 id); [|done].
  destruct (Repository.live_row _ _ id); by eauto.
Qed.

Lemma Location_reference (ds : DataStore) (b : gmap string jvalue) (v : jvalue) :
  b !! "location" = Some v →
  match LocationRepository.findOneBy ds (num_of v) with
  | Some (Some _) => ¬ dangling Location.deletedAt b "location" (tbl_location ds)
  | Some None =>
      dangling Location.deletedAt b "location" (tbl_location ds) ∧
      Repository.int4 (num_of v) = true
  | None => Repository.int4 (num_of v) = false
  end.
Proof.
  apply (reference_cases Location.deletedAt (tbl_location ds)
           (LocationRepository.findOneBy ds)).
  intros id. unfold LocationRepository.findOneBy, Repository.find.
  destruct (Repository.int4 id); [|done].
  destruct (Repository.live_row _ _ id); by eauto.
Qed.

Lemma ApprovalPolicy_reference (ds : DataStore) (b : gmap string jvalue) (v : jvalue) :
  b !! "defaultApprovalPolicy" = Some v →
  match ApprovalPolicyRepository.findOneBy ds (num_of v) with
  | Some (Some _) =>
      ¬ dangling ApprovalPolicy.deletedAt b "defaultApprovalPolicy" (tbl_approval_policy ds)
  | Some None =>
      dangling ApprovalPolicy.deletedAt b "defaultApprovalPolicy" (tbl_approval_policy ds) ∧
      Repository.int4 (num_of v) = true
  | None => Repository.int4 (num_of v) = false
  end.
Proof.
  apply (reference_cases ApprovalPolicy.deletedAt (tbl_approval_policy ds)
           (ApprovalPolicyRepository.findOneBy ds)).
  intros id. unfold ApprovalPolicyRepository.findOneBy, Repository.find.
  destruct (Repository.int4 id); [|done].
  destruct (Repository.live_row _ _ id); by eauto.
Qed.

Lemma OsTemplate_reference (ds : DataStore) (b : gmap string jvalue) (v : jvalue) :
  b !! "defaultTemplate" = Some v →
  match OsTemplateRepository.findOneBy ds (num_of v) with
  | Some (Some _) => ¬ dangling os_template.deletedAt b "defaultTemplate" (tbl_os_template ds)
  | Some None =>
      dangling os_template.deletedAt b "defaultTemplate" (tbl_os_template ds) ∧
      Repository.int4 (num_of v) = true
  | None => Repository.int4 (num_of v) = false
  end.
Proof.
  apply (reference_cases os_template.deletedAt (tbl_os_template ds)
           (OsTemplateRepository.findOneBy ds)).
  intros id. pose proof (OsTemplate_findOneBy_cases ds id) as H.
  destruct (OsTemplateRepository.findOneBy ds id) as [[e|]|]; [|done..].
  destruct H as (_ & r & Hr & Hd & _).
  exists r. by apply live_row_Some.
Qed.

(** C3: a reference to a row that does not exist fails the whole write.
    Amended: whenever the body of a create or update of an OS template or
    of a catalog carries a dangling reference, nothing is written and the
    request is not answered with a success; and when the request reaches the
    referential checks and its references fit the key column, the answer is
    E1007 with the message that names a dangling field. *)
Theorem dangling_reference_fails_the_write
    (env : Env) (ds : DataStore) (w : write) (k : string) :
  dangling_in ds w k →
  (route env ds w).2 = ds ∧
  ¬ is_success (route env ds w).1 ∧
  (reaches_checks ds w → references_fit w →
   ∃ k', dangling_in ds w k' ∧
         route env ds w = (failure E1007 (missing_reference k'), ds)).
Proof.
  assert (Hin1 : ∀ w' a b', references w' = [a; b'] → a ∈ references w')
    by (intros w' a b' ->; apply list_elem_of_here).
  assert (Hin2 : ∀ w' a b', references w' = [a; b'] → b' ∈ references w')
    by (intros w' a b' ->; apply list_elem_of_further, list_elem_of_here).
  destruct w as [b|id b|b|id b]; simpl; intros Hd.
  - unfold OsTemplateRoutes.createOsTemplate.
    destruct (OsTemplateRoutes.create_validation b) as [m|] eqn:Hv; simpl.
    { split_and!; [done | by intros ?%not_success_failure | discriminate]. }
    pose proof Hv as Hv'. unfold OsTemplateRoutes.create_validation in Hv'.
    apply validate_cons_None in Hv' as [Hobj _].
    destruct (required_present _ _ _
                (Joi.Key "osFamily" Joi.number true
                   "Please provide a valid number for osFamily") Hobj)
      as (vf & Hvf & _); [apply list_elem_of_In; simpl; tauto | done |]. simpl in Hvf.
    destruct (required_present _ _ _
                (Joi.Key "location" Joi.number true
                   "Please provide a valid number for location") Hobj)
      as (vl & Hvl & _); [apply list_elem_of_In; simpl; tauto | done |]. simpl in Hvl.
    rewrite (get_lookup _ _ _ Hvf), (get_lookup _ _ _ Hvl).
    pose proof (OsFamily_reference ds b vf Hvf) as Hf.
    pose proof (Location_reference ds b vl Hvl) as Hl.
    destruct (OsFamilyRepository.findOneBy ds (num_of vf)) as [[f|]|]; simpl.
    2:{ destruct Hf as [Hdf _].
        split_and!; [done | by intros ?%not_success_failure |].
        intros _ _. exists "osFamily". split; [by left | done]. }
    2:{ split_and!; [done | by intros ?%not_success_failure |].
        intros _ Hfit.
        rewrite (Hfit "osFamily" vf (Hin1 (PostOsTemplate b) _ _ eq_refl) Hvf) in Hf.
        discriminate Hf. }
    destruct (LocationRepository.findOneBy ds (num_of vl)) as [[l|]|]; simpl.
    2:{ destruct Hl as [Hdl _].
        split_and!; [done | by intros ?%not_success_failure |].
        intros _ _. exists "location". split; [by right | done]. }
    2:{ split_and!; [done | by intros ?%not_success_failure |].
        intros _ Hfit.
        rewrite (Hfit "location" vl (Hin2 (PostOsTemplate b) _ _ eq_refl) Hvl) in Hl.
        discriminate Hl. }
    exfalso. destruct Hd as [[-> Hd]|[-> Hd]]; tauto.
  - unfold OsTemplateRoutes.updateOsTemplate.
    destruct (OsTemplateRoutes.update_validation (parseInt id) b) as [m|] eqn:Hv; simpl.
    { split_and!; [done | by intros ?%not_success_failure | by intros [? _]]. }
    destruct (OsTemplateRepository.findOne ds (js_int (parseInt id))) as [[e|]|] eqn:He;
      simpl.
    2:{ split_and!; [done | by intros ?%not_success_failure |].
        by intros [_ [? ?]]. }
    2:{ split_and!; [done | by intros ?%not_success_unanswered | by intros [_ [? ?]]]. }
    destruct (b !! "osFamily") as [vf|] eqn:Hvf; simpl.
    + pose proof (OsFamily_reference ds b vf Hvf) as Hf.
      destruct (OsFamilyRepository.findOneBy ds (num_of vf)) as [[f|]|]; simpl.
      2:{ destruct Hf as [Hdf _].
          split_and!; [done | by intros ?%not_success_failure |].
          intros _ _. exists "osFamily". split; [by left | done]. }
      2:{ split_and!; [done | by intros ?%not_success_unanswered |].
          intros _ Hfit.
          rewrite (Hfit "osFamily" vf (Hin1 (PutOsTemplate id b) _ _ eq_refl) Hvf) in Hf.
          discriminate Hf. }
      destruct (b !! "location") as [vl|] eqn:Hvl; simpl.
      * pose proof (Location_reference ds b vl Hvl) as Hl.
        destruct (LocationRepository.findOneBy ds (num_of vl)) as [[l|]|]; simpl.
        2:{ destruct Hl as [Hdl _].
            split_and!; [done | by intros ?%not_success_failure |].
            intros _ _. exists "location". split; [by right | done]. }
        2:{ split_and!; [done | by intros ?%not_success_unanswered |].
            intros _ Hfit.
            rewrite (Hfit "location" vl (Hin2 (PutOsTemplate id b) _ _ eq_refl) Hvl) in Hl.
            discriminate Hl. }
        exfalso. destruct Hd as [[-> Hd]|[-> Hd]]; tauto.
      * exfalso. destruct Hd as [[-> Hd]|[-> (v & Hb & _)]]; [tauto | congruence].
    + destruct (b !! "location") as [vl|] eqn:Hvl; simpl.
      * pose proof (Location_reference ds b vl Hvl) as Hl.
        destruct (LocationRepository.findOneBy ds (num_of vl)) as [[l|]|]; simpl.
        2:{ destruct Hl as [Hdl _].
            split_and!; [done | by intros ?%not_success_failure |].
            intros _ _. exists "location". split; [by right | done]. }
        2:{ split_and!; [done | by intros ?%not_success_unanswered |].
            intros _ Hfit.
            rewrite (Hfit "location" vl (Hin2 (PutOsTemplate id b) _ _ eq_refl) Hvl) in Hl.
            discriminate Hl. }
        exfalso. destruct Hd as [[-> (v & Hb & _)]|[-> Hd]]; [congruence | tauto].
      * exfalso. destruct Hd as [[-> (v & Hb & _)]|[-> (v & Hb & _)]]; congruence.
  - unfold CatalogRoutes.createCatalog.
    destruct (CatalogRoutes.create_validation b) as [m|] eqn:Hv; simpl.
    { split_and!; [done | by intros ?%not_success_failure | discriminate]. }
    pose proof Hv as Hv'. unfold CatalogRoutes.create_validation in Hv'.
    apply validate_cons_None in Hv' as [Hobj _].
    destruct (required_present _ _ _
                (Joi.Key "defaultTemplate" Joi.number true
                   "Please provide a valid number for defaultTemplate") Hobj)
      as (vt & Hvt & _); [apply list_elem_of_In; simpl; tauto | done |]. simpl in Hvt.
    destruct (required_present _ _ _
                (Joi.Key "defaultApprovalPolicy" Joi.number true
                   "Please provide a valid number for defaultApprovalPolicy") Hobj)
      as (vp & Hvp & _); [apply list_elem_of_In; simpl; tauto | done |]. simpl in Hvp.
    rewrite (get_lookup _ _ _ Hvt), (get_lookup _ _ _ Hvp).
    pose proof (OsTemplate_reference ds b vt Hvt) as Ht.
    pose proof (ApprovalPolicy_reference ds b vp Hvp) as Hp.
    destruct (OsTemplateRepository.findOneBy ds (num_of vt)) as [[t|]|]; simpl.
    2:{ destruct Ht as [Hdt _].
        split_and!; [done | by intros ?%not_success_failure |].
        intros _ _. exists "defaultTemplate". split; [by left | done]. }
    2:{ split_and!; [done | by intros ?%not_success_failure |].
        intros _ Hfit.
        rewrite (Hfit "defaultTemplate" vt (Hin1 (PostCatalog b) _ _ eq_refl) Hvt) in Ht.
        discriminate Ht. }
    destruct (ApprovalPolicyRepository.findOneBy ds (num_of vp)) as [[p|]|]; simpl.
    2:{ destruct Hp as [Hdp _].
        split_and!; [done | by intros ?%not_success_failure |].
        intros _ _. exists "defaultApprovalPolicy". split; [by right | done]. }
    2:{ split_and!; [done | by intros ?%not_success_failure |].
        intros _ Hfit.
        rewrite (Hfit "defaultApprovalPolicy" vp (Hin2 (PostCatalog b) _ _ eq_refl) Hvp)
          in Hp.
        discriminate Hp. }
    exfalso. destruct Hd as [[-> Hd]|[-> Hd]]; tauto.
  - unfold CatalogRoutes.updateCatalog.
    destruct (CatalogRoutes.update_validation (parseInt id) b) as [m|] eqn:Hv; simpl.
    { split_and!; [done | by intros ?%not_success_failure | by intros [? _]]. }
    destruct (CatalogRepository.findOneBy ds (js_int (parseInt id))) as [[e|]|] eqn:He;
      simpl.
    2:{ split_and!; [done | by intros ?%not_success_failure |].
        by intros [_ [? ?]]. }
    2:{ split_and!; [done | by intros ?%not_success_unanswered | by intros [_ [? ?]]]. }
    destruct (b !! "defaultTemplate") as [vt|] eqn:Hvt; simpl.
    + pose proof (OsTemplate_reference ds b vt Hvt) as Ht.
      destruct (OsTemplateRepository.findOneBy ds (num_of vt)) as [[t|]|]; simpl.
      2:{ destruct Ht as [Hdt _].
          split_and!; [done | by intros ?%not_success_failure |].
          intros _ _. exists "defaultTemplate". split; [by left | done]. }
      2:{ split_and!; [done | by intros ?%not_success_unanswered |].
          intros _ Hfit.
          rewrite (Hfit "defaultTemplate" vt (Hin1 (PutCatalog id b) _ _ eq_refl) Hvt)
            in Ht.
          discriminate Ht. }
      destruct (b !! "defaultApprovalPolicy") as [vp|] eqn:Hvp; simpl.
      * pose proof (ApprovalPolicy_reference ds b vp Hvp) as Hp.
        destruct (ApprovalPolicyRepository.findOneBy ds (num_of vp)) as [[p|]|]; simpl.
        2:{ destruct Hp as [Hdp _].
            split_and!; [done | by intros ?%not_success_failure |].
            intros _ _. exists "defaultApprovalPolicy". split; [by right | done]. }
        2:{ split_and!; [done | by intros ?%not_success_unanswered |].
            intros _ Hfit.
            rewrite (Hfit "defaultApprovalPolicy" vp
                       (Hin2 (PutCatalog id b) _ _ eq_refl) Hvp) in Hp.
            discriminate Hp. }
        exfalso. destruct Hd as [[-> Hd]|[-> Hd]]; tauto.
      * exfalso. destruct Hd as [[-> Hd]|[-> (v & Hb & _)]]; [tauto | congruence].
    + destruct (b !! "defaultApprovalPolicy") as [vp|] eqn:Hvp; simpl.
      * pose proof (ApprovalPolicy_reference ds b vp Hvp) as Hp.
        destruct (ApprovalPolicyRepository.findOneBy ds (num_of vp)) as [[p|]|]; simpl.
        2:{ destruct Hp as [Hdp _].
            split_and!; [done | by intros ?%not_success_failure |].
            intros _ _. exists "defaultApprovalPolicy". split; [by right | done]. }
        2:{ split_and!; [done | by intros ?%not_success_unanswered |].
            intros _ Hfit.
            rewrite (Hfit "defaultApprovalPolicy" vp
                       (Hin2 (PutCatalog id b) _ _ eq_refl) Hvp) in Hp.
            discriminate Hp. }
        exfalso. destruct Hd as [[-> (v & Hb & _)]|[-> Hd]]; [congruence | tauto].
      * exfalso. destruct Hd as [[-> (v & Hb & _)]|[-> (v & Hb & _)]]; congruence.
Qed.

Lemma dangling_reference_fails_the_write_witness :
  (route Sample.env Sample.store (PutCatalog "1" Sample.retarget)).2 = Sample.store ∧
  ∃ k', dangling_in Sample.store (PutCatalog "1" Sample.retarget) k' ∧
        route Sample.env Sample.store (PutCatalog "1" Sample.retarget)
        = (failure E1007 (missing_reference k'), Sample.store).
Proof.
  destruct (dangling_reference_fails_the_write Sample.env Sample.store
              (PutCatalog "1" Sample.retarget) "defaultTemplate") as (Hstore & _ & Hcode).
  - left. split; [reflexivity|]. exists (JNum 42). split; vm_compute; reflexivity.
  - split; [exact Hstore|]. apply Hcode.
    + split; [vm_compute; reflexivity|]. eexists. vm_compute. reflexivity.
    + intros k v Hk Hv. simpl in Hk.
      apply elem_of_cons in Hk as [->|Hk];
        [|apply list_elem_of_singleton in Hk as ->];
        vm_compute in Hv; [|discriminate Hv].
      injection Hv as <-. reflexivity.
Defined.

(** C3, as stated, fails for a reference that does not fit the key column:
    POST /ostemplate with [osFamily] 2147483648 passes the schema, no OS
    family has that key, and the lookup raises inside the [try], so that the
    answer is E1003 and not a validation failure. *)
Lemma dangling_reference_counterexample :
  reaches_checks Sample.store (PostOsTemplate Fixtures.family_out_of_range) ∧
  dangling_in Sample.store (PostOsTemplate Fixtures.family_out_of_range) "osFamily" ∧
  route Sample.env Sample.store (PostOsTemplate Fixtures.family_out_of_range)
  = (failure E1003 (ErrorMessages E1003), Sample.store) ∧
  ¬ ∃ message,
      (route Sample.env Sample.store (PostOsTemplate Fixtures.family_out_of_range)).1
      = failure E1007 message.
Proof.
  assert (H : route Sample.env Sample.store (PostOsTemplate Fixtures.family_out_of_range)
              = (failure E1003 (ErrorMessages E1003), Sample.store))
    by (vm_compute; reflexivity).
  split_and!.
  - vm_compute; reflexivity.
  - left. split; [reflexivity|]. exists (JNum 2147483648). split; vm_compute; reflexivity.
  - exact H.
  - rewrite H. intros [message Hm]. discriminate Hm.
Qed.

(** ** Numerals *)

Lemma read_digits_Some (s : string) (a : Z) :
  all_digits s = true → ∃ z, read_digits (Some a) s = Some z.
Proof.
  revert a. induction s as [|c s IH]; simpl; intros a H; [by eexists|].
  apply andb_true_iff in H as [Hc Hs]. rewrite Hc. by apply IH.
Qed.

Lemma read_digits_nonempty (s : string) :
  s ≠ EmptyString → all_digits s = true → ∃ z, read_digits None s = Some z.
Proof.
  destruct s as [|c s]; [done|]. simpl. intros _ H.
  apply andb_true_iff in H as [Hc Hs]. rewrite Hc. by apply read_digits_Some.
Qed.

Lemma signed_is_finite (neg : bool) (z : Z) : is_finite (signed neg z) = true.
Proof. unfold signed. by destruct (z =? 0), neg. Qed.

(** Every numeral that the number rule accepts is read by [parseInt] as a
    finite number. *)
Lemma is_numeral_parseInt (s : string) :
  is_numeral s = true → is_finite (parseInt s) = true.
Proof.
  destruct s as [|c s]; [discriminate|].
  destruct (decide (c = "-"%char)) as [->|Hminus].
  { simpl. intros [Hne Hd]%andb_true_iff.
    destruct (read_digits_nonempty s) as [z Hz]; [|done|].
    - intros ->. discriminate Hne.
    - unfold parseInt. simpl. rewrite Hz. apply signed_is_finite. }
  destruct (decide (c = "+"%char)) as [->|Hplus].
  { simpl. intros [Hne Hd]%andb_true_iff.
    destruct (read_digits_nonempty s) as [z Hz]; [|done|].
    - intros ->. discriminate Hne.
    - unfold parseInt. simpl. by rewrite Hz. }
  intros Hnum.
  assert (Hall : all_digits (String c s) = true).
  { destruct c as [[] [] [] [] [] [] [] []]; try done;
      simpl in Hnum |- *; try discriminate Hnum; exact Hnum. }
  destruct (read_digits_nonempty (String c s)) as [z Hz]; [done|done|].
  simpl in Hall. apply andb_true_iff in Hall as [Hc _].
  destruct c as [[] [] [] [] [] [] [] []]; try done; try discriminate Hc;
    unfold parseInt; simpl; simpl in Hz; by rewrite Hz.
Qed.

(** ** Pagination *)

Lemma filter_nil {A : Type} (f : A → bool) (l : list A) :
  List.filter f l = [] ↔ ∀ x, x ∈ l → f x = false.
Proof.
  induction l as [|a l IH]; simpl.
  - split; [intros _ x Hx; by apply elem_of_nil in Hx | done].
  - destruct (f a) eqn:Hfa.
    + split; [discriminate|]. intros H. specialize (H a (list_elem_of_here _ _)). congruence.
    + rewrite IH. split.
      * intros H x [->|Hx]%elem_of_cons; [done | by apply H].
      * intros H x Hx. apply H. by apply list_elem_of_further.
Qed.

(** No key is unknown exactly when every key of the object is one of the
    schema. *)
Lemma unknown_nil (ks : list Joi.key) (o : gmap string jvalue) :
  Joi.unknown ks o = [] ↔
  ∀ k, is_Some (o !! k) → Joi.mem k (List.map Joi.name ks) = true.
Proof.
  unfold Joi.unknown. rewrite filter_nil. split.
  - intros H k [v Hv]. apply negb_false_iff, H.
    apply list_elem_of_In, in_map_iff. exists (k, v). split; [done|].
    by apply list_elem_of_In, elem_of_map_to_list.
  - intros H k Hk. apply negb_false_iff, H.
    apply list_elem_of_In, in_map_iff in Hk as ([k' v] & <- & Hin).
    apply list_elem_of_In, elem_of_map_to_list in Hin. by exists v.
Qed.

Lemma skipn_all_nil {A : Type} (n : nat) (l : list A) :
  (List.length l ≤ n)%nat → skipn n l = [].
Proof. intros H. by apply skipn_all2. Qed.

(** C7: pagination of the list handler.  A list request that passes
    validation with page [p] and positive limit [L] (the defaults being 0 and
    50), answered by the store, returns the rows that follow the first
    [p * L] matching rows, at most [L] of them, the number [count] of all
    non-deleted rows, and [pages = ceil (count / L)]; a page at or after
    [pages] holds no row, with the same count. *)
Theorem fetchAllOsTemplates_pagination
    (env : Env) (ds : DataStore) (q fields sort : gmap string jvalue) (p L : Z) :
  OsTemplateRoutes.fetchAll_validation q fields sort = None →
  page_of q = Fin p → limit_of q = Fin L → 0 ≤ p → 0 < L →
  findAndCount_raises env = false →
  orderable OsTemplateRepository.columns (list_query q fields sort) →
  ∃ all pages,
    all ≡ₚ Repository.rows os_template.deletedAt (tbl_os_template ds) ∧
    OsTemplateRoutes.fetchAllOsTemplates env ds q fields sort
    = send OK [("status", PStatus SUCCESS);
               ("ostemplates",
                POsTemplates (firstn (Z.to_nat L) (skipn (Z.to_nat (p * L)) all)));
               ("count", PNumber (Fin (Z.of_nat (List.length all))));
               ("pages", PNumber (Fin pages))] ∧
    (List.length (firstn (Z.to_nat L) (skipn (Z.to_nat (p * L)) all)) ≤ Z.to_nat L)%nat ∧
    Z.of_nat (List.length all)
    = Z.of_nat (List.length (Repository.rows os_template.deletedAt (tbl_os_template ds))) ∧
    (pages - 1) * L < Z.of_nat (List.length all) ≤ pages * L ∧
    (pages ≤ p → firstn (Z.to_nat L) (skipn (Z.to_nat (p * L)) all) = []).
Proof.
  intros Hv Hp HL Hp0 HL0 Hraise Hord.
  destruct (clause_nonneg (p * L) ltac:(lia)) as (s & Hs & Hoff).
  destruct (findAndCount_window os_template.deletedAt OsTemplateRepository.columns
              OsTemplateRepository.cell_at (tbl_os_template ds)
              (list_query q fields sort) s (Some (Z.to_nat L))) as (all & Hperm & Hfc);
    [simpl; rewrite Hp, HL, js_mul_nonneg by lia; exact Hs
    |simpl; rewrite HL; by apply clause_pos | done |].
  destruct (js_ceil_div_pos (Z.of_nat (List.length all)) L ltac:(lia) HL0)
    as (pages & Hpages & Hbound).
  exists all, pages. split; [done|].
  unfold OsTemplateRoutes.fetchAllOsTemplates, OsTemplateRepository.findAndCount.
  rewrite Hv, Hraise, Hfc, HL, Hpages, Hoff.
  split; [reflexivity|]. split; [apply firstn_le_length|].
  split; [by rewrite Hperm|]. split; [exact Hbound|].
  intros Hbeyond. rewrite skipn_all_nil; [by destruct (Z.to_nat L)|]. nia.
Qed.

Lemma fetchAllOsTemplates_pagination_witness :
  ∃ all pages,
    all ≡ₚ Repository.rows os_template.deletedAt (tbl_os_template Sample.store) ∧
    OsTemplateRoutes.fetchAllOsTemplates Sample.env Sample.store
      Sample.second_page ∅ Sample.by_name
    = send OK [("status", PStatus SUCCESS);
               ("ostemplates",
                POsTemplates (firstn (Z.to_nat 5) (skipn (Z.to_nat (1 * 5)) all)));
               ("count", PNumber (Fin (Z.of_nat (List.length all))));
               ("pages", PNumber (Fin pages))] ∧
    (List.length (firstn (Z.to_nat 5) (skipn (Z.to_nat (1 * 5)) all)) ≤ Z.to_nat 5)%nat ∧
    Z.of_nat (List.length all)
    = Z.of_nat (List.length
                  (Repository.rows os_template.deletedAt (tbl_os_template Sample.store))) ∧
    (pages - 1) * 5 < Z.of_nat (List.length all) ≤ pages * 5 ∧
    (pages ≤ 1 → firstn (Z.to_nat 5) (skipn (Z.to_nat (1 * 5)) all) = []).
Proof.
  apply (fetchAllOsTemplates_pagination Sample.env Sample.store
           Sample.second_page ∅ Sample.by_name 1 5).
  - vm_compute; reflexivity.
  - vm_compute; reflexivity.
  - vm_compute; reflexivity.
  - lia.
  - lia.
  - reflexivity.
  - vm_compute. eexists; reflexivity.
Defined.

(** The page and the limit of a query that passed validation are finite
    numbers. *)
Lemma validated_page_is_finite (q fields sort : gmap string jvalue) :
  OsTemplateRoutes.fetchAll_validation q fields sort = None →
  is_finite (page_of q) = true.
Proof.
  unfold OsTemplateRoutes.fetchAll_validation.
  intros [[Hfe _]%object_None _]%validate_cons_None.
  pose proof (first_error_None _ _
                (Joi.Key "page" Joi.number false "Please provide a valid page")
                Hfe ltac:(apply list_elem_of_In; simpl; tauto)) as Hc.
  unfold Joi.check in Hc. simpl in Hc. unfold page_of.
  destruct (q !! "page") as [[| | |s'|]|]; try done.
  simpl in Hc. destruct (is_numeral s') eqn:Hs'; [|discriminate Hc].
  by apply is_numeral_parseInt.
Qed.

(** Replacing the limit of an acceptable query by a numeral keeps it
    acceptable. *)
Lemma numeral_limit_is_valid (q fields sort : gmap string jvalue) (s : string) :
  OsTemplateRoutes.fetchAll_validation (delete "limit" q) fields sort = None →
  is_numeral s = true →
  OsTemplateRoutes.fetchAll_validation (<["limit" := JStr s]> q) fields sort = None.
Proof.
  intros Hv Hnum. unfold OsTemplateRoutes.fetchAll_validation in *.
  apply validate_cons_None in Hv as [Hq Hrest]. apply validate_cons_None.
  split; [|done]. apply object_None in Hq as [Hfe Hun]. apply object_None. split.
  - revert Hfe. unfold query_schema, Joi.first_error, Joi.check. simpl.
    rewrite (lookup_insert_ne q "limit" "page"), (lookup_delete_ne q "limit" "page") by done.
    rewrite (lookup_insert_ne q "limit" "relations"),
      (lookup_delete_ne q "limit" "relations") by done.
    rewrite lookup_insert_eq, lookup_delete_eq. simpl. rewrite Hnum.
    destruct (q !! "page") as [v|]; [destruct (Joi.accepts Joi.number v)|]; try done.
  - apply unknown_nil. intros k Hk. destruct (decide (k = "limit")) as [->|Hne].
    + reflexivity.
    + rewrite lookup_insert_ne in Hk by done.
      apply (proj1 (unknown_nil _ _) Hun). by rewrite lookup_delete_ne.
Qed.

(** C10: the limit is only checked to be numeric.  In a query that is
    acceptable without its limit, every numeral is an acceptable limit, a
    negative one like any other; and with a limit that reads as zero and at
    least one non-deleted row, the store answering, the answer is a success
    whose [pages] is the quotient of the count by that zero: positive
    infinity, or negative infinity for the zero written with a minus sign,
    neither of which is a finite number. *)
Theorem limit_zero_is_accepted
    (env : Env) (ds : DataStore) (q fields sort : gmap string jvalue) (s s' : string) :
  OsTemplateRoutes.fetchAll_validation (delete "limit" q) fields sort = None →
  is_numeral s' = true →
  is_numeral s = true → js_int (parseInt s) = 0 →
  findAndCount_raises env = false →
  orderable OsTemplateRepository.columns (list_query (<["limit" := JStr s]> q) fields sort) →
  Repository.rows os_template.deletedAt (tbl_os_template ds) ≠ [] →
  OsTemplateRoutes.fetchAll_validation (<["limit" := JStr s']> q) fields sort = None ∧
  OsTemplateRoutes.fetchAll_validation (<["limit" := JStr s]> q) fields sort = None ∧
  is_success (OsTemplateRoutes.fetchAllOsTemplates env ds
                (<["limit" := JStr s]> q) fields sort) ∧
  prop "pages" (body (OsTemplateRoutes.fetchAllOsTemplates env ds
                        (<["limit" := JStr s]> q) fields sort))
  = Some (PNumber (if negative (parseInt s) then NegInf else PosInf)) ∧
  is_finite (if negative (parseInt s) then NegInf else PosInf) = false.
Proof.
  intros Hv Hnum' Hnum Hzero Hraise Hord Hrows.
  pose proof (numeral_limit_is_valid q fields sort s Hv Hnum) as Hvs.
  split; [by apply numeral_limit_is_valid|]. split; [exact Hvs|].
  assert (Hlim : limit_of (<["limit" := JStr s]> q) = parseInt s).
  { unfold limit_of. by rewrite lookup_insert_eq. }
  pose proof (is_numeral_parseInt s Hnum) as Hfin.
  pose proof (validated_page_is_finite _ _ _ Hvs) as Hpage.
  destruct (findAndCount_window os_template.deletedAt OsTemplateRepository.columns
              OsTemplateRepository.cell_at (tbl_os_template ds)
              (list_query (<["limit" := JStr s]> q) fields sort) None None)
    as (all & Hperm & Hfc); [| |done|].
  { simpl. rewrite Hlim. by apply clause_falsy, js_mul_zero. }
  { simpl. rewrite Hlim. apply clause_falsy.
    destruct (parseInt s); try done. simpl in *. by subst. }
  assert (Hcount : 0 < Z.of_nat (List.length all)).
  { destruct all as [|r all]; [|simpl; lia].
    apply Permutation_nil_l in Hperm. by rewrite <- Hperm in Hrows. }
  destruct (js_ceil_div_zero _ (parseInt s) Hcount Hfin Hzero) as [Hpages Hinf].
  unfold OsTemplateRoutes.fetchAllOsTemplates, OsTemplateRepository.findAndCount.
  rewrite Hvs, Hraise, Hfc, Hlim, Hpages.
  split_and!; [by split | reflexivity | by destruct (negative (parseInt s))].
Qed.

Lemma limit_zero_is_accepted_witness :
  OsTemplateRoutes.fetchAll_validation (<["limit" := JStr "-1"]> Sample.second_page) ∅ ∅
  = None ∧
  OsTemplateRoutes.fetchAll_validation (<["limit" := JStr "-0"]> Sample.second_page) ∅ ∅
  = None ∧
  is_success (OsTemplateRoutes.fetchAllOsTemplates Sample.env Sample.store
                (<["limit" := JStr "-0"]> Sample.second_page) ∅ ∅) ∧
  prop "pages" (body (OsTemplateRoutes.fetchAllOsTemplates Sample.env Sample.store
                        (<["limit" := JStr "-0"]> Sample.second_page) ∅ ∅))
  = Some (PNumber (if negative (parseInt "-0") then NegInf else PosInf)) ∧
  is_finite (if negative (parseInt "-0") then NegInf else PosInf) = false.
Proof.
  apply (limit_zero_is_accepted Sample.env Sample.store Sample.second_page ∅ ∅ "-0" "-1").
  - vm_compute; reflexivity.
  - vm_compute; reflexivity.
  - vm_compute; reflexivity.
  - vm_compute; reflexivity.
  - reflexivity.
  - vm_compute. eexists; reflexivity.
  - vm_compute. discriminate.
Defined.

(** ** Saving an entity that has a row *)

Lemma with_os_template_id (ds : DataStore) (k : Z) (r : os_template.row) :
  tbl_os_template ds !! k = Some r →
  with_os_template (<[k := r]> (tbl_os_template ds)) ds = ds.
Proof. intros H. destruct ds. unfold with_os_template. simpl in *. by rewrite insert_id. Qed.

Lemma with_catalog_id (ds : DataStore) (k : Z) (r : catalog.row) :
  tbl_catalog ds !! k = Some r →
  with_catalog (<[k := r]> (tbl_catalog ds)) ds = ds.
Proof. intros H. destruct ds. unfold with_catalog. simpl in *. by rewrite insert_id. Qed.

Lemma defined_or_same {A : Type} (v : option A) : defined_or v v = v.
Proof. by destruct v. Qed.

(** What [save] does with an OS template whose id has a row: the store
    afterwards holds, under that id, a row whose columns are those of the
    entity, a property that holds nothing leaving its column as it was; the
    creation and deletion stamps are kept; the row is the old one when no
    column differs, and is stamped with the time of the write otherwise. *)
Lemma OsTemplate_save_existing
    (env : Env) (ds : DataStore) (e : OsTemplate.t) (k : Z) (old : os_template.row) :
  save_raises env = false → OsTemplate.id e = Some k →
  tbl_os_template ds !! k = Some old →
  ∃ r e',
    OsTemplateRepository.save env ds e
    = Some (with_os_template (<[k := r]> (tbl_os_template ds)) ds, e') ∧
    os_template.name r = OsTemplate.name e ∧
    os_template.templateId r = OsTemplate.templateId e ∧
    os_template.osFamilyId r
    = from_option (λ f, Some (OsFamily.id f)) (os_template.osFamilyId old)
        (OsTemplate.osFamily e) ∧
    os_template.locationId r
    = from_option (λ l, Some (Location.id l)) (os_template.locationId old)
        (OsTemplate.location e) ∧
    os_template.availableNetwork r = OsTemplate.availableNetwork e ∧
    os_template.createdBy r = defined_or (OsTemplate.createdBy e) (os_template.createdBy old) ∧
    os_template.updatedBy r = defined_or (OsTemplate.updatedBy e) (os_template.updatedBy old) ∧
    os_template.deletedBy r = defined_or (OsTemplate.deletedBy e) (os_template.deletedBy old) ∧
    os_template.createdAt r = os_template.createdAt old ∧
    os_template.deletedAt r = os_template.deletedAt old ∧
    (r = old ∨ (os_template.id r = k ∧ os_template.updatedAt r = now env)) ∧
    (OsTemplateRepository.unchanged old e = true → r = old) ∧
    (OsTemplateRepository.unchanged old e = false →
     os_template.id r = k ∧ os_template.updatedAt r = now env).
Proof.
  intros Hsave Hid Hold. unfold OsTemplateRepository.save.
  rewrite Hsave, Hid. simpl. rewrite Hold.
  destruct (OsTemplateRepository.unchanged old e) eqn:Hu.
  - exists old, e. rewrite (with_os_template_id ds k old Hold).
    split; [done|].
    unfold OsTemplateRepository.unchanged in Hu. simpl in Hu.
    repeat (apply andb_true_iff in Hu as [Hu ?]).
    repeat match goal with
           | H : bool_decide _ = true |- _ => apply bool_decide_eq_true in H
           end.
    destruct (OsTemplate.osFamily e), (OsTemplate.location e);
      split_and!; try done; by left.
  - eexists _, _. split; [reflexivity|]. simpl.
    destruct (OsTemplate.osFamily e), (OsTemplate.location e);
      split_and!; try done; by right.
Qed.

(** The same for catalogs; the numeric columns hold the number that their
    property denotes. *)
Lemma Catalog_save_existing
    (env : Env) (ds : DataStore) (e : Catalog.t) (k : Z) (old : catalog.row) :
  save_raises env = false → Catalog.id e = Some k →
  tbl_catalog ds !! k = Some old →
  ∃ r e',
    CatalogRepository.save env ds e
    = Some (with_catalog (<[k := r]> (tbl_catalog ds)) ds, e') ∧
    catalog.name r = Catalog.name e ∧
    catalog.icon r = defined_or (Catalog.icon e) (catalog.icon old) ∧
    catalog.shortName r = Catalog.shortName e ∧
    catalog.defaultTemplateId r
    = from_option OsTemplate.id (catalog.defaultTemplateId old) (Catalog.defaultTemplate e) ∧
    catalog.defaultApprovalPolicyId r
    = from_option (λ p, Some (ApprovalPolicy.id p)) (catalog.defaultApprovalPolicyId old)
        (Catalog.defaultApprovalPolicy e) ∧
    catalog.defaultLeasePeriod r = num_of (Catalog.defaultLeasePeriod e) ∧
    catalog.permittedMaxLeaseExtensions r = num_of (Catalog.permittedMaxLeaseExtensions e) ∧
    catalog.type r = Catalog.type e ∧
    catalog.createdBy r = defined_or (Catalog.createdBy e) (catalog.createdBy old) ∧
    catalog.updatedBy r = defined_or (Catalog.updatedBy e) (catalog.updatedBy old) ∧
    catalog.deletedBy r = defined_or (Catalog.deletedBy e) (catalog.deletedBy old) ∧
    catalog.createdAt r = catalog.createdAt old ∧
    catalog.deletedAt r = catalog.deletedAt old ∧
    (r = old ∨ (catalog.id r = k ∧ catalog.updatedAt r = now env)) ∧
    (CatalogRepository.unchanged old e = true → r = old) ∧
    (CatalogRepository.unchanged old e = false →
     catalog.id r = k ∧ catalog.updatedAt r = now env).
Proof.
  intros Hsave Hid Hold. unfold CatalogRepository.save.
  rewrite Hsave, Hid. simpl. rewrite Hold.
  destruct (CatalogRepository.unchanged old e) eqn:Hu.
  - exists old, e. rewrite (with_catalog_id ds k old Hold).
    split; [done|].
    unfold CatalogRepository.unchanged in Hu. simpl in Hu.
    repeat (apply andb_true_iff in Hu as [Hu ?]).
    repeat match goal with
           | H : bool_decide _ = true |- _ => apply bool_decide_eq_true in H
           | H : CatalogRepository.same_number ?v _ = true |- _ =>
               destruct v; try discriminate H; apply Z.eqb_eq in H; simpl
           end.
    destruct (Catalog.defaultTemplate e), (Catalog.defaultApprovalPolicy e);
      split_and!; try done; by left.
  - eexists _, _. split; [reflexivity|]. simpl.
    destruct (Catalog.defaultTemplate e), (Catalog.defaultApprovalPolicy e);
      split_and!; try done; by right.
Qed.

(** ** Deleting an OS template *)

(** The delete handler of OS templates on a numeric id, by the outcome of
    its lookup. *)
Lemma deleteOsTemplate_unfold (env : Env) (ds : DataStore) (ostemplateId : string) (id : Z) :
  is_finite (parseInt ostemplateId) = true → js_int (parseInt ostemplateId) = id →
  OsTemplateRoutes.deleteOsTemplate env ds ostemplateId =
  match OsTemplateRepository.findOneBy ds id with
  | None => (failure E1005 (ErrorMessages E1005), ds)
  | Some None => (failure E1006 (ErrorMessages E1006), ds)
  | Some (Some e) =>
      match OsTemplateRepository.save env ds (OsTemplate.set_deletedBy (user env) e) with
      | Some (ds', _) =>
          match OsTemplateRepository.softDelete env ds' id with
          | Some (ds'', affected) =>
              if 0 <? affected
              then (send OK [("status", PStatus SUCCESS)], ds'')
              else (failure E1006 (ErrorMessages E1006), ds'')
          | None => (failure E1005 (ErrorMessages E1005), ds')
          end
      | None => (failure E1005 (ErrorMessages E1005), ds)
      end
  end.
Proof.
  intros Hfin Hid. unfold OsTemplateRoutes.deleteOsTemplate,
    OsTemplateRoutes.delete_validation, Joi.number_required.
  rewrite Hfin, Hid. simpl.
  by destruct (OsTemplateRepository.findOneBy ds id) as [[e|]|].
Qed.

(** The two persistence steps of a delete, on a row that is not deleted:
    [save] leaves a row with [deletedBy] set, when there is a principal, and
    not yet deleted; the soft delete that follows stamps that row and
    reports one affected row. *)
Lemma deleteOsTemplate_steps (env : Env) (ds : DataStore) (id : Z) (old : os_template.row) :
  Repository.int4 id = true →
  tbl_os_template ds !! id = Some old → os_template.deletedAt old = None →
  save_raises env = false →
  ∃ r1 e1,
    let ds1 := with_os_template (<[id := r1]> (tbl_os_template ds)) ds in
    OsTemplateRepository.save env ds
      (OsTemplate.set_deletedBy (user env) (OsTemplateRepository.load ds false id old))
    = Some (ds1, e1) ∧
    os_template.deletedBy r1 = defined_or (user env) (os_template.deletedBy old) ∧
    os_template.deletedAt r1 = None ∧
    (softDelete_raises env = false →
     OsTemplateRepository.softDelete env ds1 id
     = Some (with_os_template
               (<[id := OsTemplateRepository.set_deletedAt (now env) r1]>
                  (<[id := r1]> (tbl_os_template ds))) ds1, 1)).
Proof.
  intros Hfit Hold Hlive Hsave.
  destruct (OsTemplate_save_existing env ds
              (OsTemplate.set_deletedBy (user env) (OsTemplateRepository.load ds false id old))
              id old Hsave eq_refl Hold)
    as (r1 & e1 & Hs & _ & _ & _ & _ & _ & _ & _ & Hby & _ & Hat & _).
  exists r1, e1. simpl. split; [exact Hs|]. split; [exact Hby|].
  split; [by rewrite Hat|].
  intros Hsd. unfold OsTemplateRepository.softDelete, Repository.softDelete.
  rewrite Hsd, Hfit. simpl. by rewrite lookup_insert_eq.
Qed.

(** C8: the delete handler.  Amended: for a numeric id that fits the key
    column: without a non-deleted row of that id the answer is E1006 and
    nothing is written; otherwise [deletedBy] is saved first, set to the
    acting principal when there is one, the soft delete is a second step on
    the store that save produced, and the answer is a success exactly when
    that step reports an affected row (E1006 otherwise, E1005 when a step
    raises); after a successful delete, deleting the same id again answers
    E1006.  For a numeric id that does not fit the key column the lookup
    raises and the answer is E1005. *)
Theorem deleteOsTemplate_contract
    (env env' : Env) (ds : DataStore) (ostemplateId : string) (id : Z) :
  is_finite (parseInt ostemplateId) = true → js_int (parseInt ostemplateId) = id →
  (Repository.int4 id = false →
   OsTemplateRoutes.deleteOsTemplate env ds ostemplateId
   = (failure E1005 (ErrorMessages E1005), ds)) ∧
  (Repository.int4 id = true →
   (Repository.live_row os_template.deletedAt (tbl_os_template ds) id = None →
    OsTemplateRoutes.deleteOsTemplate env ds ostemplateId
    = (failure E1006 (ErrorMessages E1006), ds)) ∧
   (∀ old, tbl_os_template ds !! id = Some old → os_template.deletedAt old = None →
      (save_raises env = true →
       OsTemplateRoutes.deleteOsTemplate env ds ostemplateId
       = (failure E1005 (ErrorMessages E1005), ds)) ∧
      (save_raises env = false →
       ∃ ds1 e1 r1,
         OsTemplateRepository.save env ds
           (OsTemplate.set_deletedBy (user env)
              (OsTemplateRepository.load ds false id old))
         = Some (ds1, e1) ∧
         tbl_os_template ds1 !! id = Some r1 ∧
         os_template.deletedBy r1 = defined_or (user env) (os_template.deletedBy old) ∧
         os_template.deletedAt r1 = None ∧
         (softDelete_raises env = true →
          OsTemplateRoutes.deleteOsTemplate env ds ostemplateId
          = (failure E1005 (ErrorMessages E1005), ds1)) ∧
         (softDelete_raises env = false →
          ∃ ds2 affected r2,
            OsTemplateRepository.softDelete env ds1 id = Some (ds2, affected) ∧
            (OsTemplateRoutes.deleteOsTemplate env ds ostemplateId).2 = ds2 ∧
            (is_success (OsTemplateRoutes.deleteOsTemplate env ds ostemplateId).1
             ↔ 0 < affected) ∧
            (¬ 0 < affected →
             (OsTemplateRoutes.deleteOsTemplate env ds ostemplateId).1
             = failure E1006 (ErrorMessages E1006)) ∧
            tbl_os_template ds2 !! id = Some r2 ∧
            os_template.deletedBy r2
            = defined_or (user env) (os_template.deletedBy old) ∧
            os_template.deletedAt r2 = Some (now env))))) ∧
  (is_success (OsTemplateRoutes.deleteOsTemplate env ds ostemplateId).1 →
   (OsTemplateRoutes.deleteOsTemplate env'
      (OsTemplateRoutes.deleteOsTemplate env ds ostemplateId).2 ostemplateId).1
   = failure E1006 (ErrorMessages E1006)).
Proof.
  intros Hfin Hid.
  pose proof (λ en st, deleteOsTemplate_unfold en st ostemplateId id Hfin Hid) as Hshape.
  assert (Hfound : ∀ old, Repository.int4 id = true →
            tbl_os_template ds !! id = Some old → os_template.deletedAt old = None →
            OsTemplateRepository.findOneBy ds id
            = Some (Some (OsTemplateRepository.load ds false id old))).
  { intros old Hfit Hold Hlive. unfold OsTemplateRepository.findOneBy.
    by rewrite (proj2 (find_Some os_template.deletedAt _ id old)). }
  split_and!.
  - intros Hfit. rewrite Hshape. unfold OsTemplateRepository.findOneBy, Repository.find.
    by rewrite Hfit.
  - intros Hfit. split.
    + intros Hnone. rewrite Hshape. unfold OsTemplateRepository.findOneBy, Repository.find.
      by rewrite Hfit, Hnone.
    + intros old Hold Hlive. rewrite Hshape, (Hfound old Hfit Hold Hlive). split.
      * intros Hsave. unfold OsTemplateRepository.save. by rewrite Hsave.
      * intros Hsave.
        destruct (deleteOsTemplate_steps env ds id old Hfit Hold Hlive Hsave)
          as (r1 & e1 & He1 & Hby & Hat & Hsd). simpl in He1, Hsd.
        eexists _, e1, r1. split; [exact He1|]. split; [simpl; apply lookup_insert_eq|].
        split; [exact Hby|]. split; [exact Hat|]. rewrite He1. split.
        -- intros Hraise.
           unfold OsTemplateRepository.softDelete, Repository.softDelete.
           by rewrite Hraise.
        -- intros Hraise. rewrite (Hsd Hraise).
           eexists _, 1, _. split; [reflexivity|]. simpl.
           split; [reflexivity|]. split; [split; [lia | by split]|].
           split; [lia|]. split; [apply lookup_insert_eq|]. split; [exact Hby | reflexivity].
  - rewrite (Hshape env ds).
    pose proof (OsTemplate_findOneBy_cases ds id) as Hcases.
    destruct (OsTemplateRepository.findOneBy ds id) as [[e|]|];
      [|by intros ?%not_success_failure..].
    destruct Hcases as (Hfit & old & Hold & Hlive & ->).
    destruct (save_raises env) eqn:Hsave.
    { unfold OsTemplateRepository.save. rewrite Hsave. by intros ?%not_success_failure. }
    destruct (deleteOsTemplate_steps env ds id old Hfit Hold Hlive Hsave)
      as (r1 & e1 & He1 & _ & _ & Hsd). simpl in He1, Hsd.
    rewrite He1. destruct (softDelete_raises env) eqn:Hraise.
    { unfold OsTemplateRepository.softDelete, Repository.softDelete. rewrite Hraise.
      by intros ?%not_success_failure. }
    rewrite (Hsd eq_refl). simpl. intros _. rewrite Hshape.
    match goal with
    | |- context [OsTemplateRepository.findOneBy ?st id] =>
        pose proof (OsTemplate_findOneBy_cases st id) as Hagain;
        destruct (OsTemplateRepository.findOneBy st id) as [[e2|]|]
    end.
    + destruct Hagain as (_ & r2 & Hr2 & Hd2 & _).
      simpl in Hr2. rewrite lookup_insert_eq in Hr2. injection Hr2 as <-.
      discriminate Hd2.
    + reflexivity.
    + congruence.
Qed.

Lemma deleteOsTemplate_contract_witness :
  (∃ r2, tbl_os_template (OsTemplateRoutes.deleteOsTemplate Sample.env Sample.store "1").2
         !! 1 = Some r2 ∧
         os_template.deletedBy r2 = Some "bob" ∧ os_template.deletedAt r2 = Some 100) ∧
  (OsTemplateRoutes.deleteOsTemplate Sample.env_save_raises
     (OsTemplateRoutes.deleteOsTemplate Sample.env Sample.store "1").2 "1").1
  = failure E1006 (ErrorMessages E1006).
Proof.
  destruct (deleteOsTemplate_contract Sample.env Sample.env_save_raises Sample.store "1" 1)
    as (_ & Hin & Htwice); [vm_compute; reflexivity..|].
  destruct (Hin eq_refl) as [_ Hrow].
  destruct (Hrow Sample.ubuntu) as [_ Hsave]; [vm_compute; reflexivity | reflexivity |].
  destruct (Hsave eq_refl) as (ds1 & e1 & r1 & _ & _ & _ & _ & _ & Hsd).
  destruct (Hsd eq_refl) as (ds2 & affected & r2 & _ & Hds2 & _ & _ & Hr2 & Hby & Hat).
  split.
  - exists r2. rewrite Hds2. split; [exact Hr2|]. split; [exact Hby | exact Hat].
  - apply Htwice. split; vm_compute; reflexivity.
Defined.

(** C8, as stated, fails for a numeric id that does not fit the key column:
    no OS template has the id 2147483648, and DELETE /ostemplate/2147483648
    is answered with E1005, not with E1006. *)
Lemma deleteOsTemplate_counterexample :
  OsTemplateRoutes.delete_validation (parseInt "2147483648") = None ∧
  parseInt "2147483648" = Fin 2147483648 ∧
  tbl_os_template Sample.store !! 2147483648 = None ∧
  OsTemplateRoutes.deleteOsTemplate Sample.env Sample.store "2147483648"
  = (failure E1005 (ErrorMessages E1005), Sample.store) ∧
  (OsTemplateRoutes.deleteOsTemplate Sample.env Sample.store "2147483648").1
  ≠ failure E1006 (ErrorMessages E1006).
Proof.
  assert (H : OsTemplateRoutes.deleteOsTemplate Sample.env Sample.store "2147483648"
              = (failure E1005 (ErrorMessages E1005), Sample.store))
    by (vm_compute; reflexivity).
  split_and!; [vm_compute; reflexivity.. | exact H | by rewrite H].
Qed.

(** ** Updating a catalog *)

(** For the entity that [findOneBy] loaded and that only got an
    [updatedBy], [save] finds a difference exactly when the request has a
    principal who is not the one already recorded. *)
Lemma Catalog_unchanged_loaded (k : Z) (old : catalog.row) (u : option string) :
  CatalogRepository.unchanged old (Catalog.set_updatedBy u (CatalogRepository.load k old))
  = bool_decide (defined_or u (catalog.updatedBy old) = catalog.updatedBy old).
Proof.
  unfold CatalogRepository.unchanged. simpl.
  rewrite !defined_or_same, !Z.eqb_refl.
  repeat match goal with
         | |- context [bool_decide (?x = ?x)] =>
             rewrite (bool_decide_eq_true_2 (x = x)) by done
         end.
  simpl. by rewrite andb_true_r.
Qed.

(** The row that a successful catalog update leaves under the id. *)
Lemma updateCatalog_written_row
    (env : Env) (ds : DataStore) (catalogId : string) (b : gmap string jvalue) (id : Z) :
  parseInt catalogId = Fin id →
  is_success (CatalogRoutes.updateCatalog env ds catalogId b).1 →
  ∃ old new,
    Repository.int4 id = true ∧
    tbl_catalog ds !! id = Some old ∧ catalog.deletedAt old = None ∧
    (CatalogRoutes.updateCatalog env ds catalogId b).2
    = with_catalog (<[id := new]> (tbl_catalog ds)) ds ∧
    catalog.name new = from_option str_of (catalog.name old) (b !! "name") ∧
    catalog.icon new = catalog.icon old ∧
    catalog.shortName new = from_option str_of (catalog.shortName old) (b !! "shortName") ∧
    catalog.defaultTemplateId new
    = from_option (λ v, Some (num_of v)) (catalog.defaultTemplateId old)
        (b !! "defaultTemplate") ∧
    match b !! "defaultApprovalPolicy" with
    | Some v => ∃ p, ApprovalPolicyRepository.findOneBy ds (num_of v) = Some (Some p) ∧
                     catalog.defaultApprovalPolicyId new = Some (ApprovalPolicy.id p)
    | None => catalog.defaultApprovalPolicyId new = catalog.defaultApprovalPolicyId old
    end ∧
    catalog.defaultLeasePeriod new
    = from_option num_of (catalog.defaultLeasePeriod old) (b !! "defaultLeasePeriod") ∧
    catalog.permittedMaxLeaseExtensions new
    = from_option num_of (catalog.permittedMaxLeaseExtensions old)
        (b !! "permittedMaxLeaseExtensions") ∧
    catalog.type new = from_option str_of (catalog.type old) (b !! "type") ∧
    catalog.createdBy new = catalog.createdBy old ∧
    catalog.createdAt new = catalog.createdAt old ∧
    catalog.updatedBy new = defined_or (user env) (catalog.updatedBy old) ∧
    catalog.deletedBy new = catalog.deletedBy old ∧
    catalog.deletedAt new = catalog.deletedAt old ∧
    (new = old ∨ (catalog.id new = id ∧ catalog.updatedAt new = now env)) ∧
    (b = ∅ →
     if bool_decide (defined_or (user env) (catalog.updatedBy old) = catalog.updatedBy old)
     then new = old else catalog.updatedAt new = now env).
Proof.
  intros Hid. unfold CatalogRoutes.updateCatalog, CatalogRoutes.assign. rewrite Hid.
  destruct (CatalogRoutes.update_validation (Fin id) b) as [m|];
    [by intros ?%not_success_failure|].
  simpl.
  pose proof (Catalog_findOneBy_cases ds id) as Hc.
  destruct (CatalogRepository.findOneBy ds id) as [[e|]|];
    [|by intros ?%not_success_failure|by intros ?%not_success_unanswered].
  destruct Hc as (Hfit & old & Hold & Hdel & ->). simpl.
  destruct (save_raises env) eqn:Hsave.
  { unfold CatalogRepository.save. rewrite Hsave.
    destruct (b !! "name"), (b !! "shortName"), (b !! "defaultTemplate") as [vt|],
      (b !! "defaultApprovalPolicy") as [vp|]; simpl;
      try (destruct (OsTemplateRepository.findOneBy ds (num_of vt)) as [[t|]|]; simpl;
           [|by intros ?%not_success_failure|by intros ?%not_success_unanswered]);
      try (destruct (ApprovalPolicyRepository.findOneBy ds (num_of vp)) as [[p|]|]; simpl;
           [|by intros ?%not_success_failure|by intros ?%not_success_unanswered]);
      by intros [_ [=]]. }
  destruct (b !! "name") eqn:Hn, (b !! "shortName") eqn:Hs,
    (b !! "defaultTemplate") as [vt|] eqn:Ht,
    (b !! "defaultApprovalPolicy") as [vp|] eqn:Hp,
    (b !! "defaultLeasePeriod") eqn:Hl,
    (b !! "permittedMaxLeaseExtensions") eqn:Hm, (b !! "type") eqn:Hty; simpl;
    try (pose proof (OsTemplate_findOneBy_cases ds (num_of vt)) as Hft;
         destruct (OsTemplateRepository.findOneBy ds (num_of vt)) as [[t|]|];
         [destruct Hft as (_ & rt & _ & _ & ->)
         |by intros ?%not_success_failure|by intros ?%not_success_unanswered]; simpl);
    try (destruct (ApprovalPolicyRepository.findOneBy ds (num_of vp)) as [[p|]|] eqn:Hfp;
         [|by intros ?%not_success_failure|by intros ?%not_success_unanswered]; simpl);
    match goal with
    | |- context [CatalogRepository.save env ds ?E] =>
        destruct (Catalog_save_existing env ds E id old Hsave eq_refl Hold)
          as (r & e' & -> & H1 & H2 & H3 & H4 & H5 & H6 & H7 & H8 & H9 & H10 & H11
              & H12 & H13 & H14 & H15 & H16)
    end;
    simpl in H1, H2, H3, H4, H5, H6, H7, H8, H9, H10, H11, H12, H13;
    rewrite ?defined_or_same in H2, H9, H11;
    intros _; exists old, r;
    (split_and!; try done; try (by eexists));
    intros ->; try (by rewrite lookup_empty in Hn); try (by rewrite lookup_empty in Hs);
    try (by rewrite lookup_empty in Ht); try (by rewrite lookup_empty in Hp);
    try (by rewrite lookup_empty in Hl); try (by rewrite lookup_empty in Hm);
    try (by rewrite lookup_empty in Hty);
    rewrite <- (Catalog_unchanged_loaded id old (user env));
    match goal with
    | |- if ?u then _ else _ =>
        destruct u eqn:Hu; [by apply H15 | by apply H16]
    end.
Qed.

(** C9: the frame of a successful catalog update.  Amended: the row of the
    given id is left with each writable attribute at the value of the body
    when the body carries it and at its old value otherwise; [updatedBy] is
    the acting principal when the request has one and is kept otherwise;
    [createdBy], [createdAt], [icon] and the deletion columns are the old
    ones; [updatedAt] is the time of the write whenever the row is not left
    exactly as it was; no other row and no other table changes.  With an
    empty body the row is left exactly as it was, [updatedAt] included,
    unless the request has a principal who is not the one recorded in
    [updatedBy]. *)
Theorem updateCatalog_frame
    (env : Env) (ds : DataStore) (catalogId : string) (b : gmap string jvalue) (id : Z) :
  parseInt catalogId = Fin id →
  is_success (CatalogRoutes.updateCatalog env ds catalogId b).1 →
  ∃ old new,
    Repository.int4 id = true ∧
    tbl_catalog ds !! id = Some old ∧ catalog.deletedAt old = None ∧
    (CatalogRoutes.updateCatalog env ds catalogId b).2
    = with_catalog (<[id := new]> (tbl_catalog ds)) ds ∧
    catalog.name new = from_option str_of (catalog.name old) (b !! "name") ∧
    catalog.icon new = catalog.icon old ∧
    catalog.shortName new = from_option str_of (catalog.shortName old) (b !! "shortName") ∧
    catalog.defaultTemplateId new
    = from_option (λ v, Some (num_of v)) (catalog.defaultTemplateId old)
        (b !! "defaultTemplate") ∧
    match b !! "defaultApprovalPolicy" with
    | Some v => ∃ p, ApprovalPolicyRepository.findOneBy ds (num_of v) = Some (Some p) ∧
                     catalog.defaultApprovalPolicyId new = Some (ApprovalPolicy.id p)
    | None => catalog.defaultApprovalPolicyId new = catalog.defaultApprovalPolicyId old
    end ∧
    catalog.defaultLeasePeriod new
    = from_option num_of (catalog.defaultLeasePeriod old) (b !! "defaultLeasePeriod") ∧
    catalog.permittedMaxLeaseExtensions new
    = from_option num_of (catalog.permittedMaxLeaseExtensions old)
        (b !! "permittedMaxLeaseExtensions") ∧
    catalog.type new = from_option str_of (catalog.type old) (b !! "type") ∧
    catalog.createdBy new = catalog.createdBy old ∧
    catalog.createdAt new = catalog.createdAt old ∧
    catalog.updatedBy new = defined_or (user env) (catalog.updatedBy old) ∧
    catalog.deletedBy new = catalog.deletedBy old ∧
    catalog.deletedAt new = catalog.deletedAt old ∧
    (new = old ∨ (catalog.id new = id ∧ catalog.updatedAt new = now env)) ∧
    (b = ∅ →
     if bool_decide (defined_or (user env) (catalog.updatedBy old) = catalog.updatedBy old)
     then new = old else catalog.updatedAt new = now env).
Proof. apply updateCatalog_written_row. Qed.

Lemma updateCatalog_frame_witness :
  ∃ new,
    (CatalogRoutes.updateCatalog Sample.env Sample.store "1" ∅).2
    = with_catalog (<[1 := new]> (tbl_catalog Sample.store)) Sample.store ∧
    catalog.name new = catalog.name Sample.standard ∧
    catalog.defaultLeasePeriod new = catalog.defaultLeasePeriod Sample.standard ∧
    catalog.createdBy new = catalog.createdBy Sample.standard ∧
    catalog.updatedBy new = Some "bob" ∧
    catalog.updatedAt new = 100.
Proof.
  destruct (updateCatalog_frame Sample.env Sample.store "1" ∅ 1)
    as (old & new & _ & Hold & _ & Hst & Hn & _ & _ & _ & _ & Hl & _ & _ & Hcb & _ & Hub
        & _ & _ & _ & Hempty).
  - vm_compute; reflexivity.
  - split; vm_compute; reflexivity.
  - vm_compute in Hold. injection Hold as <-.
    exists new. split; [exact Hst|]. split; [exact Hn|]. split; [exact Hl|].
    split; [exact Hcb|]. split; [exact Hub|]. exact (Hempty eq_refl).
Defined.

(** C9, as stated, fails for the empty body: PUT /catalog/1 with [{}] is
    answered with a success and leaves the store exactly as it was, when the
    request has no principal and also when its principal is the one already
    recorded: [updatedBy] is not set to a principal and [updatedAt] is not
    updated. *)
Lemma updateCatalog_counterexample :
  tbl_catalog Sample.store !! 1 = Some Sample.standard ∧
  catalog.updatedBy Sample.standard = Some "alice" ∧
  catalog.updatedAt Sample.standard = 30 ∧
  user Fixtures.anonymous = None ∧ now Fixtures.anonymous = 100 ∧
  is_success (CatalogRoutes.updateCatalog Fixtures.anonymous Sample.store "1" ∅).1 ∧
  (CatalogRoutes.updateCatalog Fixtures.anonymous Sample.store "1" ∅).2 = Sample.store ∧
  user Fixtures.alice = Some "alice" ∧ now Fixtures.alice = 100 ∧
  is_success (CatalogRoutes.updateCatalog Fixtures.alice Sample.store "1" ∅).1 ∧
  (CatalogRoutes.updateCatalog Fixtures.alice Sample.store "1" ∅).2 = Sample.store.
Proof.
  split_and!; try reflexivity; try (vm_compute; reflexivity);
    split; vm_compute; reflexivity.
Qed.

(** * Further properties of the handlers *)

(** ** Listing *)

Section rows.
Context {R : Type} (deletedAt : R → option Z).
Context (columns : list string) (cell_at : string → R → cell).

Lemma rows_elem (t : gmap Z R) (r : R) :
  r ∈ Repository.rows deletedAt t ↔ ∃ k, t !! k = Some r ∧ deletedAt r = None.
Proof.
  unfold Repository.rows. rewrite list_elem_of_In, filter_In, in_map_iff.
  unfold Repository.live. split.
  - intros [([k r'] & <- & Hin) Hlive]. simpl in *.
    apply list_elem_of_In, elem_of_map_to_list in Hin.
    exists k. split; [done|]. by destruct (deletedAt r').
  - intros (k & Hk & Hd). rewrite Hd. split; [|done].
    exists (k, r). split; [done|]. by apply list_elem_of_In, elem_of_map_to_list.
Qed.

Lemma rows_of_list_perm (l1 l2 : list (Z * R)) :
  l1 ≡ₚ l2 →
  List.filter (Repository.live deletedAt) (List.map snd l1)
  ≡ₚ List.filter (Repository.live deletedAt) (List.map snd l2).
Proof.
  induction 1; simpl.
  - done.
  - destruct (Repository.live deletedAt x.2); by rewrite IHPermutation.
  - destruct (Repository.live deletedAt x.2), (Repository.live deletedAt y.2);
      try done. apply Permutation_swap.
  - by etrans.
Qed.

(** The matching rows after a row is written under a key: that row, when it
    is not soft-deleted, and the matching rows under the other keys. *)
Lemma rows_insert (t : gmap Z R) (k : Z) (r : R) :
  Repository.rows deletedAt (<[k := r]> t)
  ≡ₚ (if Repository.live deletedAt r then [r] else [])
     ++ Repository.rows deletedAt (delete k t).
Proof.
  unfold Repository.rows.
  rewrite <- (insert_delete_eq t k r).
  rewrite (rows_of_list_perm _ _ (map_to_list_insert (delete k t) k r
                                    (lookup_delete_eq t k))).
  simpl. by destruct (Repository.live deletedAt r).
Qed.

Lemma rows_lookup (t : gmap Z R) (k : Z) (r : R) :
  t !! k = Some r →
  Repository.rows deletedAt t
  ≡ₚ (if Repository.live deletedAt r then [r] else [])
     ++ Repository.rows deletedAt (delete k t).
Proof.
  intros Hk. rewrite <- (insert_id t k r Hk) at 1. apply rows_insert.
Qed.

Lemma rows_insert_fresh (t : gmap Z R) (k : Z) (r : R) :
  t !! k = None → deletedAt r = None →
  Repository.rows deletedAt (<[k := r]> t) ≡ₚ r :: Repository.rows deletedAt t.
Proof.
  intros Hk Hd. rewrite rows_insert, (delete_id t k Hk).
  unfold Repository.live. by rewrite Hd.
Qed.

Lemma window_sound {A : Type} (s n : option nat) (l : list A) :
  (List.length (Repository.limit n (Repository.offset s l)) ≤ List.length l)%nat ∧
  ∀ x, x ∈ Repository.limit n (Repository.offset s l) → x ∈ l.
Proof.
  destruct s as [s|], n as [n|]; simpl.
  - split; [rewrite length_firstn, length_skipn; lia|].
    intros x Hx. by apply (subseteq_drop s), (subseteq_take n).
  - split; [rewrite length_skipn; lia|]. intros x Hx. by apply (subseteq_drop s).
  - split; [rewrite length_firstn; lia|]. intros x Hx. by apply (subseteq_take n).
  - done.
Qed.

(** What a paginated read can return at all. *)
Lemma findAndCount_sound (raises : bool) (t : gmap Z R)
    (query : Repository.FindManyOptions) (result : list R) (count : Z) :
  Repository.findAndCount deletedAt columns cell_at raises t query = Some (result, count) →
  raises = false ∧
  orderable columns query ∧
  count = Z.of_nat (List.length (Repository.rows deletedAt t)) ∧
  (List.length result ≤ List.length (Repository.rows deletedAt t))%nat ∧
  ∀ r, r ∈ result → r ∈ Repository.rows deletedAt t.
Proof.
  unfold Repository.findAndCount, orderable. destruct raises; [discriminate|].
  destruct (Repository.order_keys columns _) as [ks|]; [|discriminate].
  destruct (Repository.clause (Repository.skip query)) as [s|]; [|discriminate].
  destruct (Repository.clause (Repository.take query)) as [n|]; [|discriminate].
  intros [= <- <-]. pose proof (order_by_perm cell_at ks (Repository.rows deletedAt t)) as Hp.
  destruct (window_sound s n (Repository.order_by cell_at ks (Repository.rows deletedAt t)))
    as [Hlen Hin].
  split; [done|]. split; [by eexists|]. split; [by rewrite Hp|]. split.
  - by rewrite <- Hp at 2.
  - intros r Hr. rewrite <- Hp. by apply Hin.
Qed.

(** The count of a paginated read depends on the table only through its
    matching rows: when the store answers a query on one table, it answers
    it on any other, with that table's number of matching rows. *)
Lemma findAndCount_other_table (raises : bool) (t t' : gmap Z R)
    (query : Repository.FindManyOptions) (result : list R) (count : Z) :
  Repository.findAndCount deletedAt columns cell_at raises t query = Some (result, count) →
  ∃ result',
    Repository.findAndCount deletedAt columns cell_at raises t' query
    = Some (result', Z.of_nat (List.length (Repository.rows deletedAt t'))).
Proof.
  unfold Repository.findAndCount. destruct raises; [discriminate|].
  destruct (Repository.order_keys columns _) as [ks|]; [|discriminate].
  destruct (Repository.clause (Repository.skip query)) as [s|]; [|discriminate].
  destruct (Repository.clause (Repository.take query)) as [n|]; [|discriminate].
  intros _. eexists. do 2 f_equal.
  by rewrite (order_by_perm cell_at ks (Repository.rows deletedAt t')).
Qed.
End rows.

(** X1: pagination of the list handler of catalogs. *)
Theorem fetchAllCatalogs_pagination
    (env : Env) (ds : DataStore) (q fields sort : gmap string jvalue) (p L : Z) :
  CatalogRoutes.fetchAll_validation q fields sort = None →
  page_of q = Fin p → limit_of q = Fin L → 0 ≤ p → 0 < L →
  findAndCount_raises env = false →
  orderable CatalogRepository.columns (list_query q fields sort) →
  ∃ all pages,
    all ≡ₚ Repository.rows catalog.deletedAt (tbl_catalog ds) ∧
    CatalogRoutes.fetchAllCatalogs env ds q fields sort
    = send OK [("status", PStatus SUCCESS);
               ("catalogs",
                PCatalogs (firstn (Z.to_nat L) (skipn (Z.to_nat (p * L)) all)));
               ("count", PNumber (Fin (Z.of_nat (List.length all))));
               ("pages", PNumber (Fin pages))] ∧
    (List.length (firstn (Z.to_nat L) (skipn (Z.to_nat (p * L)) all)) ≤ Z.to_nat L)%nat ∧
    (pages - 1) * L < Z.of_nat (List.length all) ≤ pages * L ∧
    (pages ≤ p → firstn (Z.to_nat L) (skipn (Z.to_nat (p * L)) all) = []).
Proof.
  intros Hv Hp HL Hp0 HL0 Hraise Hord.
  destruct (clause_nonneg (p * L) ltac:(lia)) as (s & Hs & Hoff).
  destruct (findAndCount_window catalog.deletedAt CatalogRepository.columns
              CatalogRepository.cell_at (tbl_catalog ds)
              (list_query q fields sort) s (Some (Z.to_nat L))) as (all & Hperm & Hfc);
    [simpl; rewrite Hp, HL, js_mul_nonneg by lia; exact Hs
    |simpl; rewrite HL; by apply clause_pos | done |].
  destruct (js_ceil_div_pos (Z.of_nat (List.length all)) L ltac:(lia) HL0)
    as (pages & Hpages & Hbound).
  exists all, pages. split; [done|].
  unfold CatalogRoutes.fetchAllCatalogs, CatalogRepository.findAndCount.
  rewrite Hv, Hraise, Hfc, HL, Hpages, Hoff.
  split; [reflexivity|]. split; [apply firstn_le_length|]. split; [exact Hbound|].
  intros Hbeyond. rewrite skipn_all_nil; [by destruct (Z.to_nat L)|]. nia.
Qed.

Lemma fetchAllCatalogs_pagination_witness :
  ∃ all pages,
    all ≡ₚ Repository.rows catalog.deletedAt (tbl_catalog Sample.store) ∧
    CatalogRoutes.fetchAllCatalogs Sample.env Sample.store Sample.second_page ∅ Sample.by_name
    = send OK [("status", PStatus SUCCESS);
               ("catalogs",
                PCatalogs (firstn (Z.to_nat 5) (skipn (Z.to_nat (1 * 5)) all)));
               ("count", PNumber (Fin (Z.of_nat (List.length all))));
               ("pages", PNumber (Fin pages))] ∧
    (List.length (firstn (Z.to_nat 5) (skipn (Z.to_nat (1 * 5)) all)) ≤ Z.to_nat 5)%nat ∧
    (pages - 1) * 5 < Z.of_nat (List.length all) ≤ pages * 5 ∧
    (pages ≤ 1 → firstn (Z.to_nat 5) (skipn (Z.to_nat (1 * 5)) all) = []).
Proof.
  apply (fetchAllCatalogs_pagination Sample.env Sample.store
           Sample.second_page ∅ Sample.by_name 1 5).
  - vm_compute; reflexivity.
  - vm_compute; reflexivity.
  - vm_compute; reflexivity.
  - lia.
  - lia.
  - reflexivity.
  - vm_compute. eexists; reflexivity.
Defined.

(** The rows and the count of an answer of the list handler of OS
    templates. *)
Lemma fetchAllOsTemplates_rows
    (env : Env) (ds : DataStore) (q fields sort : gmap string jvalue)
    (result : list os_template.row) :
  prop "ostemplates" (body (OsTemplateRoutes.fetchAllOsTemplates env ds q fields sort))
  = Some (POsTemplates result) →
  prop "count" (body (OsTemplateRoutes.fetchAllOsTemplates env ds q fields sort))
  = Some (PNumber (Fin (Z.of_nat
       (List.length (Repository.rows os_template.deletedAt (tbl_os_template ds)))))) ∧
  ∀ r, r ∈ result →
       os_template.deletedAt r = None ∧ ∃ k, tbl_os_template ds !! k = Some r.
Proof.
  unfold OsTemplateRoutes.fetchAllOsTemplates.
  destruct (OsTemplateRoutes.fetchAll_validation q fields sort); [discriminate|].
  destruct (OsTemplateRepository.findAndCount env ds _) as [[res c]|] eqn:Hfc;
    [|discriminate].
  simpl. intros [= <-].
  apply findAndCount_sound in Hfc as (_ & _ & -> & _ & Hin).
  split; [done|]. intros r Hr. apply Hin, rows_elem in Hr as (k & Hk & Hd). eauto.
Qed.

(** X2: whatever the list handler of OS templates returns under
    [ostemplates] is made of rows of the table that are not soft-deleted, and
    the count it reports is the number of all such rows, whatever the page. *)
Theorem fetchAllOsTemplates_returns_live_rows
    (env : Env) (ds : DataStore) (q fields sort : gmap string jvalue)
    (result : list os_template.row) :
  prop "ostemplates" (body (OsTemplateRoutes.fetchAllOsTemplates env ds q fields sort))
  = Some (POsTemplates result) →
  prop "count" (body (OsTemplateRoutes.fetchAllOsTemplates env ds q fields sort))
  = Some (PNumber (Fin (Z.of_nat
       (List.length (Repository.rows os_template.deletedAt (tbl_os_template ds)))))) ∧
  ∀ r, r ∈ result →
       os_template.deletedAt r = None ∧ ∃ k, tbl_os_template ds !! k = Some r.
Proof. apply fetchAllOsTemplates_rows. Qed.

Lemma fetchAllOsTemplates_returns_live_rows_witness :
  prop "count" (body (OsTemplateRoutes.fetchAllOsTemplates Sample.env Sample.store ∅ ∅ ∅))
  = Some (PNumber (Fin (Z.of_nat
       (List.length
          (Repository.rows os_template.deletedAt (tbl_os_template Sample.store)))))) ∧
  ∀ r, r ∈ [Sample.ubuntu] →
       os_template.deletedAt r = None ∧ ∃ k, tbl_os_template Sample.store !! k = Some r.
Proof.
  apply (fetchAllOsTemplates_returns_live_rows Sample.env Sample.store ∅ ∅ ∅).
  vm_compute; reflexivity.
Defined.

(** X3: the same for the list handler of catalogs. *)
Theorem fetchAllCatalogs_returns_live_rows
    (env : Env) (ds : DataStore) (q fields sort : gmap string jvalue)
    (result : list catalog.row) :
  prop "catalogs" (body (CatalogRoutes.fetchAllCatalogs env ds q fields sort))
  = Some (PCatalogs result) →
  prop "count" (body (CatalogRoutes.fetchAllCatalogs env ds q fields sort))
  = Some (PNumber (Fin (Z.of_nat
       (List.length (Repository.rows catalog.deletedAt (tbl_catalog ds)))))) ∧
  ∀ r, r ∈ result →
       catalog.deletedAt r = None ∧ ∃ k, tbl_catalog ds !! k = Some r.
Proof.
  unfold CatalogRoutes.fetchAllCatalogs.
  destruct (CatalogRoutes.fetchAll_validation q fields sort); [discriminate|].
  destruct (CatalogRepository.findAndCount env ds _) as [[res c]|] eqn:Hfc;
    [|discriminate].
  simpl. intros [= <-].
  apply findAndCount_sound in Hfc as (_ & _ & -> & _ & Hin).
  split; [done|]. intros r Hr. apply Hin, rows_elem in Hr as (k & Hk & Hd). eauto.
Qed.

Lemma fetchAllCatalogs_returns_live_rows_witness :
  prop "count" (body (CatalogRoutes.fetchAllCatalogs Sample.env Sample.store ∅ ∅ ∅))
  = Some (PNumber (Fin (Z.of_nat
       (List.length (Repository.rows catalog.deletedAt (tbl_catalog Sample.store)))))) ∧
  ∀ r, r ∈ [Sample.standard] →
       catalog.deletedAt r = None ∧ ∃ k, tbl_catalog Sample.store !! k = Some r.
Proof.
  apply (fetchAllCatalogs_returns_live_rows Sample.env Sample.store ∅ ∅ ∅).
  vm_compute; reflexivity.
Defined.

(** ** Writes *)

Lemma Location_findOneBy_Some (ds : DataStore) (k : Z) (l : Location.t) :
  LocationRepository.findOneBy ds k = Some (Some l) ↔
  Repository.int4 k = true ∧ tbl_location ds !! k = Some l ∧ Location.deletedAt l = None.
Proof. apply find_Some. Qed.

(** [save] raises exactly when the datastore does, and otherwise changes at
    most one row of its table. *)
Lemma OsTemplate_save_shape (env : Env) (ds : DataStore) (e : OsTemplate.t) :
  match OsTemplateRepository.save env ds e with
  | Some (ds', _) =>
      save_raises env = false ∧
      ∃ k r, ds' = with_os_template (<[k := r]> (tbl_os_template ds)) ds
  | None => save_raises env = true
  end.
Proof.
  unfold OsTemplateRepository.save. destruct (save_raises env); [done|]. simpl.
  destruct (tbl_os_template ds !! _) as [old|] eqn:Hold.
  - destruct (OsTemplateRepository.unchanged old e).
    + split; [done|]. eexists _, old. by rewrite with_os_template_id.
    + split; [done|]. by eexists _, _.
  - split; [done|]. by eexists _, _.
Qed.

Lemma Catalog_save_shape (env : Env) (ds : DataStore) (e : Catalog.t) :
  match CatalogRepository.save env ds e with
  | Some (ds', _) =>
      save_raises env = false ∧
      ∃ k r, ds' = with_catalog (<[k := r]> (tbl_catalog ds)) ds
  | None => save_raises env = true
  end.
Proof.
  unfold CatalogRepository.save. destruct (save_raises env); [done|]. simpl.
  destruct (tbl_catalog ds !! _) as [old|] eqn:Hold.
  - destruct (CatalogRepository.unchanged old e).
    + split; [done|]. eexists _, old. by rewrite with_catalog_id.
    + split; [done|]. by eexists _, _.
  - split; [done|]. by eexists _, _.
Qed.

(** The row that a successful update of an OS template leaves under the
    id. *)
Lemma updateOsTemplate_written_row
    (env : Env) (ds : DataStore) (ostemplateId : string) (b : gmap string jvalue) (id : Z) :
  parseInt ostemplateId = Fin id →
  is_success (OsTemplateRoutes.updateOsTemplate env ds ostemplateId b).1 →
  ∃ old new vf vl f l,
    Repository.int4 id = true ∧
    tbl_os_template ds !! id = Some old ∧ os_template.deletedAt old = None ∧
    (OsTemplateRoutes.updateOsTemplate env ds ostemplateId b).2
    = with_os_template (<[id := new]> (tbl_os_template ds)) ds ∧
    b !! "osFamily" = Some vf ∧
    OsFamilyRepository.findOneBy ds (num_of vf) = Some (Some f) ∧
    b !! "location" = Some vl ∧
    LocationRepository.findOneBy ds (num_of vl) = Some (Some l) ∧
    os_template.name new = from_option str_of (os_template.name old) (b !! "name") ∧
    os_template.templateId new
    = from_option str_of (os_template.templateId old) (b !! "templateId") ∧
    os_template.osFamilyId new = Some (OsFamily.id f) ∧
    os_template.locationId new = Some (Location.id l) ∧
    os_template.availableNetwork new
    = from_option str_of (os_template.availableNetwork old) (b !! "availableNetwork") ∧
    (∀ v, b !! "availableNetwork" = Some v → str_of v ∈ Location.availableNetworks l) ∧
    os_template.createdBy new = os_template.createdBy old ∧
    os_template.createdAt new = os_template.createdAt old ∧
    os_template.updatedBy new = defined_or (user env) (os_template.updatedBy old) ∧
    os_template.deletedBy new = os_template.deletedBy old ∧
    os_template.deletedAt new = None ∧
    (new = old ∨ (os_template.id new = id ∧ os_template.updatedAt new = now env)).
Proof.
  intros Hid. unfold OsTemplateRoutes.updateOsTemplate. rewrite Hid.
  destruct (OsTemplateRoutes.update_validation (Fin id) b) as [m|] eqn:Hv;
    [by intros ?%not_success_failure|].
  unfold OsTemplateRoutes.update_validation in Hv.
  apply validate_cons_None in Hv as [_ [Hobj _]%validate_cons_None].
  destruct (required_present _ _ _
              (Joi.Key "osFamily" Joi.number true
                 "Please provide a valid number for osFamily") Hobj)
    as (vf & Hvf & _); [apply list_elem_of_In; simpl; tauto | done |]. simpl in Hvf.
  destruct (required_present _ _ _
              (Joi.Key "location" Joi.number true
                 "Please provide a valid number for location") Hobj)
    as (vl & Hvl & _); [apply list_elem_of_In; simpl; tauto | done |]. simpl in Hvl.
  rewrite Hvf, Hvl. simpl.
  pose proof (OsTemplate_findOne_cases ds id) as Hc.
  destruct (OsTemplateRepository.findOne ds id) as [[e|]|];
    [|by intros ?%not_success_failure|by intros ?%not_success_unanswered].
  destruct Hc as (Hfit & old & Hold & Hdel & ->). simpl.
  destruct (OsFamilyRepository.findOneBy ds (num_of vf)) as [[f|]|] eqn:Hff; simpl;
    [|by intros ?%not_success_failure|by intros ?%not_success_unanswered].
  destruct (LocationRepository.findOneBy ds (num_of vl)) as [[l|]|] eqn:Hfl; simpl;
    [|by intros ?%not_success_failure|by intros ?%not_success_unanswered].
  destruct (save_raises env) eqn:Hsave.
  { unfold OsTemplateRepository.save. rewrite Hsave.
    destruct (b !! "availableNetwork") as [vn|]; simpl;
      [destruct (Joi.mem (str_of vn) (Location.availableNetworks l)); simpl|];
      first [by intros ?%not_success_failure | by intros [_ [=]]]. }
  destruct (b !! "name") eqn:Hn, (b !! "templateId") eqn:Ht,
    (b !! "availableNetwork") as [vn|] eqn:Hnet; simpl;
    try (destruct (Joi.mem (str_of vn) (Location.availableNetworks l)) eqn:Hmem; simpl;
         [apply mem_elem_of in Hmem | by intros ?%not_success_failure]);
    match goal with
    | |- context [OsTemplateRepository.save env ds ?E] =>
        destruct (OsTemplate_save_existing env ds E id old Hsave eq_refl Hold)
          as (r & e' & -> & H1 & H2 & H3 & H4 & H5 & H6 & H7 & H8 & H9 & H10 & H11 & _)
    end;
    simpl in H1, H2, H3, H4, H5, H6, H7, H8, H9, H10;
    rewrite ?defined_or_same in H6, H8;
    intros _; exists old, r, vf, vl, f, l;
    split_and!; try done; try (by intros v [= <-]); congruence.
Qed.

(** X4: the frame of a successful update of an OS template.  The row of the
    given id is left with [name], [templateId] and [availableNetwork] at the
    value of the body when it carries them and at the old one otherwise;
    both references are always rewritten, from the body, to rows that exist;
    a supplied network is one of the networks of the supplied location;
    [updatedBy] is the acting principal when the request has one and is kept
    otherwise; the creation and deletion columns are kept; [updatedAt] is the
    time of the write whenever the row is not left exactly as it was; no
    other row and no other table changes. *)
Theorem updateOsTemplate_frame
    (env : Env) (ds : DataStore) (ostemplateId : string) (b : gmap string jvalue) (id : Z) :
  parseInt ostemplateId = Fin id →
  is_success (OsTemplateRoutes.updateOsTemplate env ds ostemplateId b).1 →
  ∃ old new vf vl f l,
    Repository.int4 id = true ∧
    tbl_os_template ds !! id = Some old ∧ os_template.deletedAt old = None ∧
    (OsTemplateRoutes.updateOsTemplate env ds ostemplateId b).2
    = with_os_template (<[id := new]> (tbl_os_template ds)) ds ∧
    b !! "osFamily" = Some vf ∧
    OsFamilyRepository.findOneBy ds (num_of vf) = Some (Some f) ∧
    b !! "location" = Some vl ∧
    LocationRepository.findOneBy ds (num_of vl) = Some (Some l) ∧
    os_template.name new = from_option str_of (os_template.name old) (b !! "name") ∧
    os_template.templateId new
    = from_option str_of (os_template.templateId old) (b !! "templateId") ∧
    os_template.osFamilyId new = Some (OsFamily.id f) ∧
    os_template.locationId new = Some (Location.id l) ∧
    os_template.availableNetwork new
    = from_option str_of (os_template.availableNetwork old) (b !! "availableNetwork") ∧
    (∀ v, b !! "availableNetwork" = Some v → str_of v ∈ Location.availableNetworks l) ∧
    os_template.createdBy new = os_template.createdBy old ∧
    os_template.createdAt new = os_template.createdAt old ∧
    os_template.updatedBy new = defined_or (user env) (os_template.updatedBy old) ∧
    os_template.deletedBy new = os_template.deletedBy old ∧
    os_template.deletedAt new = None ∧
    (new = old ∨ (os_template.id new = id ∧ os_template.updatedAt new = now env)).
Proof. apply updateOsTemplate_written_row. Qed.

Lemma updateOsTemplate_frame_witness :
  ∃ old new,
    tbl_os_template Sample.store !! 1 = Some old ∧
    (OsTemplateRoutes.updateOsTemplate Sample.env Sample.store "1" Sample.move_to_dc1).2
    = with_os_template (<[1 := new]> (tbl_os_template Sample.store)) Sample.store ∧
    os_template.name new = os_template.name old ∧
    os_template.locationId new = Some 2 ∧
    os_template.updatedBy new = Some "bob".
Proof.
  destruct (updateOsTemplate_frame Sample.env Sample.store "1" Sample.move_to_dc1 1)
    as (old & new & vf & vl & f & l & _ & H1 & _ & H2 & _ & _ & Hvl & Hl & Hn & _ & _ & Hloc
        & _ & _ & _ & _ & Hby & _).
  - vm_compute; reflexivity.
  - split; vm_compute; reflexivity.
  - exists old, new.
    split; [exact H1|]. split; [exact H2|]. split; [exact Hn|].
    vm_compute in Hvl. injection Hvl as <-. vm_compute in Hl. injection Hl as <-.
    split; [exact Hloc|].
    vm_compute in H1. injection H1 as <-. exact Hby.
Defined.

(** X5: a successful create leaves a row that satisfies I2, and so does a
    successful update whose body carries [availableNetwork], in a store
    whose locations are keyed by their id. *)
Theorem network_check_establishes_I2
    (env : Env) (ds : DataStore) (ostemplateId : string) (b : gmap string jvalue) (id : Z) :
  well_keyed_locations ds →
  (is_success (OsTemplateRoutes.createOsTemplate env ds b).1 →
   ∃ k r, (OsTemplateRoutes.createOsTemplate env ds b).2
          = with_os_template (<[k := r]> (tbl_os_template ds)) ds ∧
          tbl_os_template ds !! k = None ∧
          I2 (OsTemplateRoutes.createOsTemplate env ds b).2 r) ∧
  (parseInt ostemplateId = Fin id →
   is_Some (b !! "availableNetwork") →
   is_success (OsTemplateRoutes.updateOsTemplate env ds ostemplateId b).1 →
   ∃ r, tbl_os_template (OsTemplateRoutes.updateOsTemplate env ds ostemplateId b).2 !! id
        = Some r ∧
        I2 (OsTemplateRoutes.updateOsTemplate env ds ostemplateId b).2 r).
Proof.
  intros Hwk. split.
  - unfold OsTemplateRoutes.createOsTemplate.
    destruct (OsTemplateRoutes.create_validation b) as [m|];
      [by intros ?%not_success_failure|]. simpl.
    destruct (OsFamilyRepository.findOneBy ds _) as [[f|]|];
      [|by intros ?%not_success_failure..]. simpl.
    destruct (LocationRepository.findOneBy ds _) as [[l|]|] eqn:Hl;
      [|by intros ?%not_success_failure..]. simpl.
    destruct (Joi.mem _ (Location.availableNetworks l)) eqn:Hmem; simpl;
      [|by intros ?%not_success_failure].
    unfold OsTemplateRepository.save.
    destruct (save_raises env); [by intros ?%not_success_failure|]. simpl.
    rewrite (next_id_fresh (tbl_os_template ds)). simpl. intros _.
    eexists _, _. split; [reflexivity|]. split; [apply next_id_fresh|].
    apply Location_findOneBy_Some in Hl as (_ & Hl & _).
    exists l. simpl. rewrite (Hwk _ _ Hl). split; [exact Hl | by apply mem_elem_of].
  - intros Hid [v Hv] Hs.
    destruct (updateOsTemplate_written_row env ds ostemplateId b id Hid Hs)
      as (old & new & vf & vl & f & l & _ & _ & _ & Hst & _ & _ & _ & Hl & _ & _ & _ & Hloc
          & Hnet & Hin & _).
    rewrite Hst. exists new. split; [simpl; apply lookup_insert_eq|].
    apply Location_findOneBy_Some in Hl as (_ & Hl & _).
    exists l. rewrite Hloc. simpl. rewrite (Hwk _ _ Hl). split; [exact Hl|].
    rewrite Hnet, Hv. simpl. by apply Hin.
Qed.

Lemma network_check_establishes_I2_witness :
  ∃ k r, (OsTemplateRoutes.createOsTemplate Sample.env Sample.store
            (Sample.new_template "/DC0/net/a")).2
         = with_os_template (<[k := r]> (tbl_os_template Sample.store)) Sample.store ∧
         tbl_os_template Sample.store !! k = None ∧
         I2 (OsTemplateRoutes.createOsTemplate Sample.env Sample.store
               (Sample.new_template "/DC0/net/a")).2 r.
Proof.
  refine (proj1 (network_check_establishes_I2 Sample.env Sample.store "1"
                   (Sample.new_template "/DC0/net/a") 1 _) _).
  - apply (bool_decide_unpack
             (map_Forall (λ k l, Location.id l = k) (tbl_location Sample.store))).
    vm_compute. exact I.
  - split; vm_compute; reflexivity.
Defined.

(** ** The outcomes of a write *)

(** The four ways a create or an update ends: an error envelope with the
    store untouched; no answer at all, for a PUT one of whose lookups raised,
    again with the store untouched; the answer of a PUT whose save raised,
    with the store untouched; or a success with at most one row written, in
    the table of the entity. *)
Lemma route_outcome (env : Env) (ds : DataStore) (w : write) :
  (∃ c message, route env ds w = (failure c message, ds)) ∨
  (is_put w ∧ route env ds w = (unanswered, ds)) ∨
  (save_raises env = true ∧ is_put w ∧ route env ds w = (update_failure, ds)) ∨
  (save_raises env = false ∧ is_success (route env ds w).1 ∧
   written_table_only w ds (route env ds w).2).
Proof.
  destruct w as [b|id b|b|id b]; simpl.
  - unfold OsTemplateRoutes.createOsTemplate.
    destruct (OsTemplateRoutes.create_validation b); simpl; [left; by eauto|].
    destruct (OsFamilyRepository.findOneBy ds _) as [[?|]|]; simpl; [|left; by eauto..].
    destruct (LocationRepository.findOneBy ds _) as [[?|]|]; simpl; [|left; by eauto..].
    destruct (Joi.mem _ _); simpl; [|left; by eauto].
    match goal with
    | |- context [OsTemplateRepository.save env ds ?E] =>
        pose proof (OsTemplate_save_shape env ds E) as Hs;
        destruct (OsTemplateRepository.save env ds E) as [[ds' e']|]
    end; [|left; by eauto].
    destruct Hs as [Hs Hw]. do 3 right. by split_and!.
  - unfold OsTemplateRoutes.updateOsTemplate.
    destruct (OsTemplateRoutes.update_validation _ b); simpl; [left; by eauto|].
    destruct (OsTemplateRepository.findOne ds _) as [[e|]|]; simpl;
      [|left; by eauto|right; left; by split].
    destruct (b !! "osFamily") as [vf|], (b !! "location") as [vl|],
      (b !! "availableNetwork") as [vn|]; simpl;
      try (destruct (OsFamilyRepository.findOneBy ds (num_of vf)) as [[?|]|]; simpl;
           [|left; by eauto|right; left; by split]);
      try (destruct (LocationRepository.findOneBy ds (num_of vl)) as [[?|]|]; simpl;
           [|left; by eauto|right; left; by split]);
      try (match goal with
           | |- context [negb ?x] => destruct x; simpl; [|left; by eauto]
           end);
      match goal with
      | |- context [OsTemplateRepository.save env ds ?E] =>
          pose proof (OsTemplate_save_shape env ds E) as Hs;
          destruct (OsTemplateRepository.save env ds E) as [[ds' e']|]
      end;
      first [ do 2 right; left; by split_and!
            | destruct Hs as [Hs Hw]; do 3 right; by split_and! ].
  - unfold CatalogRoutes.createCatalog.
    destruct (CatalogRoutes.create_validation b); simpl; [left; by eauto|].
    destruct (OsTemplateRepository.findOneBy ds _) as [[?|]|]; simpl; [|left; by eauto..].
    destruct (ApprovalPolicyRepository.findOneBy ds _) as [[?|]|]; simpl;
      [|left; by eauto..].
    match goal with
    | |- context [CatalogRepository.save env ds ?E] =>
        pose proof (Catalog_save_shape env ds E) as Hs;
        destruct (CatalogRepository.save env ds E) as [[ds' e']|]
    end; [|left; by eauto].
    destruct Hs as [Hs Hw]. do 3 right. by split_and!.
  - unfold CatalogRoutes.updateCatalog.
    destruct (CatalogRoutes.update_validation _ b); simpl; [left; by eauto|].
    destruct (CatalogRepository.findOneBy ds _) as [[e|]|]; simpl;
      [|left; by eauto|right; left; by split].
    destruct (b !! "defaultTemplate") as [vt|],
      (b !! "defaultApprovalPolicy") as [vp|]; simpl;
      try (destruct (OsTemplateRepository.findOneBy ds (num_of vt)) as [[?|]|]; simpl;
           [|left; by eauto|right; left; by split]);
      try (destruct (ApprovalPolicyRepository.findOneBy ds (num_of vp)) as [[?|]|]; simpl;
           [|left; by eauto|right; left; by split]);
      match goal with
      | |- context [CatalogRepository.save env ds ?E] =>
          pose proof (Catalog_save_shape env ds E) as Hs;
          destruct (CatalogRepository.save env ds E) as [[ds' e']|]
      end;
      first [ do 2 right; left; by split_and!
            | destruct Hs as [Hs Hw]; do 3 right; by split_and! ].
Qed.

(** X6: creates and updates are all or nothing: a create or update of an OS
    template or of a catalog either answers success or leaves the whole
    store as it was. *)
Theorem write_is_all_or_nothing (env : Env) (ds : DataStore) (w : write) :
  is_success (route env ds w).1 ∨ (route env ds w).2 = ds.
Proof.
  destruct (route_outcome env ds w)
    as [(c & m & ->)|[(_ & ->)|[(_ & _ & ->)|(_ & Hs & _)]]];
    [by right | by right | by right | by left].
Qed.

(** X7: no create or update writes outside the table of its entity: the
    tables of OS families, locations and approval policies are never
    changed, an OS template request leaves the catalogs alone and a catalog
    request leaves the OS templates alone. *)
Theorem write_touches_one_table (env : Env) (ds : DataStore) (w : write) :
  tbl_os_family (route env ds w).2 = tbl_os_family ds ∧
  tbl_location (route env ds w).2 = tbl_location ds ∧
  tbl_approval_policy (route env ds w).2 = tbl_approval_policy ds ∧
  match w with
  | PostOsTemplate _ | PutOsTemplate _ _ =>
      tbl_catalog (route env ds w).2 = tbl_catalog ds
  | PostCatalog _ | PutCatalog _ _ =>
      tbl_os_template (route env ds w).2 = tbl_os_template ds
  end.
Proof.
  destruct (route_outcome env ds w)
    as [(c & m & ->)|[(_ & ->)|[(_ & _ & ->)|(_ & _ & Hw)]]].
  - by destruct w.
  - by destruct w.
  - by destruct w.
  - destruct w; destruct Hw as (k & r & ->); done.
Qed.

(** X8: every answer to a create or an update has HTTP status 200, and it
    is a success, an error envelope, or the answer of a PUT whose save
    raised, which carries its code under [codes]; and a request is left
    without an answer only by a PUT. *)
Theorem write_answers (env : Env) (ds : DataStore) (w : write) :
  (is_put w ∧ (route env ds w).1 = unanswered) ∨
  (status (route env ds w).1 = OK ∧
   (is_success (route env ds w).1 ∨
    (∃ c message, is_error_envelope (route env ds w).1 c message) ∨
    (is_put w ∧ save_raises env = true ∧ (route env ds w).1 = update_failure))).
Proof.
  destruct (route_outcome env ds w)
    as [(c & m & ->)|[(Hp & ->)|[(Hs & Hp & ->)|(_ & Hs & _)]]].
  - right. split; [done|]. right. left. exists c, m. by split_and!.
  - left. by split.
  - right. split; [done|]. right. right. by split_and!.
  - right. split; [apply Hs | by left].
Qed.

(** ** Creating and deleting a catalog *)

(** X9: a catalog create that passes the schema, with both references
    existing and the store taking the write, answers success and adds one
    row under a key that was free: its attributes are those of the body, its
    type is one of the two declared ones, it has no icon, it references the
    rows that were found, and it is stamped with the acting principal and
    the time of the write. *)
Theorem createCatalog_success
    (env : Env) (ds : DataStore) (b : gmap string jvalue)
    (t : OsTemplate.t) (p : ApprovalPolicy.t) :
  CatalogRoutes.create_validation b = None →
  OsTemplateRepository.findOneBy ds (num_of (get b "defaultTemplate")) = Some (Some t) →
  ApprovalPolicyRepository.findOneBy ds (num_of (get b "defaultApprovalPolicy"))
  = Some (Some p) →
  save_raises env = false →
  ∃ k r e,
    CatalogRoutes.createCatalog env ds b
    = (send OK [("status", PStatus SUCCESS); ("catalog", PCatalog e)],
       with_catalog (<[k := r]> (tbl_catalog ds)) ds) ∧
    tbl_catalog ds !! k = None ∧
    Catalog.id e = Some k ∧ catalog.id r = k ∧
    catalog.name r = str_of (get b "name") ∧
    catalog.shortName r = str_of (get b "shortName") ∧
    catalog.icon r = None ∧
    catalog.defaultTemplateId r = Some (num_of (get b "defaultTemplate")) ∧
    catalog.defaultApprovalPolicyId r = Some (ApprovalPolicy.id p) ∧
    catalog.defaultLeasePeriod r = num_of (get b "defaultLeasePeriod") ∧
    catalog.permittedMaxLeaseExtensions r = num_of (get b "permittedMaxLeaseExtensions") ∧
    catalog.type r = str_of (get b "type") ∧
    (catalog.type r = "Standard" ∨ catalog.type r = "Custom") ∧
    catalog.createdBy r = user env ∧ catalog.updatedBy r = user env ∧
    catalog.createdAt r = now env ∧ catalog.updatedAt r = now env ∧
    catalog.deletedBy r = None ∧ catalog.deletedAt r = None.
Proof.
  intros Hv Ht Hp Hsave. unfold CatalogRoutes.createCatalog.
  rewrite Hv, Ht, Hp. simpl. unfold CatalogRepository.save. rewrite Hsave. simpl.
  rewrite (next_id_fresh (tbl_catalog ds)). simpl.
  pose proof (OsTemplate_findOneBy_cases ds (num_of (get b "defaultTemplate"))) as Hc.
  rewrite Ht in Hc. destruct Hc as (_ & rt & _ & _ & ->).
  do 3 eexists. split; [reflexivity|]. split; [apply next_id_fresh|].
  split_and!; try reflexivity; try (simpl; by destruct (user env)).
  unfold CatalogRoutes.create_validation in Hv.
  apply validate_cons_None in Hv as [Hobj _].
  destruct (required_present _ _ _
              (Joi.Key "type" (Joi.string_ ["Standard"; "Custom"]) true
                 "Please provide a valid string for type") Hobj)
    as (v & Hb & Hacc); [apply list_elem_of_In; simpl; tauto | done |].
  simpl in Hb. rewrite (get_lookup _ _ _ Hb). simpl in Hacc.
  destruct v as [| | |s|]; try discriminate Hacc. simpl.
  apply orb_true_iff in Hacc as [Hs|Hacc]; [left; by apply String.eqb_eq|].
  apply orb_true_iff in Hacc as [Hs|Hacc]; [right; by apply String.eqb_eq|done].
Qed.

Lemma createCatalog_success_witness :
  ∃ k r e,
    CatalogRoutes.createCatalog Sample.env Sample.store Fixtures.new_catalog
    = (send OK [("status", PStatus SUCCESS); ("catalog", PCatalog e)],
       with_catalog (<[k := r]> (tbl_catalog Sample.store)) Sample.store) ∧
    tbl_catalog Sample.store !! k = None ∧
    Catalog.id e = Some k ∧ catalog.id r = k ∧
    catalog.name r = str_of (get Fixtures.new_catalog "name") ∧
    catalog.shortName r = str_of (get Fixtures.new_catalog "shortName") ∧
    catalog.icon r = None ∧
    catalog.defaultTemplateId r = Some (num_of (get Fixtures.new_catalog "defaultTemplate")) ∧
    catalog.defaultApprovalPolicyId r = Some (ApprovalPolicy.id Sample.two_step) ∧
    catalog.defaultLeasePeriod r = num_of (get Fixtures.new_catalog "defaultLeasePeriod") ∧
    catalog.permittedMaxLeaseExtensions r
    = num_of (get Fixtures.new_catalog "permittedMaxLeaseExtensions") ∧
    catalog.type r = str_of (get Fixtures.new_catalog "type") ∧
    (catalog.type r = "Standard" ∨ catalog.type r = "Custom") ∧
    catalog.createdBy r = user Sample.env ∧ catalog.updatedBy r = user Sample.env ∧
    catalog.createdAt r = now Sample.env ∧ catalog.updatedAt r = now Sample.env ∧
    catalog.deletedBy r = None ∧ catalog.deletedAt r = None.
Proof.
  apply (createCatalog_success Sample.env Sample.store Fixtures.new_catalog
           (OsTemplateRepository.load Sample.store false 1 Sample.ubuntu) Sample.two_step).
  - vm_compute; reflexivity.
  - vm_compute; reflexivity.
  - vm_compute; reflexivity.
  - reflexivity.
Defined.

(** The delete handler of catalogs on a numeric id, by the outcome of
    its lookup. *)
Lemma deleteCatalog_unfold (env : Env) (ds : DataStore) (catalogId : string) (id : Z) :
  is_finite (parseInt catalogId) = true → js_int (parseInt catalogId) = id →
  CatalogRoutes.deleteCatalog env ds catalogId =
  match CatalogRepository.findOneBy ds id with
  | None => (failure E1005 (ErrorMessages E1005), ds)
  | Some None => (failure E1006 (ErrorMessages E1006), ds)
  | Some (Some e) =>
      match CatalogRepository.save env ds (Catalog.set_deletedBy (user env) e) with
      | Some (ds', _) =>
          match CatalogRepository.softDelete env ds' id with
          | Some (ds'', affected) =>
              if 0 <? affected
              then (send OK [("status", PStatus SUCCESS)], ds'')
              else (failure E1006 (ErrorMessages E1006), ds'')
          | None => (failure E1005 (ErrorMessages E1005), ds')
          end
      | None => (failure E1005 (ErrorMessages E1005), ds)
      end
  end.
Proof.
  intros Hfin Hid. unfold CatalogRoutes.deleteCatalog,
    CatalogRoutes.delete_validation, Joi.number_required.
  rewrite Hfin, Hid. simpl.
  by destruct (CatalogRepository.findOneBy ds id) as [[e|]|].
Qed.

(** The two persistence steps of a delete, on a row that is not deleted:
    [save] leaves a row with [deletedBy] set, when there is a principal, and
    not yet deleted; the soft delete that follows stamps that row and
    reports one affected row. *)
Lemma deleteCatalog_steps (env : Env) (ds : DataStore) (id : Z) (old : catalog.row) :
  Repository.int4 id = true →
  tbl_catalog ds !! id = Some old → catalog.deletedAt old = None →
  save_raises env = false →
  ∃ r1 e1,
    let ds1 := with_catalog (<[id := r1]> (tbl_catalog ds)) ds in
    CatalogRepository.save env ds
      (Catalog.set_deletedBy (user env) (CatalogRepository.load id old))
    = Some (ds1, e1) ∧
    catalog.deletedBy r1 = defined_or (user env) (catalog.deletedBy old) ∧
    catalog.deletedAt r1 = None ∧
    (softDelete_raises env = false →
     CatalogRepository.softDelete env ds1 id
     = Some (with_catalog
               (<[id := CatalogRepository.set_deletedAt (now env) r1]>
                  (<[id := r1]> (tbl_catalog ds))) ds1, 1)).
Proof.
  intros Hfit Hold Hlive Hsave.
  destruct (Catalog_save_existing env ds
              (Catalog.set_deletedBy (user env) (CatalogRepository.load id old))
              id old Hsave eq_refl Hold)
    as (r1 & e1 & Hs & _ & _ & _ & _ & _ & _ & _ & _ & _ & _ & Hby & _ & Hat & _).
  exists r1, e1. simpl. split; [exact Hs|]. split; [exact Hby|].
  split; [by rewrite Hat|].
  intros Hsd. unfold CatalogRepository.softDelete, Repository.softDelete.
  rewrite Hsd, Hfit. simpl. by rewrite lookup_insert_eq.
Qed.

(** X10: the delete handler of catalogs.  For a numeric id that fits the
    key column: E1006 without a non-deleted row of the id; otherwise
    [deletedBy] is saved, set to the acting principal when there is one, then
    the soft delete runs on the saved store and the answer is a success
    exactly when it reports an affected row; after a success the same delete
    answers E1006.  For a numeric id that does not fit the key column the
    answer is E1005. *)
Theorem deleteCatalog_contract
    (env env' : Env) (ds : DataStore) (catalogId : string) (id : Z) :
  is_finite (parseInt catalogId) = true → js_int (parseInt catalogId) = id →
  (Repository.int4 id = false →
   CatalogRoutes.deleteCatalog env ds catalogId
   = (failure E1005 (ErrorMessages E1005), ds)) ∧
  (Repository.int4 id = true →
   (Repository.live_row catalog.deletedAt (tbl_catalog ds) id = None →
    CatalogRoutes.deleteCatalog env ds catalogId
    = (failure E1006 (ErrorMessages E1006), ds)) ∧
   (∀ old, tbl_catalog ds !! id = Some old → catalog.deletedAt old = None →
      (save_raises env = true →
       CatalogRoutes.deleteCatalog env ds catalogId
       = (failure E1005 (ErrorMessages E1005), ds)) ∧
      (save_raises env = false →
       ∃ ds1 e1 r1,
         CatalogRepository.save env ds
           (Catalog.set_deletedBy (user env)
              (CatalogRepository.load id old))
         = Some (ds1, e1) ∧
         tbl_catalog ds1 !! id = Some r1 ∧
         catalog.deletedBy r1 = defined_or (user env) (catalog.deletedBy old) ∧
         catalog.deletedAt r1 = None ∧
         (softDelete_raises env = true →
          CatalogRoutes.deleteCatalog env ds catalogId
          = (failure E1005 (ErrorMessages E1005), ds1)) ∧
         (softDelete_raises env = false →
          ∃ ds2 affected r2,
            CatalogRepository.softDelete env ds1 id = Some (ds2, affected) ∧
            (CatalogRoutes.deleteCatalog env ds catalogId).2 = ds2 ∧
            (is_success (CatalogRoutes.deleteCatalog env ds catalogId).1
             ↔ 0 < affected) ∧
            (¬ 0 < affected →
             (CatalogRoutes.deleteCatalog env ds catalogId).1
             = failure E1006 (ErrorMessages E1006)) ∧
            tbl_catalog ds2 !! id = Some r2 ∧
            catalog.deletedBy r2
            = defined_or (user env) (catalog.deletedBy old) ∧
            catalog.deletedAt r2 = Some (now env))))) ∧
  (is_success (CatalogRoutes.deleteCatalog env ds catalogId).1 →
   (CatalogRoutes.deleteCatalog env'
      (CatalogRoutes.deleteCatalog env ds catalogId).2 catalogId).1
   = failure E1006 (ErrorMessages E1006)).
Proof.
  intros Hfin Hid.
  pose proof (λ en st, deleteCatalog_unfold en st catalogId id Hfin Hid) as Hshape.
  assert (Hfound : ∀ old, Repository.int4 id = true →
            tbl_catalog ds !! id = Some old → catalog.deletedAt old = None →
            CatalogRepository.findOneBy ds id
            = Some (Some (CatalogRepository.load id old))).
  { intros old Hfit Hold Hlive. unfold CatalogRepository.findOneBy.
    by rewrite (proj2 (find_Some catalog.deletedAt _ id old)). }
  split_and!.
  - intros Hfit. rewrite Hshape. unfold CatalogRepository.findOneBy, Repository.find.
    by rewrite Hfit.
  - intros Hfit. split.
    + intros Hnone. rewrite Hshape. unfold CatalogRepository.findOneBy, Repository.find.
      by rewrite Hfit, Hnone.
    + intros old Hold Hlive. rewrite Hshape, (Hfound old Hfit Hold Hlive). split.
      * intros Hsave. unfold CatalogRepository.save. by rewrite Hsave.
      * intros Hsave.
        destruct (deleteCatalog_steps env ds id old Hfit Hold Hlive Hsave)
          as (r1 & e1 & He1 & Hby & Hat & Hsd). simpl in He1, Hsd.
        eexists _, e1, r1. split; [exact He1|]. split; [simpl; apply lookup_insert_eq|].
        split; [exact Hby|]. split; [exact Hat|]. rewrite He1. split.
        -- intros Hraise.
           unfold CatalogRepository.softDelete, Repository.softDelete.
           by rewrite Hraise.
        -- intros Hraise. rewrite (Hsd Hraise).
           eexists _, 1, _. split; [reflexivity|]. simpl.
           split; [reflexivity|]. split; [split; [lia | by split]|].
           split; [lia|]. split; [apply lookup_insert_eq|]. split; [exact Hby | reflexivity].
  - rewrite (Hshape env ds).
    pose proof (Catalog_findOneBy_cases ds id) as Hcases.
    destruct (CatalogRepository.findOneBy ds id) as [[e|]|];
      [|by intros ?%not_success_failure..].
    destruct Hcases as (Hfit & old & Hold & Hlive & ->).
    destruct (save_raises env) eqn:Hsave.
    { unfold CatalogRepository.save. rewrite Hsave. by intros ?%not_success_failure. }
    destruct (deleteCatalog_steps env ds id old Hfit Hold Hlive Hsave)
      as (r1 & e1 & He1 & _ & _ & Hsd). simpl in He1, Hsd.
    rewrite He1. destruct (softDelete_raises env) eqn:Hraise.
    { unfold CatalogRepository.softDelete, Repository.softDelete. rewrite Hraise.
      by intros ?%not_success_failure. }
    rewrite (Hsd eq_refl). simpl. intros _. rewrite Hshape.
    match goal with
    | |- context [CatalogRepository.findOneBy ?st id] =>
        pose proof (Catalog_findOneBy_cases st id) as Hagain;
        destruct (CatalogRepository.findOneBy st id) as [[e2|]|]
    end.
    + destruct Hagain as (_ & r2 & Hr2 & Hd2 & _).
      simpl in Hr2. rewrite lookup_insert_eq in Hr2. injection Hr2 as <-.
      discriminate Hd2.
    + reflexivity.
    + congruence.
Qed.

Lemma deleteCatalog_contract_witness :
  (∃ r2, tbl_catalog (CatalogRoutes.deleteCatalog Sample.env Sample.store "1").2
         !! 1 = Some r2 ∧
         catalog.deletedBy r2 = Some "bob" ∧ catalog.deletedAt r2 = Some 100) ∧
  (CatalogRoutes.deleteCatalog Sample.env_save_raises
     (CatalogRoutes.deleteCatalog Sample.env Sample.store "1").2 "1").1
  = failure E1006 (ErrorMessages E1006).
Proof.
  destruct (deleteCatalog_contract Sample.env Sample.env_save_raises Sample.store "1" 1)
    as (_ & Hin & Htwice); [vm_compute; reflexivity..|].
  destruct (Hin eq_refl) as [_ Hrow].
  destruct (Hrow Sample.standard) as [_ Hsave]; [vm_compute; reflexivity | reflexivity |].
  destruct (Hsave eq_refl) as (ds1 & e1 & r1 & _ & _ & _ & _ & _ & Hsd).
  destruct (Hsd eq_refl) as (ds2 & affected & r2 & _ & Hds2 & _ & _ & Hr2 & Hby & Hat).
  split.
  - exists r2. rewrite Hds2. split; [exact Hr2|]. split; [exact Hby | exact Hat].
  - apply Htwice. split; vm_compute; reflexivity.
Defined.

(** ** How the handlers compose *)

(** The count a list request reports, when it reports one, is the number of
    non-deleted rows; on another store the same request is answered with the
    number of non-deleted rows of that store. *)
Lemma fetchAllOsTemplates_count_transfer
    (env : Env) (ds ds' : DataStore) (q fields sort : gmap string jvalue) (c : Z) :
  prop "count" (body (OsTemplateRoutes.fetchAllOsTemplates env ds q fields sort))
  = Some (PNumber (Fin c)) →
  c = Z.of_nat (List.length (Repository.rows os_template.deletedAt (tbl_os_template ds))) ∧
  prop "count" (body (OsTemplateRoutes.fetchAllOsTemplates env ds' q fields sort))
  = Some (PNumber (Fin (Z.of_nat
       (List.length (Repository.rows os_template.deletedAt (tbl_os_template ds')))))).
Proof.
  unfold OsTemplateRoutes.fetchAllOsTemplates.
  destruct (OsTemplateRoutes.fetchAll_validation q fields sort); [discriminate|].
  unfold OsTemplateRepository.findAndCount.
  destruct (Repository.findAndCount _ _ _ _ (tbl_os_template ds) _) as [[res n]|] eqn:Hfc;
    [|discriminate].
  destruct (findAndCount_other_table _ _ _ _ _ (tbl_os_template ds') _ _ _ Hfc)
    as [res' ->].
  apply findAndCount_sound in Hfc as (_ & _ & -> & _). simpl.
  intros [= <-]. by split.
Qed.

(** X11: a successful create is seen by the list handler: whatever list
    request reported [c] OS templates before reports [c + 1] after. *)
Theorem create_then_list
    (env env' : Env) (ds : DataStore) (b q fields sort : gmap string jvalue) (c : Z) :
  is_success (OsTemplateRoutes.createOsTemplate env ds b).1 →
  prop "count" (body (OsTemplateRoutes.fetchAllOsTemplates env' ds q fields sort))
  = Some (PNumber (Fin c)) →
  prop "count"
    (body (OsTemplateRoutes.fetchAllOsTemplates env'
             (OsTemplateRoutes.createOsTemplate env ds b).2 q fields sort))
  = Some (PNumber (Fin (c + 1))).
Proof.
  intros Hs Hc.
  destruct (fetchAllOsTemplates_count_transfer env' ds
              (OsTemplateRoutes.createOsTemplate env ds b).2 q fields sort c Hc)
    as [-> ->].
  do 3 f_equal.
  revert Hs. unfold OsTemplateRoutes.createOsTemplate.
  destruct (OsTemplateRoutes.create_validation b) as [m|];
    [by intros ?%not_success_failure|]. simpl.
  destruct (OsFamilyRepository.findOneBy ds _) as [[f|]|];
    [|by intros ?%not_success_failure..]. simpl.
  destruct (LocationRepository.findOneBy ds _) as [[l|]|];
    [|by intros ?%not_success_failure..]. simpl.
  destruct (Joi.mem _ (Location.availableNetworks l)); simpl;
    [|by intros ?%not_success_failure].
  unfold OsTemplateRepository.save.
  destruct (save_raises env); [by intros ?%not_success_failure|]. simpl.
  rewrite (next_id_fresh (tbl_os_template ds)). simpl. intros _.
  rewrite rows_insert_fresh; [simpl; lia | apply next_id_fresh | done].
Qed.

Lemma create_then_list_witness :
  prop "count"
    (body (OsTemplateRoutes.fetchAllOsTemplates Sample.env
             (OsTemplateRoutes.createOsTemplate Sample.env Sample.store
                (Sample.new_template "/DC0/net/a")).2 Sample.second_page ∅ ∅))
  = Some (PNumber (Fin (1 + 1))).
Proof.
  apply (create_then_list Sample.env Sample.env Sample.store
           (Sample.new_template "/DC0/net/a") Sample.second_page ∅ ∅ 1).
  - split; vm_compute; reflexivity.
  - vm_compute; reflexivity.
Defined.

(** What a successful delete leaves: the row of the id was live, it is now
    stamped as deleted, and the other rows are as they were. *)
Lemma deleteOsTemplate_success_store
    (env : Env) (ds : DataStore) (ostemplateId : string) (id : Z) :
  parseInt ostemplateId = Fin id →
  is_success (OsTemplateRoutes.deleteOsTemplate env ds ostemplateId).1 →
  ∃ old r2,
    tbl_os_template ds !! id = Some old ∧ os_template.deletedAt old = None ∧
    tbl_os_template (OsTemplateRoutes.deleteOsTemplate env ds ostemplateId).2 !! id
    = Some r2 ∧
    os_template.deletedAt r2 = Some (now env) ∧
    Repository.int4 id = true ∧
    Repository.rows os_template.deletedAt
      (tbl_os_template (OsTemplateRoutes.deleteOsTemplate env ds ostemplateId).2)
    ≡ₚ Repository.rows os_template.deletedAt (delete id (tbl_os_template ds)) ∧
    ∃ t, (OsTemplateRoutes.deleteOsTemplate env ds ostemplateId).2 = with_os_template t ds.
Proof.
  intros Hid.
  rewrite (deleteOsTemplate_unfold env ds ostemplateId id) by (by rewrite Hid).
  pose proof (OsTemplate_findOneBy_cases ds id) as Hc.
  destruct (OsTemplateRepository.findOneBy ds id) as [[e|]|];
    [|by intros ?%not_success_failure..].
  destruct Hc as (Hfit & old & Hold & Hlive & ->).
  destruct (save_raises env) eqn:Hsave.
  { unfold OsTemplateRepository.save. rewrite Hsave. by intros ?%not_success_failure. }
  destruct (deleteOsTemplate_steps env ds id old Hfit Hold Hlive Hsave)
    as (r1 & e1 & He1 & _ & _ & Hsd). simpl in He1, Hsd. rewrite He1.
  destruct (softDelete_raises env) eqn:Hraise.
  { unfold OsTemplateRepository.softDelete, Repository.softDelete. rewrite Hraise.
    by intros ?%not_success_failure. }
  rewrite (Hsd eq_refl). simpl. intros _.
  exists old. eexists. split; [done|]. split; [done|].
  split; [apply lookup_insert_eq|]. split; [reflexivity|]. split; [exact Hfit|]. split.
  - rewrite insert_insert_eq, rows_insert. unfold Repository.live. simpl. reflexivity.
  - eexists. unfold with_os_template. simpl. reflexivity.
Qed.

(** X12: a successful delete is seen by the list handler: the count drops
    by one, and no row returned afterwards is the row of the deleted id. *)
Theorem delete_then_list
    (env env' : Env) (ds : DataStore) (ostemplateId : string) (id : Z)
    (q fields sort : gmap string jvalue) (c : Z) :
  parseInt ostemplateId = Fin id →
  is_success (OsTemplateRoutes.deleteOsTemplate env ds ostemplateId).1 →
  prop "count" (body (OsTemplateRoutes.fetchAllOsTemplates env' ds q fields sort))
  = Some (PNumber (Fin c)) →
  prop "count"
    (body (OsTemplateRoutes.fetchAllOsTemplates env'
             (OsTemplateRoutes.deleteOsTemplate env ds ostemplateId).2 q fields sort))
  = Some (PNumber (Fin (c - 1))) ∧
  ∀ result r,
    prop "ostemplates"
      (body (OsTemplateRoutes.fetchAllOsTemplates env'
               (OsTemplateRoutes.deleteOsTemplate env ds ostemplateId).2 q fields sort))
    = Some (POsTemplates result) →
    r ∈ result →
    tbl_os_template (OsTemplateRoutes.deleteOsTemplate env ds ostemplateId).2 !! id
    ≠ Some r.
Proof.
  intros Hid Hs Hc.
  destruct (fetchAllOsTemplates_count_transfer env' ds
              (OsTemplateRoutes.deleteOsTemplate env ds ostemplateId).2 q fields sort c Hc)
    as [-> Hc'].
  destruct (deleteOsTemplate_success_store env ds ostemplateId id Hid Hs)
    as (old & r2 & Hold & Hlive & Hr2 & Hdel2 & _ & Hrows & _).
  split.
  - rewrite Hc'. do 3 f_equal. rewrite Hrows.
    rewrite (rows_lookup os_template.deletedAt (tbl_os_template ds) id old Hold).
    unfold Repository.live. rewrite Hlive. simpl. lia.
  - intros result r Hres Hr Heq.
    destruct (fetchAllOsTemplates_rows env' _ q fields sort result Hres)
      as [_ Hlive'].
    destruct (Hlive' r Hr) as [Hd _]. rewrite Hr2 in Heq. injection Heq as <-.
    rewrite Hdel2 in Hd. discriminate Hd.
Qed.

Lemma delete_then_list_witness :
  prop "count"
    (body (OsTemplateRoutes.fetchAllOsTemplates Sample.env
             (OsTemplateRoutes.deleteOsTemplate Sample.env Sample.store "1").2
             Sample.second_page ∅ ∅))
  = Some (PNumber (Fin (1 - 1))).
Proof.
  refine (proj1 (delete_then_list Sample.env Sample.env Sample.store "1" 1
                   Sample.second_page ∅ ∅ 1 _ _ _)).
  - vm_compute; reflexivity.
  - split; vm_compute; reflexivity.
  - vm_compute; reflexivity.
Defined.

(** ** Reading one OS template *)

(** X13: round trip.  After a successful create, reading the id of the
    answer returns a row whose attributes are those of the body and whose
    references are the rows that the create resolved. *)
Theorem create_then_fetch
    (env : Env) (ds ds' : DataStore) (b q fields : gmap string jvalue)
    (e : OsTemplate.t) (k : Z) (ostemplateId : string) :
  OsTemplateRoutes.createOsTemplate env ds b
  = (send OK [("status", PStatus SUCCESS); ("ostemplate", POsTemplate e)], ds') →
  OsTemplate.id e = Some k →
  Repository.int4 k = true →
  parseInt ostemplateId = Fin k →
  OsTemplateGet.fetch_validation (Fin k) q fields = None →
  ∃ r,
    OsTemplateGet.fetchOsTemplate false ds' ostemplateId q fields
    = inr (sent "ostemplate" r (one_query (Fin k) q fields)) ∧
    os_template.id r = k ∧
    os_template.name r = str_of (get b "name") ∧
    os_template.templateId r = str_of (get b "templateId") ∧
    os_template.availableNetwork r = str_of (get b "availableNetwork") ∧
    os_template.osFamilyId r = OsFamily.id <$> OsTemplate.osFamily e ∧
    os_template.locationId r = Location.id <$> OsTemplate.location e ∧
    Some (OsTemplate.osFamily e)
    = OsFamilyRepository.findOneBy ds (num_of (get b "osFamily")) ∧
    Some (OsTemplate.location e)
    = LocationRepository.findOneBy ds (num_of (get b "location")) ∧
    os_template.createdBy r = user env ∧ os_template.updatedBy r = user env ∧
    os_template.createdAt r = now env ∧ os_template.updatedAt r = now env ∧
    os_template.deletedAt r = None.
Proof.
  unfold OsTemplateRoutes.createOsTemplate.
  destruct (OsTemplateRoutes.create_validation b) as [m|]; [discriminate|]. simpl.
  destruct (OsFamilyRepository.findOneBy ds _) as [[f|]|] eqn:Hf; [|discriminate..]. simpl.
  destruct (LocationRepository.findOneBy ds _) as [[l|]|] eqn:Hl; [|discriminate..]. simpl.
  destruct (Joi.mem _ (Location.availableNetworks l)); simpl; [|discriminate].
  unfold OsTemplateRepository.save.
  destruct (save_raises env); [discriminate|]. simpl.
  rewrite (next_id_fresh (tbl_os_template ds)). simpl.
  intros [= <- <-]. simpl. intros [= <-] Hfit Hid Hv.
  unfold OsTemplateGet.fetchOsTemplate. rewrite Hid, Hv.
  unfold OsTemplateGet.findOne, Repository.find, Repository.live_row. simpl.
  rewrite Hfit, lookup_insert_eq. simpl.
  eexists. split; [reflexivity|].
  split_and!; try reflexivity; simpl; by destruct (user env).
Qed.

Lemma create_then_fetch_witness :
  ∃ r,
    OsTemplateGet.fetchOsTemplate false
      (OsTemplateRoutes.createOsTemplate Sample.env Sample.store
         (Sample.new_template "/DC0/net/a")).2 "2" ∅ ∅
    = inr (sent "ostemplate" r (one_query (Fin 2) ∅ ∅)) ∧
    os_template.name r = "Debian 12" ∧
    os_template.availableNetwork r = "/DC0/net/a".
Proof.
  destruct (create_then_fetch Sample.env Sample.store
              (OsTemplateRoutes.createOsTemplate Sample.env Sample.store
                 (Sample.new_template "/DC0/net/a")).2
              (Sample.new_template "/DC0/net/a") ∅ ∅
              (OsTemplate.mk (Some 2) "Debian 12" "/DC0/vm/debian" (Some Sample.linux)
                 (Some Sample.dc0) "/DC0/net/a" (Some "bob") (Some "bob") None
                 (Some 100) (Some 100) None) 2 "2")
    as (r & Hr & _ & Hn & _ & Hnet & _).
  - vm_compute; reflexivity.
  - reflexivity.
  - reflexivity.
  - vm_compute; reflexivity.
  - vm_compute; reflexivity.
  - exists r. split; [exact Hr|]. split; [exact Hn | exact Hnet].
Defined.

(** X14: soft-delete exclusion.  After a successful delete, reading the
    same id answers E1006, whatever the query and the projection, unless the
    read itself is refused by validation or raises. *)
Theorem delete_then_fetch
    (env : Env) (ds : DataStore) (ostemplateId : string) (id : Z)
    (q fields : gmap string jvalue) :
  parseInt ostemplateId = Fin id →
  is_success (OsTemplateRoutes.deleteOsTemplate env ds ostemplateId).1 →
  OsTemplateGet.fetch_validation (Fin id) q fields = None →
  OsTemplateGet.fetchOsTemplate false
    (OsTemplateRoutes.deleteOsTemplate env ds ostemplateId).2 ostemplateId q fields
  = inl (failure E1006 (ErrorMessages E1006)).
Proof.
  intros Hid Hs Hv.
  destruct (deleteOsTemplate_success_store env ds ostemplateId id Hid Hs)
    as (old & r2 & _ & _ & Hr2 & Hdel2 & Hfit & _ & _).
  unfold OsTemplateGet.fetchOsTemplate. rewrite Hid, Hv.
  unfold OsTemplateGet.findOne, Repository.find. simpl. rewrite Hfit.
  destruct (Repository.live_row os_template.deletedAt _ id) as [r|] eqn:Hf; [|done].
  apply live_row_Some in Hf as [Hr Hd]. rewrite Hr2 in Hr. injection Hr as <-.
  rewrite Hdel2 in Hd. discriminate Hd.
Qed.

Lemma delete_then_fetch_witness :
  OsTemplateGet.fetchOsTemplate false
    (OsTemplateRoutes.deleteOsTemplate Sample.env Sample.store "1").2 "1" ∅ ∅
  = inl (failure E1006 (ErrorMessages E1006)).
Proof.
  apply (delete_then_fetch Sample.env Sample.store "1" 1 ∅ ∅).
  - vm_compute; reflexivity.
  - split; vm_compute; reflexivity.
  - vm_compute; reflexivity.
Defined.

(** ** References to deleted rows *)

(** X15: a reference must point to a row that is not soft-deleted: creating
    an OS template whose location exists but is soft-deleted is refused like
    a missing one, and nothing is written. *)
Theorem createOsTemplate_rejects_deleted_location
    (env : Env) (ds : DataStore) (b : gmap string jvalue)
    (f : OsFamily.t) (l : Location.t) :
  OsTemplateRoutes.create_validation b = None →
  OsFamilyRepository.findOneBy ds (num_of (get b "osFamily")) = Some (Some f) →
  Repository.int4 (num_of (get b "location")) = true →
  tbl_location ds !! num_of (get b "location") = Some l →
  is_Some (Location.deletedAt l) →
  OsTemplateRoutes.createOsTemplate env ds b
  = (failure E1007 "Provided location doesn't exist", ds).
Proof.
  intros Hv Hf Hfit Hl Hd. unfold OsTemplateRoutes.createOsTemplate.
  rewrite Hv, Hf. simpl.
  assert (LocationRepository.findOneBy ds (num_of (get b "location")) = Some None)
    as ->; [|done].
  apply find_answers. split; [done|]. apply live_row_None. intros l' Hl'. congruence.
Qed.

Lemma createOsTemplate_rejects_deleted_location_witness :
  OsTemplateRoutes.createOsTemplate Sample.env Fixtures.store_without_dc0
    (Sample.new_template "/DC0/net/a")
  = (failure E1007 "Provided location doesn't exist", Fixtures.store_without_dc0).
Proof.
  apply (createOsTemplate_rejects_deleted_location Sample.env Fixtures.store_without_dc0
           (Sample.new_template "/DC0/net/a") Sample.linux Fixtures.dc0_deleted).
  - vm_compute; reflexivity.
  - vm_compute; reflexivity.
  - vm_compute; reflexivity.
  - vm_compute; reflexivity.
  - vm_compute. eexists; reflexivity.
Defined.

(** X16: deleting an OS template does not look at the catalogs: every other
    table, the catalogs included, is left as it was, so a catalog that
    references the template keeps its reference; and from then on a catalog
    create that names the deleted template is refused with E1007. *)
Theorem deleteOsTemplate_does_not_cascade
    (env env' : Env) (ds : DataStore) (ostemplateId : string) (id : Z)
    (b : gmap string jvalue) :
  parseInt ostemplateId = Fin id →
  is_success (OsTemplateRoutes.deleteOsTemplate env ds ostemplateId).1 →
  tbl_catalog (OsTemplateRoutes.deleteOsTemplate env ds ostemplateId).2 = tbl_catalog ds ∧
  tbl_os_family (OsTemplateRoutes.deleteOsTemplate env ds ostemplateId).2
  = tbl_os_family ds ∧
  tbl_location (OsTemplateRoutes.deleteOsTemplate env ds ostemplateId).2
  = tbl_location ds ∧
  tbl_approval_policy (OsTemplateRoutes.deleteOsTemplate env ds ostemplateId).2
  = tbl_approval_policy ds ∧
  (CatalogRoutes.create_validation b = None →
   num_of (get b "defaultTemplate") = id →
   CatalogRoutes.createCatalog env'
     (OsTemplateRoutes.deleteOsTemplate env ds ostemplateId).2 b
   = (failure E1007 "Provided defaultTemplate doesn't exist",
      (OsTemplateRoutes.deleteOsTemplate env ds ostemplateId).2)).
Proof.
  intros Hid Hs.
  destruct (deleteOsTemplate_success_store env ds ostemplateId id Hid Hs)
    as (old & r2 & _ & _ & Hr2 & Hdel2 & Hfit & _ & Hshape).
  destruct Hshape as [t Ht]. rewrite Ht in *. split_and!; try done.
  intros Hv Hnum. unfold CatalogRoutes.createCatalog. rewrite Hv. simpl.
  assert (OsTemplateRepository.findOneBy (with_os_template t ds)
            (num_of (get b "defaultTemplate")) = Some None) as ->; [|done].
  rewrite Hnum. unfold OsTemplateRepository.findOneBy.
  assert (Repository.find os_template.deletedAt
            (tbl_os_template (with_os_template t ds)) id = Some None) as ->; [|done].
  apply find_answers. split; [done|].
  apply live_row_None. intros r Hr. rewrite Hr2 in Hr. injection Hr as <-. by rewrite Hdel2.
Qed.

Lemma deleteOsTemplate_does_not_cascade_witness :
  tbl_catalog (OsTemplateRoutes.deleteOsTemplate Sample.env Sample.store "1").2
  = tbl_catalog Sample.store ∧
  CatalogRoutes.createCatalog Sample.env
    (OsTemplateRoutes.deleteOsTemplate Sample.env Sample.store "1").2 Fixtures.new_catalog
  = (failure E1007 "Provided defaultTemplate doesn't exist",
     (OsTemplateRoutes.deleteOsTemplate Sample.env Sample.store "1").2).
Proof.
  destruct (deleteOsTemplate_does_not_cascade Sample.env Sample.env Sample.store "1" 1
              Fixtures.new_catalog) as (H1 & _ & _ & _ & H5).
  - vm_compute; reflexivity.
  - split; vm_compute; reflexivity.
  - split; [exact H1|]. apply H5; vm_compute; reflexivity.
Defined.

(** ** Validation of catalog bodies *)

Lemma first_error_Forall (ks : list Joi.key) (o : gmap string jvalue) :
  Joi.first_error ks o = None ↔ ∀ k, k ∈ ks → Joi.check k o = None.
Proof.
  split; [intros H k; by apply first_error_None|].
  induction ks as [|k ks IH]; simpl; intros H; [done|].
  rewrite (H k (list_elem_of_here _ _)). apply IH. intros k' Hk'. apply H.
  by apply list_elem_of_further.
Qed.

(** X17: the PUT schema of catalogs accepts partial bodies: whenever a body
    is accepted, so is every body made of some of its attributes, the empty
    body included. *)
Theorem updateCatalog_accepts_partial_bodies
    (id : jsnum) (b b' : gmap string jvalue) :
  b' ⊆ b →
  CatalogRoutes.update_validation id b = None →
  CatalogRoutes.update_validation id b' = None.
Proof.
  intros Hsub. unfold CatalogRoutes.update_validation.
  intros [Hid [[Hfe Hun]%object_None _]%validate_cons_None]%validate_cons_None.
  apply validate_cons_None. split; [done|]. apply validate_cons_None. split; [|done].
  apply object_None. split.
  - apply first_error_Forall. intros k Hk.
    pose proof (proj1 (first_error_Forall _ _) Hfe k Hk) as Hc.
    unfold Joi.check in *. destruct (b' !! Joi.name k) as [v|] eqn:Hv.
    + by rewrite (lookup_weaken _ _ _ _ Hv Hsub) in Hc.
    + assert (Joi.required k = false) as ->; [|done].
      unfold CatalogRoutes.put_schema, CatalogRoutes.body_schema in Hk.
      apply list_elem_of_In in Hk. simpl in Hk.
      repeat (destruct Hk as [<-|Hk]; [done|]). done.
  - apply unknown_nil. intros k [v Hv]. apply (proj1 (unknown_nil _ _) Hun).
    exists v. by apply (lookup_weaken _ _ _ _ Hv Hsub).
Qed.

Lemma updateCatalog_accepts_partial_bodies_witness :
  CatalogRoutes.update_validation (Fin 1) (delete "name" Sample.resize) = None.
Proof.
  apply (updateCatalog_accepts_partial_bodies (Fin 1) Sample.resize
           (delete "name" Sample.resize)).
  - apply delete_subseteq.
  - vm_compute; reflexivity.
Defined.

(** X18: the type of a catalog is one of Standard and Custom: a body whose
    [type] is anything else is refused with E1007 by the create handler and
    by the update handler, and nothing is written. *)
Theorem catalog_type_is_an_enum
    (env : Env) (ds : DataStore) (b : gmap string jvalue) (v : jvalue) (catalogId : string) :
  b !! "type" = Some v →
  v ≠ JStr "Standard" → v ≠ JStr "Custom" →
  (∃ message, CatalogRoutes.createCatalog env ds b = (failure E1007 message, ds)) ∧
  (∃ message, CatalogRoutes.updateCatalog env ds catalogId b
              = (failure E1007 message, ds)).
Proof.
  intros Hb H1 H2.
  assert (Hacc : Joi.accepts (Joi.string_ ["Standard"; "Custom"]) v = false).
  { destruct v as [| | |s|]; try done. simpl.
    destruct (String.eqb_spec s "Standard") as [->|_]; [done|].
    destruct (String.eqb_spec s "Custom") as [->|_]; [done|]. done. }
  assert (Hobj : ∀ req, ∃ m, Joi.object "b" (CatalogRoutes.body_schema req) b = Some m).
  { intros req. destruct (Joi.object "b" (CatalogRoutes.body_schema req) b) as [m|] eqn:Ho;
      [by eexists|].
    apply object_None in Ho as [Hfe _].
    pose proof (first_error_None _ _
                  (Joi.Key "type" (Joi.string_ ["Standard"; "Custom"]) req
                     "Please provide a valid string for type") Hfe
                  ltac:(apply list_elem_of_In; simpl; tauto)) as Hc.
    unfold Joi.check in Hc. cbn [Joi.name Joi.type Joi.required Joi.error] in Hc.
    rewrite Hb, Hacc in Hc. discriminate Hc. }
  split.
  - unfold CatalogRoutes.createCatalog, CatalogRoutes.create_validation,
      CatalogRoutes.post_schema.
    destruct (Hobj true) as [m ->]. simpl. by eexists.
  - unfold CatalogRoutes.updateCatalog, CatalogRoutes.update_validation,
      CatalogRoutes.put_schema.
    destruct (Hobj false) as [m ->]. simpl.
    destruct (Joi.number_required _ _); simpl; by eexists.
Qed.

Lemma catalog_type_is_an_enum_witness :
  (∃ message, CatalogRoutes.createCatalog Sample.env Sample.store Fixtures.premium
              = (failure E1007 message, Sample.store)) ∧
  (∃ message, CatalogRoutes.updateCatalog Sample.env Sample.store "1" Fixtures.premium
              = (failure E1007 message, Sample.store)).
Proof.
  apply (catalog_type_is_an_enum Sample.env Sample.store Fixtures.premium
           (JStr "Premium") "1").
  - vm_compute; reflexivity.
  - discriminate.
  - discriminate.
Defined.

(** ** Uploading an icon *)

Lemma until_slash_no_separator (l : list ascii) (c : ascii) :
  c ∈ CatalogUpload.until_slash l → c ≠ "/"%char.
Proof.
  induction l as [|a l IH]; simpl; [by intros ?%elem_of_nil|].
  destruct (Ascii.eqb_spec a "/"%char) as [->|Hne]; [by intros ?%elem_of_nil|].
  intros [->|Hin]%elem_of_cons; [done | by apply IH].
Qed.

Lemma basename_no_separator (p : string) (c : ascii) :
  c ∈ list_ascii_of_string (CatalogUpload.basename p) → c ≠ "/"%char.
Proof.
  unfold CatalogUpload.basename. rewrite list_ascii_of_string_of_list_ascii.
  intros Hc. apply list_elem_of_In in Hc. rewrite <- in_rev in Hc.
  apply list_elem_of_In in Hc. by apply until_slash_no_separator in Hc.
Qed.

(** X19: the upload handler hands files to the clean-up only once the new
    reference is saved: every answer that is not a success is an error
    envelope with E1007, E1006 or E1008, leaves the store as it was and cleans
    nothing; a success means that save did not raise, reports the rejections
    as it received them and writes one catalog row. *)
Theorem upload_cleans_only_after_save
    (env : Env) (ds : DataStore) (catalogId : string)
    (files : gmap string (list CatalogUpload.File)) (fileError : option (gmap string string)) :
  match CatalogUpload.answer
          (CatalogUpload.uploadCatalogFiles env ds catalogId files fileError) with
  | inl r =>
      CatalogUpload.cleaned
        (CatalogUpload.uploadCatalogFiles env ds catalogId files fileError) = [] ∧
      CatalogUpload.store
        (CatalogUpload.uploadCatalogFiles env ds catalogId files fileError) = ds ∧
      ∃ c message, r = failure c message ∧ (c = E1007 ∨ c = E1006 ∨ c = E1008)
  | inr u =>
      save_raises env = false ∧
      CatalogUpload.rejected u = fileError ∧
      ∃ k r, CatalogUpload.store
               (CatalogUpload.uploadCatalogFiles env ds catalogId files fileError)
             = with_catalog (<[k := r]> (tbl_catalog ds)) ds
  end.
Proof.
  unfold CatalogUpload.uploadCatalogFiles.
  destruct (CatalogUpload.upload_validation _) as [m|]; simpl.
  { split_and!; try done. exists E1007, m. by split; [|left]. }
  destruct (CatalogRepository.findOneBy ds _) as [[e|]|]; simpl.
  2:{ split_and!; try done. exists E1006, (ErrorMessages E1006). by split; [|right; left]. }
  2:{ split_and!; try done. exists E1008, (ErrorMessages E1008). by split; [|right; right]. }
  destruct (files !! "icon") as [[|file rest]|]; simpl.
  - split_and!; try done. exists E1008, (ErrorMessages E1008). by split; [|right; right].
  - match goal with
    | |- context [CatalogRepository.save env ds ?E] =>
        pose proof (Catalog_save_shape env ds E) as Hs;
        destruct (CatalogRepository.save env ds E) as [[ds' e']|]
    end; simpl.
    + destruct Hs as [Hs Hw]. by split_and!.
    + split_and!; try done. exists E1008, (ErrorMessages E1008). by split; [|right; right].
  - match goal with
    | |- context [CatalogRepository.save env ds ?E] =>
        pose proof (Catalog_save_shape env ds E) as Hs;
        destruct (CatalogRepository.save env ds E) as [[ds' e']|]
    end; simpl.
    + destruct Hs as [Hs Hw]. by split_and!.
    + split_and!; try done. exists E1008, (ErrorMessages E1008). by split; [|right; right].
Qed.

(** For the entity that [findOneBy] loaded and that only got an icon,
    [save] finds a difference exactly when the icon is not the one
    recorded. *)
Lemma Catalog_unchanged_icon (k : Z) (old : catalog.row) (icon : option string) :
  CatalogRepository.unchanged old
    (CatalogUpload.set_icon icon (CatalogRepository.load k old))
  = bool_decide (defined_or icon (catalog.icon old) = catalog.icon old).
Proof.
  unfold CatalogRepository.unchanged. simpl.
  rewrite !defined_or_same, !Z.eqb_refl.
  repeat match goal with
         | |- context [bool_decide (?x = ?x)] =>
             rewrite (bool_decide_eq_true_2 (x = x)) by done
         end.
  simpl. by rewrite !andb_true_r.
Qed.

(** X20: a successful upload replaces the icon and nothing else.  For an
    existing catalog, whose id fits the key column, and an accepted file
    stored under a name that is not the one recorded, the store taking the
    write, the icon becomes [catalogs/<name>], where the name is the base
    name of the stored file and holds no separator; every other attribute,
    [updatedBy] included, is kept and [updatedAt] is stamped; the previous
    icon is handed to the clean-up exactly when there was one; the answer
    reports the new reference under [icon]. *)
Theorem upload_replaces_icon
    (env : Env) (ds : DataStore) (catalogId : string) (k : Z) (old : catalog.row)
    (files : gmap string (list CatalogUpload.File)) (file : CatalogUpload.File)
    (rest : list CatalogUpload.File) (fileError : option (gmap string string)) :
  parseInt catalogId = Fin k → Repository.int4 k = true →
  tbl_catalog ds !! k = Some old → catalog.deletedAt old = None →
  files !! "icon" = Some (file :: rest) →
  save_raises env = false →
  catalog.icon old
  ≠ Some ("catalogs/" +:+ CatalogUpload.basename (CatalogUpload.path file)) →
  let icon := "catalogs/" +:+ CatalogUpload.basename (CatalogUpload.path file) in
  let new :=
    catalog.mk k (catalog.name old) (Some icon) (catalog.shortName old)
      (catalog.defaultTemplateId old) (catalog.defaultApprovalPolicyId old)
      (catalog.defaultLeasePeriod old) (catalog.permittedMaxLeaseExtensions old)
      (catalog.type old) (catalog.createdBy old) (catalog.updatedBy old)
      (catalog.deletedBy old) (catalog.createdAt old) (now env) None in
  CatalogUpload.uploadCatalogFiles env ds catalogId files fileError
  = CatalogUpload.Build_Outcome
      (inr (CatalogUpload.Build_Uploaded {[ "icon" := icon ]} fileError))
      (with_catalog (<[k := new]> (tbl_catalog ds)) ds)
      (match catalog.icon old with
       | Some previous => if String.eqb previous EmptyString then [] else [previous]
       | None => []
       end) ∧
  ∀ c, c ∈ list_ascii_of_string (CatalogUpload.basename (CatalogUpload.path file)) →
       c ≠ "/"%char.
Proof.
  intros Hid Hfit Hold Hlive Hfiles Hsave Hnew. simpl.
  split; [|apply basename_no_separator].
  unfold CatalogUpload.uploadCatalogFiles. rewrite Hid. simpl.
  assert (CatalogRepository.findOneBy ds k = Some (Some (CatalogRepository.load k old)))
    as ->.
  { unfold CatalogRepository.findOneBy.
    by rewrite (proj2 (find_Some catalog.deletedAt _ k old)). }
  rewrite Hfiles. unfold CatalogRepository.save. rewrite Hsave. simpl. rewrite Hold.
  rewrite Catalog_unchanged_icon. simpl.
  rewrite bool_decide_eq_false_2 by (intros H; by apply Hnew).
  unfold CatalogRepository.to_row. simpl. rewrite Hlive, !defined_or_same.
  f_equal. unfold CatalogUpload.truthy. destruct (catalog.icon old) as [s|]; [|done].
  simpl. by destruct (String.eqb s EmptyString).
Qed.

Lemma upload_replaces_icon_witness :
  CatalogUpload.cleaned
    (CatalogUpload.uploadCatalogFiles Sample.env Fixtures.store_with_icon "1"
       {[ "icon" := [Fixtures.jpeg] ]} None)
  = ["catalogs/82a6c417c55599f5.png"].
Proof.
  destruct (upload_replaces_icon Sample.env Fixtures.store_with_icon "1" 1
              (catalog.mk 1 "Standard VM" (Some "catalogs/82a6c417c55599f5.png") "STD"
                 (Some 1) (Some 1) 5 10 "Standard" (Some "alice") (Some "alice") None
                 30 100 None)
              {[ "icon" := [Fixtures.jpeg] ]} Fixtures.jpeg [] None) as [H _].
  - vm_compute; reflexivity.
  - reflexivity.
  - vm_compute; reflexivity.
  - reflexivity.
  - vm_compute; reflexivity.
  - reflexivity.
  - vm_compute. discriminate.
  - rewrite H. reflexivity.
Defined.

(** ** Reading one catalog *)

(** X21: an update is seen by the get handler.  After a successful catalog
    update, reading the same id returns the row that the update left: each
    attribute of the body has the value of the body, the others the value
    they had, and [updatedBy] is the acting principal when the request had
    one and the one recorded before otherwise. *)
Theorem update_then_fetch
    (env : Env) (ds : DataStore) (catalogId : string) (id : Z)
    (b q fields : gmap string jvalue) :
  parseInt catalogId = Fin id →
  is_success (CatalogRoutes.updateCatalog env ds catalogId b).1 →
  CatalogGet.fetch_validation (Fin id) q fields = None →
  ∃ old r,
    tbl_catalog ds !! id = Some old ∧
    CatalogGet.fetchCatalog false (CatalogRoutes.updateCatalog env ds catalogId b).2
      catalogId q fields
    = inr (sent "catalog" r (one_query (Fin id) q fields)) ∧
    catalog.name r = from_option str_of (catalog.name old) (b !! "name") ∧
    catalog.shortName r = from_option str_of (catalog.shortName old) (b !! "shortName") ∧
    catalog.defaultLeasePeriod r
    = from_option num_of (catalog.defaultLeasePeriod old) (b !! "defaultLeasePeriod") ∧
    catalog.permittedMaxLeaseExtensions r
    = from_option num_of (catalog.permittedMaxLeaseExtensions old)
        (b !! "permittedMaxLeaseExtensions") ∧
    catalog.type r = from_option str_of (catalog.type old) (b !! "type") ∧
    catalog.icon r = catalog.icon old ∧
    catalog.createdBy r = catalog.createdBy old ∧
    catalog.updatedBy r = defined_or (user env) (catalog.updatedBy old).
Proof.
  intros Hid Hs Hv.
  destruct (updateCatalog_written_row env ds catalogId b id Hid Hs)
    as (old & new & Hfit & Hold & Hlive & Hst & Hn & Hi & Hsn & _ & _ & Hl & Hm & Hty
        & Hcb & _ & Hub & _ & Hdel & _).
  exists old, new. split; [done|]. split.
  - unfold CatalogGet.fetchCatalog. rewrite Hid, Hv, Hst.
    unfold CatalogGet.findOne, Repository.find, Repository.live_row, Repository.live.
    simpl. rewrite Hfit, lookup_insert_eq, Hdel, Hlive. reflexivity.
  - by split_and!.
Qed.

Lemma update_then_fetch_witness :
  ∃ old r,
    tbl_catalog Sample.store !! 1 = Some old ∧
    CatalogGet.fetchCatalog false
      (CatalogRoutes.updateCatalog Sample.env Sample.store "1" Sample.resize).2 "1" ∅ ∅
    = inr (sent "catalog" r (one_query (Fin 1) ∅ ∅)) ∧
    catalog.name r = "Large VM" ∧
    catalog.shortName r = catalog.shortName old ∧
    catalog.updatedBy r = Some "bob".
Proof.
  destruct (update_then_fetch Sample.env Sample.store "1" 1 Sample.resize ∅ ∅)
    as (old & r & H1 & H2 & H3 & H4 & _ & _ & _ & _ & _ & H10).
  - vm_compute; reflexivity.
  - split; vm_compute; reflexivity.
  - vm_compute; reflexivity.
  - exists old, r. split; [exact H1|]. split; [exact H2|]. split; [exact H3|].
    split; [exact H4|].
    vm_compute in H1. injection H1 as <-. exact H10.
Defined.
